(** * Survey user-id tooling: a shallow embedding of the three scripts

    - [add-user-id/scripts/add_user_id.py]:
      [load_user_mapping] and [add_user_id_and_sort]
    - [add-user-id/scripts/query_responses.py]: [get_user_responses]
    - [scripts/generate_template.py]: [generate_template]

    Python values are modelled as the scripts see them: [str] as a list
    of code points, the YAML document as a tree of [pyval], a [dict] as an
    insertion-ordered association list, a [set] as a [gset], the
    DataFrame as a list of rows.  Files, standard output and standard
    error are threaded through a state-and-exception monad. *)

From Stdlib Require Import ZArith NArith Ascii String.
From stdpp Require Import base option list gmap strings sorting.

Open Scope Z_scope.
Set Warnings "-register-all".

(** ** Python strings *)

(** A [str] is a sequence of Unicode code points. *)
Abbreviation pystr := (list N).

(** An ASCII literal read as a [str]. *)
Definition py (s : string) : pystr :=
  (λ a, N_of_ascii a) <$> list_ascii_of_string s.

(** [str.isspace] on one character (CPython's whitespace table). *)
Definition isspace (c : N) : bool :=
  ((0x09 <=? c) && (c <=? 0x0D) || (0x1C <=? c) && (c <=? 0x20)
   || (c =? 0x85) || (c =? 0xA0) || (c =? 0x1680)
   || (0x2000 <=? c) && (c <=? 0x200A)
   || (c =? 0x2028) || (c =? 0x2029) || (c =? 0x202F)
   || (c =? 0x205F) || (c =? 0x3000))%N.

Fixpoint lstrip (s : pystr) : pystr :=
  match s with
  | [] => []
  | c :: s' => if isspace c then lstrip s' else s
  end.

Definition rstrip (s : pystr) : pystr := reverse (lstrip (reverse s)).

(** [s.strip()]: leading and trailing whitespace removed. *)
Definition strip (s : pystr) : pystr := rstrip (lstrip s).

(** [a <= b] on [str]: lexicographic on code points. *)
Fixpoint str_le (a b : pystr) : bool :=
  match a, b with
  | [], _ => true
  | _ :: _, [] => false
  | x :: a', y :: b' => if (x <? y)%N then true else if (y <? x)%N then false else str_le a' b'
  end.

(** ** YAML values, as [yaml.safe_load] returns them *)

Inductive pyval :=
| PNone
| PBool (b : bool)
| PInt (z : Z)
| PFloat (repr : pystr)
| PStr (s : pystr)
| PList (l : list pyval)
| PDict (d : list (pystr * pyval)).

Inductive pytype := TNoneType | TBool | TInt | TFloat | TStr | TList | TDict.

(** [type(v)] *)
Definition type_of (v : pyval) : pytype :=
  match v with
  | PNone => TNoneType
  | PBool _ => TBool
  | PInt _ => TInt
  | PFloat _ => TFloat
  | PStr _ => TStr
  | PList _ => TList
  | PDict _ => TDict
  end.

(** [isinstance(v, int)]: [bool] is a subclass of [int], so [True] and
    [False] pass the check; the payload is the number Python compares
    the value as ([True == 1], [False == 0]). *)
Definition as_int (v : pyval) : option Z :=
  match v with
  | PInt z => Some z
  | PBool b => Some (Z.b2z b)
  | _ => None
  end.

(** ** Dictionaries: insertion-ordered association lists *)

Section dict.
Context {V : Type}.

(** [d.get(k)] *)
Fixpoint dict_get (k : pystr) (d : list (pystr * V)) : option V :=
  match d with
  | [] => None
  | (k', v) :: d' => if decide (k = k') then Some v else dict_get k d'
  end.

(** [d[k] = v]: an existing key keeps its position and takes the new
    value, a new key goes last. *)
Fixpoint dict_set (k : pystr) (v : V) (d : list (pystr * V)) : list (pystr * V) :=
  match d with
  | [] => [(k, v)]
  | (k', v') :: d' => if decide (k = k') then (k, v) :: d' else (k', v') :: dict_set k v d'
  end.

Definition keys (d : list (pystr * V)) : list pystr := fst <$> d.
Definition values (d : list (pystr * V)) : list V := snd <$> d.
End dict.

(** ** Tables *)

(** A cell of a text column after [pd.read_csv]: [None] is NaN (an empty
    field), [Some s] the text [str(value)] gives. *)
Abbreviation cell := (option pystr).

(** A row of the survey table.  [student_no] is the column 学籍番号 after
    [astype(str)], [name] is 氏名, [e1], [e2], [e3] are the three
    free-text answer columns and [others] the remaining columns.  A
    row whose 学籍番号 field is empty has the text [nan] here, which is
    what [astype(str)] makes of NaN in pandas 2; pandas 3 leaves it
    missing, and no key of a mapping matches it then. *)
Record row := Row {
  student_no : pystr;
  name : cell;
  e1 : cell;
  e2 : cell;
  e3 : cell;
  others : list cell
}.

(** A row of the joined table: the column ユーザー番号 first, then the
    original columns in their order. *)
Record jrow := JRow { user_no : Z; base : row }.

(** ** The world: files, standard output and standard error *)

(** The columns the scripts ask a table for by name, besides
    ユーザー番号. *)
Inductive column := StudentNo | Name | E1 | E2 | E3.

#[global] Instance column_eq_dec : EqDecision column.
Proof. solve_decision. Defined.

Definition column_name (c : column) : string :=
  match c with
  | StudentNo => "学籍番号"
  | Name => "氏名"
  | E1 => "E1: 良かったところ（役に立った画面、助言、タイミングなど）"
  | E2 => "E2: 困ったところ・分かりにくかったところ"
  | E3 => "E3: 改善してほしい点・次のシステムへの期待"
  end.

(** What a file holds, as the scripts read it.  A YAML file holds a
    document whose top level is a mapping, with each key as the text
    [str(key)] gives, or no document at all ([safe_load] returns
    [None]).  A CSV file holds the rows [pd.read_csv] returns.
    [CsvFile] and [JoinedCsvFile] are the survey table and the joined
    table with all of their columns; [CsvLacking] and
    [JoinedCsvLacking] are tables without the columns [absent], in whose
    rows the cells of those columns are not looked at.

    The file a script writes is described by the table or document it
    was written from.  What the next script reads from it is another
    matter, see [reopened] below. *)
Inductive file :=
| YamlFile (doc : option (list (pystr * pyval)))
| CsvFile (rows : list row)
| JoinedCsvFile (rows : list jrow)
| CsvLacking (absent : list column) (rows : list row)
| JoinedCsvLacking (absent : list column) (rows : list jrow).

(** Why an entry of the mapping is rejected, with what the message
    shows after 現在. *)
Inductive reason :=
| BadFormat
| UserIdUnset
| UserIdNotInt (t : pytype)
| UserIdOutOfRange (v : pyval).

Inductive response := NoResponse | Answer (text : pystr).

(** The texts of the [ValueError]s the scripts raise: the file is empty,
    or a count of entry errors, of duplicated user ids, of unmapped
    rows. *)
Inductive message :=
| EmptyYaml
| ErrorCount (n : nat)
| DuplicateCount (n : nat)
| UnmappedCount (n : nat).

Inductive exn :=
| FileNotFoundError (path : string)
| ValueError (m : message)
| KeyError (column : string)
| ParserError (path : string).

(** The lines the scripts print, one constructor per [print] call; the
    last four go to standard error. *)
Inductive line :=
| ReadingYaml (path : string)
| ValidationErrorsFound
| EntryError (student_id : pystr) (r : reason)
| DuplicatesFound
| DuplicateUserId (uid : Z) (students : list pystr)
| UnusedUserIds (missing : list Z)
| UseAllRecommended
| MappingLoaded (n : nat)
| ReadingCsv (path : string)
| AddingUserNo
| UnmappedFound
| UnmappedRow (student : pystr) (who : cell)
| Sorting
| SavingOutput (path : string)
| Completed
| StatisticsHeader
| TotalRows (n : nat)
| UserNoRange (lowest highest : option Z)
| OutputColumns
| UserNotFound (uid : Z)
| ValidUserNos (l : list Z)
| Rule
| Dashes
| ShowUserNo (uid : Z)
| ShowName (who : cell)
| ShowStudentNo (student : pystr)
| Question (n : nat)
| Reply (r : response)
| StudentsExtracted (n : nat)
| WritingTemplate (path : string)
| TemplateDone
| NextStepsHeader
| NextStepEdit (path : string)
| NextStepRun
| ErrFileNotFound (path : string)
| ErrMissingColumn (e : exn)
| ErrOther (e : exn)
| Traceback (e : exn).

Record world := World {
  files : gmap string file;
  parents_made : list string;
  stdout : list line;
  stderr : list line
}.

(** Computations that read and change the world and may raise. *)
Definition M (A : Type) : Type := world → (exn + A) * world.

#[global] Instance M_ret : MRet M := λ A x w, (inr x, w).
#[global] Instance M_bind : MBind M := λ A B f m w,
  match m w with
  | (inl e, w') => (inl e, w')
  | (inr x, w') => f x w'
  end.

Definition raise {A} (e : exn) : M A := λ w, (inl e, w).

Definition print_all (ls : list line) : M unit := λ w,
  (inr (), World (files w) (parents_made w) (stdout w ++ ls) (stderr w)).
Definition print (l : line) : M unit := print_all [l].

Definition eprint (l : line) : M unit := λ w,
  (inr (), World (files w) (parents_made w) (stdout w) (stderr w ++ [l])).

(** [open(path)] for reading *)
Definition open_file (path : string) : M file := λ w,
  match files w !! path with
  | Some f => (inr f, w)
  | None => (inl (FileNotFoundError path), w)
  end.

(** [Path(path).parent.mkdir(parents=True, exist_ok=True)] *)
Definition mkdir_parent (path : string) : M unit := λ w,
  (inr (), World (files w) (parents_made w ++ [path]) (stdout w) (stderr w)).

Definition write_file (path : string) (f : file) : M unit := λ w,
  (inr (), World (<[path := f]> (files w)) (parents_made w) (stdout w) (stderr w)).

(** ** add_user_id.py: [load_user_mapping] *)

(** [yaml.safe_load(f)] on the mapping file. *)
Definition safe_load (path : string) : M (option (list (pystr * pyval))) :=
  f ← open_file path;
  match f with
  | YamlFile doc => mret doc
  | _ => raise (ParserError path)
  end.

(** The checks of one loop iteration on [info]: the reason it is
    rejected for, or the user id it carries. *)
Definition check_info (info : pyval) : reason + Z :=
  match info with
  | PDict d =>
      let user_id := default PNone (dict_get (py "user_id") d) in
      match user_id with
      | PNone => inl UserIdUnset
      | _ =>
          match as_int user_id with
          | None => inl (UserIdNotInt (type_of user_id))
          | Some n =>
              if (n <? 1) || (n >? 18) then inl (UserIdOutOfRange user_id)
              else inr n
          end
      end
  | _ => inl BadFormat
  end.

(** One iteration of the loop over [data.items()], on the pair
    ([user_mapping], [errors]). *)
Definition scan_entry (st : list (pystr * Z) * list line) (item : pystr * pyval)
  : list (pystr * Z) * list line :=
  let student_id := strip item.1 in
  match check_info item.2 with
  | inl r => (st.1, st.2 ++ [EntryError student_id r])
  | inr user_id => (dict_set student_id user_id st.1, st.2)
  end.

Definition scan (data : list (pystr * pyval)) : list (pystr * Z) * list line :=
  foldl scan_entry ([], []) data.

(** [user_ids.count(uid)] *)
Definition count (uid : Z) (user_ids : list Z) : nat :=
  length (filter (λ u, u = uid) user_ids).

(** [[uid for uid in set(user_ids) if user_ids.count(uid) > 1]]; the
    set is iterated in an order of its own. *)
Definition find_duplicates (user_ids : list Z) : list Z :=
  filter (λ uid, (1 < count uid user_ids)%nat) (elements (list_to_set user_ids : gset Z)).

(** [[sid for sid, u in user_mapping.items() if u == uid]] *)
Definition students_of (uid : Z) (user_mapping : list (pystr * Z)) : list pystr :=
  keys (filter (λ p, p.2 = uid) user_mapping).

(** [set(range(1, 19)) - set(user_ids)] *)
Definition missing_ids (user_ids : list Z) : gset Z :=
  list_to_set (seqZ 1 18) ∖ list_to_set user_ids.

(** [sorted(s)] on integers *)
Definition sorted (l : list Z) : list Z := merge_sort Z.le l.

Definition load_user_mapping (yaml_path : string) : M (list (pystr * Z)) :=
  print (ReadingYaml yaml_path);;
  data ← safe_load yaml_path;
  match data with
  | None | Some [] => raise (ValueError EmptyYaml)
  | Some data =>
      let '(user_mapping, errors) := scan data in
      if bool_decide (errors ≠ []) then
        print ValidationErrorsFound;;
        print_all errors;;
        raise (ValueError (ErrorCount (length errors)))
      else
        let user_ids := values user_mapping in
        let duplicates := find_duplicates user_ids in
        if bool_decide (duplicates ≠ []) then
          print DuplicatesFound;;
          print_all ((λ uid, DuplicateUserId uid (students_of uid user_mapping)) <$> duplicates);;
          raise (ValueError (DuplicateCount (length duplicates)))
        else
          let missing := missing_ids user_ids in
          (if bool_decide (missing ≠ ∅) then
             print (UnusedUserIds (sorted (elements missing)));;
             print UseAllRecommended
           else mret ());;
          print (MappingLoaded (length user_mapping));;
          mret user_mapping
  end.

(** ** pandas: [DataFrame.sort_values] *)

(** [df.sort_values(by)] is called with its default [kind='quicksort'].
    The rows come back rearranged and ordered by the key; pandas and
    numpy promise nothing about the order of rows with equal keys (only
    [kind='mergesort'] and [kind='stable'] do), and which routine runs
    depends on the length of the column and on the machine.  The model
    is therefore parametric in the routine: any function with these two
    properties.  The argument [le] compares two rows by the key. *)
Class SortValues := {
  sort_values : ∀ {A : Type}, (A → A → bool) → list A → list A;
  sort_values_perm : ∀ A (le : A → A → bool) (l : list A),
    sort_values le l ≡ₚ l;
  sort_values_sorted : ∀ A (le : A → A → bool) (l : list A),
    (∀ x y, le x y = true ∨ le y x = true) →
    (∀ x y z, le x y = true → le y z = true → le x z = true) →
    StronglySorted (λ x y, le x y = true) (sort_values le l)
}.

(** Insertion sort, the routine numpy's quicksort runs on short arrays. *)
Fixpoint insert_sorted {A} (le : A → A → bool) (x : A) (l : list A) : list A :=
  match l with
  | [] => [x]
  | y :: l' => if le x y then x :: l else y :: insert_sorted le x l'
  end.

Definition insertion_sort {A} (le : A → A → bool) (l : list A) : list A :=
  foldr (insert_sorted le) [] l.

(** ** numpy: [argsort] with [kind='quicksort'] *)

(** pandas sorts a table by one column with [argsort] on the values of
    the column and [take] on the table.  For the default kind numpy has
    two routines: [aquicksort_] of npysort/quicksort.cpp and, for 32-
    and 64-bit values on x86 CPUs with AVX2 or AVX-512, a vectorised
    quicksort that it prefers there.  Neither keeps the order of equal
    values; the orders they leave differ.  This is [aquicksort_].  The
    array [tosort] starts as 0, 1, 2, ... and is rearranged in place,
    the values [v] are only compared.  A partition of more than 17
    indices is split around the median of its first, middle and last
    value, the larger part is pushed on a stack; a shorter one is
    sorted by insertion.  [cdepth] bounds the number of splits; below
    zero [aheapsort_] takes over.  Positions in [tosort] stand for the
    pointers [pl], [pr], [pi], [pj], [pk]. *)
Section aquicksort.
Context {A : Type} (le : A → A → bool) (v : list A).

(** [Tag::less(v[a], v[b])]. *)
Definition npy_less (a b : nat) : bool :=
  match v !! a, v !! b with
  | Some x, Some y => negb (le y x)
  | _, _ => false
  end.

(** [INTP_SWAP] of the entries at the positions [p] and [q]. *)
Definition intp_swap (p q : nat) (tosort : list nat) : list nat :=
  <[q := tosort !!! p]> (<[p := tosort !!! q]> tosort).

Definition median_of_three (pl pm pr : nat) (tosort : list nat) : list nat :=
  let tosort :=
    if npy_less (tosort !!! pm) (tosort !!! pl) then intp_swap pm pl tosort else tosort in
  let tosort :=
    if npy_less (tosort !!! pr) (tosort !!! pm) then intp_swap pr pm tosort else tosort in
  if npy_less (tosort !!! pm) (tosort !!! pl) then intp_swap pm pl tosort else tosort.

(** [do { ++pi; } while (Tag::less(v[*pi], vp))], entered at the
    position after the increment; [vp] is kept as the index of the
    pivot. *)
Fixpoint scan_up (fuel : nat) (tosort : list nat) (vp pi : nat) : nat :=
  match fuel with
  | O => pi
  | S fuel => if npy_less (tosort !!! pi) vp then scan_up fuel tosort vp (S pi) else pi
  end.

(** [do { --pj; } while (Tag::less(vp, v[*pj]))]. *)
Fixpoint scan_down (tosort : list nat) (vp pj : nat) : nat :=
  match pj with
  | O => O
  | S pj => if npy_less vp (tosort !!! pj) then scan_down tosort vp pj else pj
  end.

(** The loop [for (;;)] of the partition. *)
Fixpoint hoare (fuel : nat) (tosort : list nat) (vp pi pj : nat) : list nat * nat :=
  match fuel with
  | O => (tosort, pi)
  | S fuel =>
      let pi := scan_up (length tosort) tosort vp (S pi) in
      let pj := scan_down tosort vp pj in
      if bool_decide (pj ≤ pi)%nat then (tosort, pi)
      else hoare fuel (intp_swap pi pj tosort) vp pi pj
  end.

Definition SMALL_QUICKSORT : nat := 16.

(** The loop [while ((pr - pl) > SMALL_QUICKSORT)]; an entry of the
    stack is a partition put aside, with the depth left for it. *)
Fixpoint partitions (fuel : nat) (tosort : list nat) (pl pr : nat) (cdepth : Z)
    (stack : list (nat * nat * Z)) : list nat * nat * nat * list (nat * nat * Z) :=
  match fuel with
  | O => (tosort, pl, pr, stack)
  | S fuel =>
      if bool_decide (SMALL_QUICKSORT < pr - pl)%nat then
        let pm := (pl + (pr - pl) / 2)%nat in
        let tosort := median_of_three pl pm pr tosort in
        let vp := tosort !!! pm in
        let tosort := intp_swap pm (pr - 1) tosort in
        let '(tosort, pi) := hoare (length tosort) tosort vp pl (pr - 1) in
        let tosort := intp_swap pi (pr - 1) tosort in
        let cdepth := cdepth - 1 in
        if bool_decide (pi - pl < pr - pi)%nat then
          partitions fuel tosort pl (pi - 1) cdepth ((S pi, pr, cdepth) :: stack)
        else
          partitions fuel tosort (S pi) pr cdepth ((pl, (pi - 1)%nat, cdepth) :: stack)
      else (tosort, pl, pr, stack)
  end.

(** [while (pj > pl && Tag::less(vp, v[*pk])) { *pj-- = *pk--; } *pj = vi]. *)
Fixpoint shift_up (tosort : list nat) (vi pl pj : nat) : list nat :=
  match pj with
  | O => <[O := vi]> tosort
  | S pk =>
      if bool_decide (pl < pj)%nat && npy_less vi (tosort !!! pk)
      then shift_up (<[pj := tosort !!! pk]> tosort) vi pl pk
      else <[pj := vi]> tosort
  end.

(** The insertion sort of the positions [pl] to [pr]. *)
Definition insertion (tosort : list nat) (pl pr : nat) : list nat :=
  foldl (λ tosort pi, shift_up tosort (tosort !!! pi) pl pi) tosort (seq (S pl) (pr - pl)).

(** The heap of [aheapsort_] is the array [a = tosort - 1], counted from
    one: [a[k]] is at position [pl + k - 1]. *)
Definition heap_at (pl k : nat) : nat := (pl + k - 1)%nat.

(** [for (i, j; j <= n;) { ... } a[i] = tmp]. *)
Fixpoint sift (fuel : nat) (tosort : list nat) (pl n tmp i j : nat) : list nat :=
  match fuel with
  | O => <[heap_at pl i := tmp]> tosort
  | S fuel =>
      if bool_decide (j ≤ n)%nat then
        let j := if bool_decide (j < n)%nat
                    && npy_less (tosort !!! heap_at pl j) (tosort !!! heap_at pl (j + 1))
                 then (j + 1)%nat else j in
        if npy_less tmp (tosort !!! heap_at pl j)
        then sift fuel (<[heap_at pl i := tosort !!! heap_at pl j]> tosort) pl n tmp j (j + j)
        else <[heap_at pl i := tmp]> tosort
      else <[heap_at pl i := tmp]> tosort
  end.

Definition aheapsort (tosort : list nat) (pl n : nat) : list nat :=
  let tosort :=
    foldl (λ tosort l, sift n tosort pl n (tosort !!! heap_at pl l) l (l + l))
      tosort (reverse (seq 1 (n / 2))) in
  foldl (λ tosort n,
           let tmp := tosort !!! heap_at pl n in
           let tosort := <[heap_at pl n := tosort !!! heap_at pl 1]> tosort in
           sift n tosort pl (n - 1) tmp 1 2)
    tosort (reverse (seq 2 (n - 1))).

(** The loop [while (1)]: a partition is sorted, the next one is popped. *)
Fixpoint aquicksort_loop (fuel : nat) (tosort : list nat) (pl pr : nat) (cdepth : Z)
    (stack : list (nat * nat * Z)) : list nat :=
  match fuel with
  | O => tosort
  | S fuel =>
      let '(tosort, stack) :=
        if bool_decide (cdepth < 0) then (aheapsort tosort pl (pr - pl + 1), stack)
        else
          let '(tosort, pl, pr, stack) :=
            partitions (length tosort) tosort pl pr cdepth stack in
          (insertion tosort pl pr, stack) in
      match stack with
      | [] => tosort
      | (pl, pr, cdepth) :: stack => aquicksort_loop fuel tosort pl pr cdepth stack
      end
  end.

(** [npy_get_msb(num)] is the binary logarithm of [num]. *)
Definition aquicksort : list nat :=
  let num := length v in
  aquicksort_loop (S num) (seq 0 num) 0 (num - 1) (Z.log2 (Z.of_nat num) * 2) [].

End aquicksort.

(** Every element is below the next. *)
Fixpoint ascending {A} (le : A → A → bool) (l : list A) : bool :=
  match l with
  | x :: l' => match l' with y :: _ => le x y | [] => true end && ascending le l'
  | [] => true
  end.

(** [df.take(argsort(values))].  numpy's routine returns the indices of
    an ascending rearrangement; the class asks for the proof of it,
    which is replaced here by a check of the result: were the indices
    not a rearrangement of 0, 1, 2, ... or the rows not ascending, the
    rows would be sorted by insertion. *)
Definition argsort_take {A} (le : A → A → bool) (l : list A) : list A :=
  let indexer := aquicksort le l in
  let taken := omap (λ i, l !! i) indexer in
  if bool_decide (merge_sort (≤)%nat indexer = seq 0 (length l)) && ascending le taken
  then taken
  else insertion_sort le l.

(** [drop_duplicates()] / [unique()]: the first occurrence of each value
    is kept, in order of appearance. *)
Fixpoint drop_duplicates {A} `{EqDecision A} (l : list A) : list A :=
  match l with
  | [] => []
  | x :: l' => x :: filter (λ y, y ≠ x) (drop_duplicates l')
  end.

(** [read_csv] hands the columns the scripts use, and with them the
    list of those the table lacks; a joined file read as a survey table
    has its ユーザー番号 column overwritten later.  What [read_csv] makes
    of a YAML file depends on its text: it raises, or it hands over a
    table without any of the columns, and the script raises at the first
    one it asks for.  The model has one error for both. *)
Definition read_csv (path : string) : M (list column * list row) :=
  f ← open_file path;
  match f with
  | CsvFile rows => mret ([], rows)
  | JoinedCsvFile rows => mret ([], base <$> rows)
  | CsvLacking absent rows => mret (absent, rows)
  | JoinedCsvLacking absent rows => mret (absent, base <$> rows)
  | YamlFile _ => raise (ParserError path)
  end.

(** [df[col]], [row[col]]: [KeyError] when the table lacks the column. *)
Definition need (absent : list column) (c : column) : M unit :=
  if bool_decide (c ∈ absent) then raise (KeyError (column_name c)) else mret ().

(** The joined table as a file: the columns of the table read, with
    ユーザー番号 before them. *)
Definition joined_file (absent : list column) (df : list jrow) : file :=
  match absent with
  | [] => JoinedCsvFile df
  | _ => JoinedCsvLacking absent df
  end.

(** ** add_user_id.py: [add_user_id_and_sort] *)

(** [df['学籍番号'].astype(str).str.strip()] on one row *)
Definition strip_student_no (r : row) : row :=
  Row (strip (student_no r)) (name r) (e1 r) (e2 r) (e3 r) (others r).

(** [df['学籍番号'].map(user_mapping)] on one row: NaN when the key is
    not in the dictionary. *)
Definition map_user_no (user_mapping : list (pystr * Z)) (r : row) : row * option Z :=
  (r, dict_get (student_no r) user_mapping).

(** [astype(int)] once no NaN is left *)
Definition astype_int (p : row * option Z) : jrow := JRow (default 0 p.2) p.1.

Definition le_user_no (a b : jrow) : bool := user_no a <=? user_no b.

Definition minimum (l : list Z) : option Z :=
  match l with [] => None | x :: l' => Some (foldr Z.min x l') end.
Definition maximum (l : list Z) : option Z :=
  match l with [] => None | x :: l' => Some (foldr Z.max x l') end.

(** The last line printed shows the number of columns of the output,
    one more than the table has; the model leaves the number out. *)
Definition add_user_id_and_sort {sorter : SortValues} (csv_path : string)
    (user_mapping : list (pystr * Z)) (output_path : string) : M unit :=
  print (ReadingCsv csv_path);;
  '(absent, df) ← read_csv csv_path;
  need absent StudentNo;;
  let df := strip_student_no <$> df in
  print AddingUserNo;;
  let df := map_user_no user_mapping <$> df in
  let unmapped := filter (λ p, p.2 = None) df in
  if bool_decide (0 < length unmapped)%nat then
    print UnmappedFound;;
    need absent Name;;
    print_all ((λ p, UnmappedRow (student_no p.1) (name p.1)) <$> unmapped);;
    raise (ValueError (UnmappedCount (length unmapped)))
  else
    let df := astype_int <$> df in
    print Sorting;;
    let df := sort_values le_user_no df in
    mkdir_parent output_path;;
    print (SavingOutput output_path);;
    write_file output_path (joined_file absent df);;
    print Completed;;
    print StatisticsHeader;;
    print (TotalRows (length df));;
    print (UserNoRange (minimum (user_no <$> df)) (maximum (user_no <$> df)));;
    print OutputColumns.

(** ** query_responses.py: [get_user_responses] *)

(** [try: ... except: ...] *)
Definition try_except {A} (body : M A) (handler : exn → M A) : M A := λ w,
  match body w with
  | (inl e, w') => handler e w'
  | r => r
  end.

(** [pd.read_csv(csv_path)] followed by [df['ユーザー番号']].  A YAML
    mapping is read as a table of its lines, without that column. *)
Definition read_joined_csv (path : string) : M (list column * list jrow) :=
  f ← open_file path;
  match f with
  | JoinedCsvFile rows => mret ([], rows)
  | JoinedCsvLacking absent rows => mret (absent, rows)
  | CsvFile _ | CsvLacking _ _ | YamlFile (Some _) => raise (KeyError "ユーザー番号")
  | YamlFile None => raise (ParserError path)
  end.

(** What is printed for one answer column: (回答なし) for NaN or a blank
    text, the value itself otherwise. *)
Definition respond (c : cell) : response :=
  match c with
  | None => NoResponse
  | Some s => if bool_decide (strip s = []) then NoResponse else Answer s
  end.

(** All that is printed for the row of a table with all its columns. *)
Definition show_row (user_id : Z) (r : row) : list line :=
  [ Rule; ShowUserNo user_id; ShowName (name r); ShowStudentNo (student_no r); Rule;
    Question 1; Dashes; Reply (respond (e1 r));
    Question 2; Dashes; Reply (respond (e2 r));
    Question 3; Dashes; Reply (respond (e3 r));
    Rule ].

(** The block printed for one answer column: the question, a line of
    dashes, then the cell the row has in that column. *)
Definition show_answer (absent : list column) (n : nat) (c : column) (answer : cell)
  : M unit :=
  print (Question n);;
  print Dashes;;
  need absent c;;
  print (Reply (respond answer)).

Definition get_user_responses (csv_path : string) (user_id : Z) : M bool :=
  try_except
    (print (ReadingCsv csv_path);;
     '(absent, df) ← read_joined_csv csv_path;
     let user_data := filter (λ r, user_no r = user_id) df in
     match user_data with
     | [] =>
         print (UserNotFound user_id);;
         print (ValidUserNos (sorted (drop_duplicates (user_no <$> df))));;
         mret false
     | r :: _ =>
         let r := base r in
         print Rule;;
         print (ShowUserNo user_id);;
         need absent Name;;
         print (ShowName (name r));;
         need absent StudentNo;;
         print (ShowStudentNo (student_no r));;
         print Rule;;
         show_answer absent 1 E1 (e1 r);;
         show_answer absent 2 E2 (e2 r);;
         show_answer absent 3 E3 (e3 r);;
         print Rule;;
         mret true
     end)
    (λ e,
      match e with
      | FileNotFoundError _ => eprint (ErrFileNotFound csv_path)
      | KeyError _ => eprint (ErrMissingColumn e)
      | _ => eprint (ErrOther e);; eprint (Traceback e)
      end;;
      mret false).

(** ** generate_template.py: [generate_template] *)

(** A cell as [yaml.dump] sees it: NaN is a float. *)
Definition pyval_of_cell (c : cell) : pyval :=
  match c with
  | None => PFloat (py "nan")
  | Some s => PStr s
  end.

Definition le_student_no (a b : pystr * cell) : bool := str_le a.1 b.1.

(** One iteration of the loop over [students.iterrows()]. *)
Definition template_entry (user_mapping : list (pystr * pyval))
    (item : nat * (pystr * cell)) : list (pystr * pyval) :=
  let '(idx, (student_id, who)) := item in
  let user_id := Z.of_nat idx + 1 in
  dict_set student_id
    (PDict [(py "user_id", PInt user_id); (py "name", pyval_of_cell who)])
    user_mapping.

(** The data frame [students] after [drop_duplicates], [sort_values]
    and [reset_index]. *)
Definition extract_students {sorter : SortValues} (df : list row) : list (pystr * cell) :=
  let df := strip_student_no <$> df in
  let students := drop_duplicates ((λ r, (student_no r, name r)) <$> df) in
  sort_values le_student_no students.

Definition build_template (students : list (pystr * cell)) : list (pystr * pyval) :=
  foldl template_entry [] (zip (seq 0 (length students)) students).

Definition generate_template {sorter : SortValues} (csv_path output_path : string) : M bool :=
  try_except
    (print (ReadingCsv csv_path);;
     '(absent, df) ← read_csv csv_path;
     need absent StudentNo;;
     need absent Name;;
     let students := extract_students df in
     print (StudentsExtracted (length students));;
     let user_mapping := build_template students in
     mkdir_parent output_path;;
     print (WritingTemplate output_path);;
     write_file output_path (YamlFile (Some user_mapping));;
     print TemplateDone;;
     print NextStepsHeader;;
     print (NextStepEdit output_path);;
     print NextStepRun;;
     mret true)
    (λ e,
      match e with
      | FileNotFoundError _ => eprint (ErrFileNotFound csv_path)
      | _ => eprint (ErrOther e)
      end;;
      mret false).

(** ** The entry points: [main] of the three scripts *)

(** The paths the entry points have built in. *)
Definition mapping_yaml : string := "/app/config/user_mapping.yaml".
Definition survey_csv : string := "/app/システムアンケート回答.csv".
Definition joined_csv : string := "/app/output/システムアンケート回答_ユーザー番号付き.csv".

(** The lines an entry point prints itself.  [main] of
    query_responses.py prints the first five to standard output, before
    it calls anything; [main] of add_user_id.py prints the last four to
    standard error, after the call has raised. *)
Inductive notice :=
| UserNoMissing
| Usage
| UsageExample
| UserNoNotInteger (arg : pystr)
| UserNoOutOfRange (user_id : Z)
| FileMissing (e : exn)
| Failed (e : exn)
| Unexpected (e : exn)
| UnexpectedTraceback (e : exn).

(** How a process ends: the status given to [sys.exit], the lines the
    entry point printed itself, and the world the called functions
    left. *)
Record ending := Ending {
  status : Z;
  notices : list notice;
  after : world
}.

(** [main] of add_user_id.py.  [sys.exit(0)] raises [SystemExit], which
    none of the handlers catches. *)
Definition add_user_id_main {sorter : SortValues} (w : world) : ending :=
  match (user_mapping ← load_user_mapping mapping_yaml;
         add_user_id_and_sort survey_csv user_mapping joined_csv) w with
  | (inr _, w') => Ending 0 [] w'
  | (inl (FileNotFoundError _ as e), w') => Ending 1 [FileMissing e] w'
  | (inl (ValueError _ as e), w') => Ending 1 [Failed e] w'
  | (inl e, w') => Ending 1 [Unexpected e; UnexpectedTraceback e] w'
  end.

(** [main] of query_responses.py on the arguments [sys.argv].  Python's
    [int] is not modelled: [int_of arg] stands for [int(arg)], [None]
    when it raises [ValueError].  An exception that leaves
    [get_user_responses] would end the process with status 1. *)
Definition query_responses_main (int_of : pystr → option Z) (argv : list pystr)
    (w : world) : ending :=
  match argv !! 1%nat with
  | None => Ending 1 [UserNoMissing; Usage; UsageExample] w
  | Some arg =>
      match int_of arg with
      | None => Ending 1 [UserNoNotInteger arg] w
      | Some user_id =>
          if (user_id <? 1) || (user_id >? 18) then Ending 1 [UserNoOutOfRange user_id] w
          else
            match get_user_responses joined_csv user_id w with
            | (inr true, w') => Ending 0 [] w'
            | (_, w') => Ending 1 [] w'
            end
      end
  end.

(** [main] of generate_template.py. *)
Definition generate_template_main {sorter : SortValues} (w : world) : ending :=
  match generate_template survey_csv mapping_yaml w with
  | (inr true, w') => Ending 0 [] w'
  | (_, w') => Ending 1 [] w'
  end.

(** A reader of plain decimal numerals, for the sample runs: on a text
    of ASCII digits it gives what [int] gives. *)
Definition decimal (s : pystr) : option Z :=
  match s with
  | [] => None
  | _ =>
      foldl (λ acc c, a ← acc;
                      if (48 <=? c)%N && (c <=? 57)%N
                      then Some (10 * a + (Z.of_N c - 48)) else None)
        (Some 0) s
  end.

(** ** Between two runs *)

(** A file that one script has written is text on disk when the next
    script opens it, and what [read_csv] or [safe_load] finds there need
    not be what [to_csv] or [yaml.dump] was given: a carriage return in
    an answer ends the row, a text of digits comes back as a number, a
    name that is a number is dumped as an object that [safe_load]
    refuses.  [reread f] stands for what is read from the file that was
    written as [f], and [reopened reread path w] is the world [w] as the
    script that opens [path] next finds it. *)
Definition reopened (reread : file → file) (path : string) (w : world) : world :=
  World (alter reread path (files w)) (parents_made w) (stdout w) (stderr w).

(** * Readings of the code the properties are stated with *)

(** The defects of an entry, by the four checks of the loop body: the
    attribute bag is not a record, the identifier field is absent or
    null, the identifier is not an integer, the identifier is outside
    1..18. *)
Inductive defect : pyval → reason → Prop :=
| defect_format info :
    (∀ d, info ≠ PDict d) → defect info BadFormat
| defect_unset d :
    default PNone (dict_get (py "user_id") d) = PNone →
    defect (PDict d) UserIdUnset
| defect_type d v :
    dict_get (py "user_id") d = Some v → v ≠ PNone → as_int v = None →
    defect (PDict d) (UserIdNotInt (type_of v))
| defect_range d v n :
    dict_get (py "user_id") d = Some v → as_int v = Some n → n < 1 ∨ 18 < n →
    defect (PDict d) (UserIdOutOfRange v).

(** The error line of an entry the loop rejects. *)
Definition entry_error (item : pystr * pyval) : option line :=
  match check_info item.2 with
  | inl r => Some (EntryError (strip item.1) r)
  | inr _ => None
  end.

(** The pair an accepted entry stores into [user_mapping]. *)
Definition entry_pair (item : pystr * pyval) : option (pystr * Z) :=
  match check_info item.2 with
  | inl _ => None
  | inr user_id => Some (strip item.1, user_id)
  end.

(** [d[k] = v] for each pair in turn, from the empty dictionary on. *)
Definition dict_of {V} (l : list (pystr * V)) : list (pystr * V) :=
  foldl (λ d p, dict_set p.1 p.2 d) [] l.

(** What the duplicate check prints for the colliding user ids. *)
Definition duplicate_lines (user_mapping : list (pystr * Z)) : list line :=
  (λ uid, DuplicateUserId uid (students_of uid user_mapping))
    <$> find_duplicates (values user_mapping).

(** What the coverage check prints for the user ids in use. *)
Definition coverage_warning (user_ids : list Z) : list line :=
  if bool_decide (missing_ids user_ids ≠ ∅)
  then [UnusedUserIds (sorted (elements (missing_ids user_ids))); UseAllRecommended]
  else [].

(** A row of the table with its student number trimmed and its user
    number attached. *)
Definition join_row (user_mapping : list (pystr * Z)) (r : row) : jrow :=
  astype_int (map_user_no user_mapping (strip_student_no r)).

(** The rows whose trimmed student number is not a key of the mapping. *)
Definition unmapped_rows (user_mapping : list (pystr * Z)) (rows : list row) : list row :=
  filter (λ r, dict_get (strip (student_no r)) user_mapping = None) rows.


(** The entry the loop writes for the row at index [idx] of [students]. *)
Definition template_row (idx : nat) (p : pystr * cell) : pystr * pyval :=
  (p.1, PDict [(py "user_id", PInt (Z.of_nat idx + 1)); (py "name", pyval_of_cell p.2)]).

(** A row that has a student number: its 学籍番号 field is not the text
    that [astype(str)] makes of an empty one. *)
Definition has_student_no (r : row) : Prop := student_no r ≠ py "nan".

(** The columns a file lacks. *)
Definition lacking (f : file) : list column :=
  match f with
  | CsvLacking absent _ | JoinedCsvLacking absent _ => absent
  | _ => []
  end.

(** The table [read_csv] hands over for a file, if it is one with the
    column 学籍番号. *)
Definition table_of (f : file) : option (list row) :=
  match f with
  | CsvFile rows => Some rows
  | JoinedCsvFile rows => Some (base <$> rows)
  | CsvLacking absent rows =>
      if bool_decide (StudentNo ∈ absent) then None else Some rows
  | JoinedCsvLacking absent rows =>
      if bool_decide (StudentNo ∈ absent) then None else Some (base <$> rows)
  | YamlFile _ => None
  end.

(** The rows of a file with the column ユーザー番号. *)
Definition joined_table_of (f : file) : option (list jrow) :=
  match f with
  | JoinedCsvFile rows | JoinedCsvLacking _ rows => Some rows
  | _ => None
  end.

(** The first column a table lacks, in the order in which
    [get_user_responses] asks the row for them. *)
Definition first_absent (absent : list column) : option column :=
  head (filter (λ c, c ∈ absent) [Name; StudentNo; E1; E2; E3]).

(** How many lines of [show_row] are printed before the row is asked
    for a column. *)
Definition shown_before (c : column) : nat :=
  match c with
  | Name => 2
  | StudentNo => 3
  | E1 => 7
  | E2 => 10
  | E3 => 13
  end.

(** The trimmed student numbers of a table. *)
Definition student_numbers (rows : list row) : gset pystr :=
  list_to_set ((λ r, strip (student_no r)) <$> rows).

(** The dictionary that gives the student at index [i] the user id
    [i + 1]. *)
Definition numbered (students : list (pystr * cell)) : list (pystr * Z) :=
  imap (λ i p, (p.1, Z.of_nat i + 1)) students.

(** How [main] of add_user_id.py ends on an exception. *)
Definition failed (e : exn) (w : world) : ending :=
  Ending 1
    match e with
    | FileNotFoundError _ => [FileMissing e]
    | ValueError _ => [Failed e]
    | _ => [Unexpected e; UnexpectedTraceback e]
    end
    w.

(** * Sample inputs *)

(** A world that holds the mapping file and nothing else. *)
Definition yaml_world (data : list (pystr * pyval)) : world :=
  World {[ "user_mapping.yaml"%string := YamlFile (Some data) ]} [] [] [].

(** A world that holds the survey table and nothing else. *)
Definition csv_world (rows : list row) : world :=
  World {[ "answers.csv"%string := CsvFile rows ]} [] [] [].

(** A world that holds the mapping file and the survey table. *)
Definition pipeline_world (data : list (pystr * pyval)) (rows : list row) : world :=
  World {[ "user_mapping.yaml"%string := YamlFile (Some data);
           "answers.csv"%string := CsvFile rows ]} [] [] [].

(** The files the entry points look for: the mapping and the survey
    table at the built-in paths. *)
Definition app_world (data : list (pystr * pyval)) (rows : list row) : world :=
  World {[ mapping_yaml := YamlFile (Some data); survey_csv := CsvFile rows ]} [] [] [].

(** The survey table at its built-in path, and nothing else. *)
Definition survey_world (rows : list row) : world :=
  World {[ survey_csv := CsvFile rows ]} [] [] [].

(** A world that holds a joined table and nothing else. *)
Definition joined_world (df : list jrow) : world :=
  World {[ "out/joined.csv"%string := JoinedCsvFile df ]} [] [] [].

(** A mapping file with two entries that lack [user_id] and one entry
    with [user_id: 25]. *)
Definition three_defects : list (pystr * pyval) :=
  [ (py "S001", PDict [(py "name", PStr (py "A"))]);
    (py "S002", PDict [(py "user_id", PInt 25)]);
    (py "S003", PDict [(py "name", PStr (py "C"))]) ].

(** A mapping file in which two different keys are given user id 7. *)
Definition two_sevens : list (pystr * pyval) :=
  [ (py "S001", PDict [(py "user_id", PInt 7); (py "name", PStr (py "A"))]);
    (py "S002", PDict [(py "user_id", PInt 3)]);
    (py "S003 ", PDict [(py "user_id", PInt 7)]) ].

(** A valid mapping: one key with blanks around it, two user ids. *)
Definition two_students : list (pystr * pyval) :=
  [ (py " S001 ", PDict [(py "user_id", PInt 2); (py "name", PStr (py "A"))]);
    (py "S002", PDict [(py "user_id", PInt 1)]) ].

(** Two entries whose keys are equal once trimmed. *)
Definition colliding_keys : list (pystr * pyval) :=
  [ (py "S001", PDict [(py "user_id", PInt 1)]);
    (py " S001 ", PDict [(py "user_id", PInt 2)]) ].

(** A table with one mapped row and two rows the mapping does not know. *)
Definition three_rows : list row :=
  [ Row (py "S001") (Some (py "A")) (Some (py "good")) None None [];
    Row (py " S009 ") (Some (py "I")) None None None [];
    Row (py "S010") None None (Some (py "slow")) None [] ].

(** A mapping key with blanks around it, a student number with blanks
    around it. *)
Definition padded_data : list (pystr * pyval) :=
  [ (py "S001", PDict [(py "user_id", PInt 2)]);
    (py " S002 ", PDict [(py "user_id", PInt 1)]) ].

(** The table to [padded_data]. *)
Definition padded_rows : list row :=
  [ Row (py " S001 ") (Some (py "A")) (Some (py "good")) None None [];
    Row (py "S002") (Some (py "B")) None (Some (py "slow")) None [] ].

(** A table in which two students answered twice. *)
Definition repeated_rows : list row :=
  [ Row (py "S002") (Some (py "B")) (Some (py "first")) None None [];
    Row (py "S001") (Some (py "A")) (Some (py "first")) None None [];
    Row (py " S002") (Some (py "B")) (Some (py "second")) None None [];
    Row (py "S001 ") (Some (py "A")) (Some (py "second")) None None [] ].

(** Twelve hundred answers, in turn of the students S002 (named B) and
    S001 (named A); the first answer of each row is its number in the
    table, from "answer 0000" to "answer 1199". *)
Definition alternating_rows : list row :=
  (λ i, Row (py (if Nat.even i then "S002" else "S001"))
            (Some (py (if Nat.even i then "B" else "A")))
            (Some (py "answer " ++ [ N.of_nat (48 + i / 1000);
                                     N.of_nat (48 + (i / 100) mod 10);
                                     N.of_nat (48 + (i / 10) mod 10);
                                     N.of_nat (48 + i mod 10) ]))
            None None []) <$> seq 0 1200.

(** A joined table with user numbers 5, 2, 5 and 9. *)
Definition joined_rows : list jrow :=
  [ JRow 5 (Row (py "S005") (Some (py "E")) None None None []);
    JRow 2 (Row (py "S002") (Some (py "B")) None None None []);
    JRow 5 (Row (py "S005") (Some (py "E")) (Some (py "again")) None None []);
    JRow 9 (Row (py "S009") None None None None []) ].



(** Two students; the first wrote their name in two ways. *)
Definition two_spellings : list row :=
  [ Row (py "S001") (Some (py "Taro")) None None None [];
    Row (py "S002") (Some (py "Jiro")) None None None [];
    Row (py "S001 ") (Some (py "taro")) None None None [] ].

(** Three answers of two students, each with one name. *)
Definition one_spelling : list row :=
  [ Row (py "S002 ") (Some (py "Jiro")) None None None [];
    Row (py "S001") (Some (py "Taro")) None None None [];
    Row (py "S002") (Some (py "Jiro")) (Some (py "again")) None None [] ].

(** A table of nineteen students, A to S, who gave no name. *)
Definition nineteen_rows : list row :=
  (λ i, Row [N.of_nat (65 + i)] None None None None []) <$> seq 0 19.

(** * Properties *)

(** ** The per-entry pass *)


Lemma check_info_defect info r : check_info info = inl r ↔ defect info r.
Proof.
  split.
  - destruct info as [| | | | | |d]; simpl;
      try (intros [= <-]; constructor; intros ?; discriminate).
    destruct (dict_get (py "user_id") d) as [v|] eqn:Hget; simpl.
    + destruct v as [|b|z| | | |]; simpl;
        try (intros [= <-]; first
          [ apply defect_unset; rewrite Hget; reflexivity
          | apply (defect_type d _ Hget); [discriminate | reflexivity] ]).
      * destruct ((Z.b2z b <? 1) || (Z.b2z b >? 18)) eqn:Hr; intros [= <-].
        apply (defect_range d _ _ Hget eq_refl).
        apply orb_prop in Hr as [Hr|Hr]; lia.
      * destruct ((z <? 1) || (z >? 18)) eqn:Hr; intros [= <-].
        apply (defect_range d _ _ Hget eq_refl).
        apply orb_prop in Hr as [Hr|Hr]; lia.
    + intros [= <-]. apply defect_unset. rewrite Hget. reflexivity.
  - intros [info' Hd|d Hd|d v Hget Hv Hint|d v n Hget Hint Hn].
    + destruct info'; try reflexivity. destruct (Hd d); reflexivity.
    + simpl. rewrite Hd. reflexivity.
    + simpl. rewrite Hget. simpl. destruct v; try done.
    + simpl. rewrite Hget. simpl. destruct v; try done; simpl in *;
        injection Hint as ->;
        (replace ((n <? 1) || (n >? 18)) with true; [reflexivity|]);
        symmetry; apply orb_true_iff; lia.
Qed.

Lemma scan_entry_foldl data user_mapping errors :
  foldl scan_entry (user_mapping, errors) data
  = (foldl (λ d p, dict_set p.1 p.2 d) user_mapping (omap entry_pair data),
     errors ++ omap entry_error data).
Proof.
  revert user_mapping errors.
  induction data as [|item data IH]; intros user_mapping errors; cbn [foldl omap list_omap].
  - rewrite app_nil_r. reflexivity.
  - destruct (scan_entry (user_mapping, errors) item) as [user_mapping' errors'] eqn:Hs.
    rewrite IH. revert Hs.
    assert (Hp := eq_refl (entry_pair item)). assert (He := eq_refl (entry_error item)).
    unfold entry_pair at 2 in Hp. unfold entry_error at 2 in He. unfold scan_entry.
    destruct (check_info item.2); rewrite Hp, He; cbn [fst snd foldl];
      intros [= <- <-]; [rewrite <- app_assoc|]; reflexivity.
Qed.

Lemma scan_eq data :
  scan data = (dict_of (omap entry_pair data), omap entry_error data).
Proof. unfold scan. rewrite scan_entry_foldl. reflexivity. Qed.

Lemma entry_error_Some item l :
  entry_error item = Some l ↔
  ∃ r, check_info item.2 = inl r ∧ l = EntryError (strip item.1) r.
Proof.
  unfold entry_error. destruct (check_info item.2) as [r|n].
  - split; [intros [= <-]; eauto | intros (r' & [= <-] & ->); reflexivity].
  - split; [discriminate | intros (r' & [=] & _)].
Qed.

Lemma entry_error_None item :
  entry_error item = None ↔ ∃ n, entry_pair item = Some (strip item.1, n).
Proof.
  unfold entry_error, entry_pair. destruct (check_info item.2) as [r|n].
  - split; [discriminate | intros (n & [=])].
  - split; [eauto | reflexivity].
Qed.

(** When the per-entry pass is clean every entry is accepted, and the
    accepted pairs follow the entries one for one. *)
Lemma clean_pass data :
  omap entry_error data = [] →
  Forall2 (λ item p, p.1 = strip item.1 ∧ check_info item.2 = inr p.2)
    data (omap entry_pair data).
Proof.
  induction data as [|item data IH]; [intros _; constructor|].
  cbn [omap list_omap].
  destruct (entry_error item) as [l|] eqn:He; [discriminate|].
  apply entry_error_None in He as [n Hn]. rewrite Hn.
  intros Hclean. constructor; [|apply IH, Hclean].
  unfold entry_pair in Hn. destruct (check_info item.2); [discriminate|].
  injection Hn as ->. split; reflexivity.
Qed.

(** What a run of [load_user_mapping] that finds defects does. *)
Lemma load_user_mapping_errors w yaml_path data :
  files w !! yaml_path = Some (YamlFile (Some data)) →
  omap entry_error data ≠ [] →
  load_user_mapping yaml_path w
  = (inl (ValueError (ErrorCount (length (omap entry_error data)))),
     World (files w) (parents_made w)
       (stdout w ++ [ReadingYaml yaml_path; ValidationErrorsFound] ++ omap entry_error data)
       (stderr w)).
Proof.
  intros Hfile Herr.
  unfold load_user_mapping, safe_load, open_file, print, print_all, raise,
    mbind, M_bind, mret, M_ret; simpl.
  rewrite Hfile.
  destruct data as [|item data]; [done|].
  rewrite scan_eq. rewrite bool_decide_true by done. simpl.
  rewrite <- !app_assoc. reflexivity.
Qed.

#[global] Instance defective_dec info : Decision (∃ r, defect info r).
Proof.
  destruct (check_info info) as [r|n] eqn:Hc.
  - left. exists r. apply check_info_defect, Hc.
  - right. intros [r Hr]. apply check_info_defect in Hr. congruence.
Defined.

(** The error lines are those of the defective entries, one for one
    and in the order of the file. *)
Lemma entry_errors_defects data :
  Forall2 (λ item l, ∃ r, defect item.2 r ∧ l = EntryError (strip item.1) r)
    (filter (λ item, ∃ r, defect item.2 r) data) (omap entry_error data).
Proof.
  induction data as [|item data IH]; [constructor|].
  rewrite filter_cons. cbn [omap list_omap].
  destruct (entry_error item) as [l|] eqn:He.
  - apply entry_error_Some in He as (r & Hc & ->).
    apply check_info_defect in Hc.
    rewrite decide_True by eauto. constructor; eauto.
  - apply entry_error_None in He as [n Hn].
    rewrite decide_False; [exact IH|].
    intros [r Hr]. apply check_info_defect in Hr.
    unfold entry_pair in Hn. rewrite Hr in Hn. discriminate.
Qed.

(** C1: when the mapping holds one or more defective entries (attribute
    bag not a record, identifier absent or null, identifier not an
    integer, identifier outside 1..18), [load_user_mapping] raises one
    [ValueError]; what it has printed before is one line per defective
    entry, each with the trimmed key and the reason of that entry, for
    all of them and in the order of the file.  Nothing of the duplicate
    or the coverage check is printed. *)
Theorem load_user_mapping_reports_every_defect w yaml_path data :
  files w !! yaml_path = Some (YamlFile (Some data)) →
  (∃ item r, item ∈ data ∧ defect item.2 r) →
  ∃ errors,
    load_user_mapping yaml_path w
    = (inl (ValueError (ErrorCount (length errors))),
       World (files w) (parents_made w)
         (stdout w ++ [ReadingYaml yaml_path; ValidationErrorsFound] ++ errors)
         (stderr w))
    ∧ Forall2 (λ item l, ∃ r, defect item.2 r ∧ l = EntryError (strip item.1) r)
        (filter (λ item, ∃ r, defect item.2 r) data) errors.
Proof.
  intros Hfile (item & r & Hin & Hdef).
  exists (omap entry_error data). split; [|apply entry_errors_defects].
  apply load_user_mapping_errors; [exact Hfile|].
  intros Hnil. apply check_info_defect in Hdef.
  assert (EntryError (strip item.1) r ∈ omap entry_error data) as Hl.
  { apply list_elem_of_omap. exists item. split; [exact Hin|].
    apply entry_error_Some. eauto. }
  rewrite Hnil in Hl. inversion Hl.
Qed.

Lemma three_defects_reported :
  (∃ errors,
    load_user_mapping "user_mapping.yaml" (yaml_world three_defects)
    = (inl (ValueError (ErrorCount (length errors))),
       World (files (yaml_world three_defects)) []
         ([] ++ [ReadingYaml "user_mapping.yaml"; ValidationErrorsFound] ++ errors) [])
    ∧ Forall2 (λ item l, ∃ r, defect item.2 r ∧ l = EntryError (strip item.1) r)
        (filter (λ item, ∃ r, defect item.2 r) three_defects) errors)
  ∧ load_user_mapping "user_mapping.yaml" (yaml_world three_defects)
    = (inl (ValueError (ErrorCount 3)),
       World (files (yaml_world three_defects)) []
         [ ReadingYaml "user_mapping.yaml"; ValidationErrorsFound;
           EntryError (py "S001") UserIdUnset;
           EntryError (py "S002") (UserIdOutOfRange (PInt 25));
           EntryError (py "S003") UserIdUnset ] []).
Proof.
  split.
  - apply (load_user_mapping_reports_every_defect (yaml_world three_defects)
             "user_mapping.yaml" three_defects).
    + reflexivity.
    + exists (py "S002", PDict [(py "user_id", PInt 25)]), (UserIdOutOfRange (PInt 25)).
      split; [unfold three_defects; set_solver|].
      apply check_info_defect. reflexivity.
  - vm_compute. reflexivity.
Defined.

(** ** Dictionaries *)

Section dict_facts.
Context {V : Type}.
Implicit Types (k : pystr) (v : V) (d l : list (pystr * V)).

Lemma dict_get_app k d1 d2 :
  dict_get k (d1 ++ d2)
  = match dict_get k d1 with Some v => Some v | None => dict_get k d2 end.
Proof.
  induction d1 as [|[k' v'] d1 IH]; simpl; [reflexivity|].
  destruct (decide (k = k')); [reflexivity | exact IH].
Qed.

Lemma dict_get_set k k' v d :
  dict_get k (dict_set k' v d) = if decide (k = k') then Some v else dict_get k d.
Proof.
  induction d as [|[k0 v0] d IH]; simpl.
  - destruct (decide (k = k')); reflexivity.
  - destruct (decide (k' = k0)) as [->|Hne]; simpl.
    + destruct (decide (k = k0)); reflexivity.
    + destruct (decide (k = k0)) as [->|Hne'].
      * rewrite decide_False by congruence. reflexivity.
      * exact IH.
Qed.

Lemma dict_get_None k d : dict_get k d = None ↔ k ∉ keys d.
Proof.
  unfold keys. induction d as [|[k' v'] d IH]; simpl.
  - split; [intros _ Hin; inversion Hin | reflexivity].
  - destruct (decide (k = k')) as [->|Hne].
    + split; [discriminate | intros Hn; destruct Hn; left].
    + rewrite IH, not_elem_of_cons. tauto.
Qed.

Lemma dict_get_Some_elem k v d : dict_get k d = Some v → (k, v) ∈ d.
Proof.
  induction d as [|[k' v'] d IH]; simpl; [discriminate|].
  destruct (decide (k = k')) as [->|Hne].
  - intros [= ->]. left.
  - intros H. right. apply IH, H.
Qed.

Lemma elem_dict_get k v d : NoDup (keys d) → (k, v) ∈ d → dict_get k d = Some v.
Proof.
  unfold keys. induction d as [|[k' v'] d IH]; simpl; intros Hnd Hin; [inversion Hin|].
  apply NoDup_cons in Hnd as [Hk Hnd].
  apply elem_of_cons in Hin as [[= -> ->]|Hin].
  - rewrite decide_True by reflexivity. reflexivity.
  - destruct (decide (k = k')) as [->|Hne]; [|apply IH; assumption].
    destruct Hk. apply list_elem_of_fmap. exists (k', v). split; [reflexivity | exact Hin].
Qed.

Lemma dict_set_new k v d : k ∉ keys d → dict_set k v d = d ++ [(k, v)].
Proof.
  unfold keys. induction d as [|[k' v'] d IH]; simpl; [reflexivity|].
  intros Hk. apply not_elem_of_cons in Hk as [Hne Hk].
  rewrite decide_False by exact Hne. rewrite IH by exact Hk. reflexivity.
Qed.

Lemma keys_dict_set_old k v d : k ∈ keys d → keys (dict_set k v d) = keys d.
Proof.
  unfold keys. induction d as [|[k' v'] d IH]; simpl; intros Hk; [inversion Hk|].
  destruct (decide (k = k')) as [->|Hne]; [reflexivity|]. simpl.
  apply elem_of_cons in Hk as [?|Hk]; [done|]. f_equal. apply IH, Hk.
Qed.

Lemma keys_dict_set k v d :
  keys (dict_set k v d) = if decide (k ∈ keys d) then keys d else keys d ++ [k].
Proof.
  destruct (decide (k ∈ keys d)) as [Hk|Hk].
  - apply keys_dict_set_old, Hk.
  - rewrite dict_set_new by exact Hk. unfold keys. rewrite fmap_app. reflexivity.
Qed.

Lemma NoDup_keys_dict_set k v d : NoDup (keys d) → NoDup (keys (dict_set k v d)).
Proof.
  intros Hnd. rewrite keys_dict_set. destruct (decide (k ∈ keys d)) as [Hk|Hk]; [exact Hnd|].
  apply NoDup_app. split; [exact Hnd|]. split; [|apply NoDup_singleton].
  intros x Hx Hx'. apply list_elem_of_singleton in Hx' as ->. exact (Hk Hx).
Qed.

Lemma foldl_dict_set_keys d l :
  NoDup (keys d) →
  NoDup (keys (foldl (λ d p, dict_set p.1 p.2 d) d l))
  ∧ ∀ k, k ∈ keys (foldl (λ d p, dict_set p.1 p.2 d) d l) ↔ k ∈ keys d ∨ k ∈ keys l.
Proof.
  revert d. induction l as [|[k0 v0] l IH]; intros d Hnd; simpl.
  - split; [exact Hnd|]. intros k. split; [auto|]. intros [H|H]; [exact H | inversion H].
  - destruct (IH (dict_set k0 v0 d) (NoDup_keys_dict_set k0 v0 d Hnd)) as [Hnd' Hin].
    split; [exact Hnd'|]. intros k. rewrite Hin, keys_dict_set.
    destruct (decide (k0 ∈ keys d)) as [Hk|Hk].
    + rewrite elem_of_cons. split; [tauto|]. intros [?|[->|?]]; tauto.
    + rewrite elem_of_app, list_elem_of_singleton, elem_of_cons. tauto.
Qed.

Lemma foldl_dict_set_get k d l :
  dict_get k (foldl (λ d p, dict_set p.1 p.2 d) d l)
  = match dict_get k (reverse l) with Some v => Some v | None => dict_get k d end.
Proof.
  revert d. induction l as [|[k0 v0] l IH]; intros d; simpl; [reflexivity|].
  rewrite IH, reverse_cons, dict_get_app, dict_get_set. simpl.
  destruct (dict_get k (reverse l)); [reflexivity|].
  destruct (decide (k = k0)); reflexivity.
Qed.

Lemma foldl_dict_set_distinct d l :
  NoDup (keys d ++ keys l) → foldl (λ d p, dict_set p.1 p.2 d) d l = d ++ l.
Proof.
  revert d. induction l as [|[k0 v0] l IH]; intros d Hnd; simpl.
  - rewrite app_nil_r. reflexivity.
  - assert (k0 ∉ keys d) as Hk.
    { apply NoDup_app in Hnd as (_ & Hd & _). intros Hin. apply (Hd _ Hin). left. }
    rewrite dict_set_new by exact Hk. rewrite IH.
    + rewrite <- app_assoc. reflexivity.
    + unfold keys in *. rewrite fmap_app, <- app_assoc. exact Hnd.
Qed.

Lemma NoDup_keys_dict_of l : NoDup (keys (dict_of l)).
Proof. apply foldl_dict_set_keys. constructor. Qed.

Lemma elem_of_keys_dict_of k l : k ∈ keys (dict_of l) ↔ k ∈ keys l.
Proof.
  unfold dict_of. destruct (foldl_dict_set_keys [] l) as [_ H]; [constructor|].
  rewrite H. split; [intros [Hk|Hk]; [inversion Hk | exact Hk] | auto].
Qed.

(** A later assignment to a key replaces the earlier one. *)
Lemma dict_get_dict_of k l : dict_get k (dict_of l) = dict_get k (reverse l).
Proof.
  unfold dict_of. rewrite foldl_dict_set_get. destruct (dict_get k (reverse l)); reflexivity.
Qed.

Lemma dict_of_distinct l : NoDup (keys l) → dict_of l = l.
Proof. intros Hnd. unfold dict_of. rewrite foldl_dict_set_distinct; done. Qed.

Lemma elem_of_dict_of k v l : (k, v) ∈ dict_of l → (k, v) ∈ l.
Proof.
  intros Hin. apply elem_dict_get in Hin; [|apply NoDup_keys_dict_of].
  rewrite dict_get_dict_of in Hin. apply dict_get_Some_elem in Hin.
  apply elem_of_reverse, Hin.
Qed.

Lemma length_dict_of l : (length (dict_of l) ≤ length l)%nat.
Proof.
  rewrite <- (length_fmap fst (dict_of l)), <- (length_fmap fst l).
  apply submseteq_length, NoDup_submseteq; [apply NoDup_keys_dict_of|].
  intros k. apply elem_of_keys_dict_of.
Qed.

(** Two assignments to one key leave fewer entries than assignments. *)
Lemma length_dict_of_collision l i j k :
  (i < j)%nat → keys l !! i = Some k → keys l !! j = Some k →
  (length (dict_of l) < length l)%nat.
Proof.
  intros Hij Hi Hj.
  destruct (decide (length (dict_of l) < length l)%nat) as [|Hge]; [assumption|].
  exfalso.
  assert (keys (dict_of l) ⊆+ keys l) as Hsub.
  { apply NoDup_submseteq; [apply NoDup_keys_dict_of|]. intros x. apply elem_of_keys_dict_of. }
  apply submseteq_length_Permutation in Hsub.
  - assert (NoDup (keys l)) as Hnd by (rewrite <- Hsub; apply NoDup_keys_dict_of).
    pose proof (NoDup_lookup _ _ _ _ Hnd Hi Hj). lia.
  - unfold keys. rewrite !length_fmap. lia.
Qed.

End dict_facts.

(** ** The duplicate and the coverage check *)

Lemma count_pos_elem uid ids : (0 < count uid ids)%nat → uid ∈ ids.
Proof.
  unfold count. intros Hpos.
  destruct (filter (λ u, u = uid) ids) as [|x l] eqn:Hf; [simpl in Hpos; lia|].
  assert (x ∈ filter (λ u, u = uid) ids) as Hx by (rewrite Hf; left).
  apply list_elem_of_filter in Hx as [-> Hx]. exact Hx.
Qed.

Lemma elem_of_find_duplicates uid ids :
  uid ∈ find_duplicates ids ↔ (1 < count uid ids)%nat.
Proof.
  unfold find_duplicates. rewrite list_elem_of_filter, elem_of_elements, elem_of_list_to_set.
  split; [tauto|]. intros H. split; [exact H|]. apply count_pos_elem. lia.
Qed.

Lemma NoDup_find_duplicates ids : NoDup (find_duplicates ids).
Proof. apply NoDup_filter, NoDup_elements. Qed.

Lemma count_NoDup uid ids : NoDup ids → (count uid ids ≤ 1)%nat.
Proof.
  unfold count. induction 1 as [|x l Hx Hnd IH]; [simpl; lia|].
  rewrite filter_cons. destruct (decide (x = uid)) as [->|Hne]; [|exact IH].
  destruct (filter (λ u, u = uid) l) as [|y l'] eqn:Hf; [simpl; lia|].
  assert (y ∈ filter (λ u, u = uid) l) as Hy by (rewrite Hf; left).
  apply list_elem_of_filter in Hy as [-> Hy]. done.
Qed.

Lemma NoDup_count_le ids : (∀ uid, (count uid ids ≤ 1)%nat) → NoDup ids.
Proof.
  unfold count. induction ids as [|x l IH]; intros Hc; [constructor|].
  apply NoDup_cons. split.
  - intros Hx. specialize (Hc x). rewrite filter_cons, decide_True in Hc by reflexivity.
    assert (x ∈ filter (λ u, u = x) l) as Hin by (apply list_elem_of_filter; done).
    destruct (filter (λ u, u = x) l); [inversion Hin | simpl in Hc; lia].
  - apply IH. intros uid. specialize (Hc uid). rewrite filter_cons in Hc.
    destruct (decide (x = uid)); simpl in Hc; lia.
Qed.

Lemma find_duplicates_NoDup ids : NoDup ids → find_duplicates ids = [].
Proof.
  intros Hnd. destruct (find_duplicates ids) as [|uid l] eqn:Hf; [reflexivity|].
  assert (uid ∈ find_duplicates ids) as Hin by (rewrite Hf; left).
  apply elem_of_find_duplicates in Hin. pose proof (count_NoDup uid ids Hnd). lia.
Qed.

Lemma count_values uid (user_mapping : list (pystr * Z)) :
  count uid (values user_mapping) = length (students_of uid user_mapping).
Proof.
  unfold count, students_of, keys, values. rewrite length_fmap.
  induction user_mapping as [|[k v] d IH]; [reflexivity|].
  rewrite fmap_cons, !filter_cons. simpl.
  destruct (decide (v = uid)); simpl; rewrite IH; reflexivity.
Qed.

Lemma elem_of_students_of k uid (user_mapping : list (pystr * Z)) :
  NoDup (keys user_mapping) →
  k ∈ students_of uid user_mapping ↔ dict_get k user_mapping = Some uid.
Proof.
  intros Hnd. unfold students_of, keys. rewrite list_elem_of_fmap. split.
  - intros ([k' v] & -> & Hin). apply list_elem_of_filter in Hin as [Hv Hin].
    simpl in *. subst v. apply elem_dict_get; assumption.
  - intros Hget. exists (k, uid). split; [reflexivity|].
    apply list_elem_of_filter. split; [reflexivity|]. apply dict_get_Some_elem, Hget.
Qed.

Lemma NoDup_students_of uid (user_mapping : list (pystr * Z)) :
  NoDup (keys user_mapping) → NoDup (students_of uid user_mapping).
Proof.
  unfold students_of, keys. induction user_mapping as [|[k v] d IH]; [constructor|].
  rewrite fmap_cons, filter_cons. simpl. intros Hnd.
  apply NoDup_cons in Hnd as [Hk Hnd].
  destruct (decide (v = uid)); [|apply IH, Hnd].
  rewrite fmap_cons. apply NoDup_cons. split; [|apply IH, Hnd].
  intros Hin. apply Hk. apply list_elem_of_fmap in Hin as (p & Hp & Hin).
  apply list_elem_of_filter in Hin as [_ Hin].
  apply list_elem_of_fmap. exists p. split; assumption.
Qed.

(** A user id counts more than once exactly when two keys carry it. *)
Lemma count_two_keys uid (user_mapping : list (pystr * Z)) :
  NoDup (keys user_mapping) →
  (1 < count uid (values user_mapping))%nat ↔
  ∃ k1 k2, k1 ≠ k2 ∧ dict_get k1 user_mapping = Some uid
           ∧ dict_get k2 user_mapping = Some uid.
Proof.
  intros Hnd. rewrite count_values.
  pose proof (NoDup_students_of uid user_mapping Hnd) as Hs.
  split.
  - destruct (students_of uid user_mapping) as [|k1 [|k2 l]] eqn:Hst; simpl; try lia.
    intros _. exists k1, k2.
    apply NoDup_cons in Hs as [Hk1 _].
    split; [intros ->; apply Hk1; left|].
    split; apply (elem_of_students_of _ uid _ Hnd); rewrite Hst; [left | right; left].
  - intros (k1 & k2 & Hne & H1 & H2).
    apply (elem_of_students_of _ uid _ Hnd) in H1, H2.
    assert ([k1; k2] ⊆+ students_of uid user_mapping) as Hsub.
    { apply NoDup_submseteq.
      - apply NoDup_cons. split; [|apply NoDup_singleton].
        intros Hin. apply list_elem_of_singleton in Hin. done.
      - intros x Hx. apply elem_of_cons in Hx as [->|Hx]; [exact H1|].
        apply list_elem_of_singleton in Hx as ->. exact H2. }
    apply submseteq_length in Hsub. simpl in Hsub. lia.
Qed.

Lemma elem_of_missing_ids n ids : n ∈ missing_ids ids ↔ 1 ≤ n ≤ 18 ∧ n ∉ ids.
Proof.
  unfold missing_ids. rewrite elem_of_difference, !elem_of_list_to_set, elem_of_seqZ.
  split; intros [Hn Hin]; (split; [lia | exact Hin]).
Qed.

Lemma elem_of_sorted n l : n ∈ sorted l ↔ n ∈ l.
Proof. unfold sorted. rewrite merge_sort_Permutation. reflexivity. Qed.

Lemma sorted_ascending l : StronglySorted Z.le (sorted l).
Proof. apply StronglySorted_merge_sort; apply _. Qed.

(** A run of [load_user_mapping] whose per-entry pass is clean. *)
Lemma load_user_mapping_clean w yaml_path data :
  files w !! yaml_path = Some (YamlFile (Some data)) →
  data ≠ [] →
  omap entry_error data = [] →
  load_user_mapping yaml_path w
  = let user_mapping := dict_of (omap entry_pair data) in
    if bool_decide (find_duplicates (values user_mapping) ≠ []) then
      (inl (ValueError (DuplicateCount (length (find_duplicates (values user_mapping))))),
       World (files w) (parents_made w)
         (stdout w ++ [ReadingYaml yaml_path; DuplicatesFound] ++ duplicate_lines user_mapping)
         (stderr w))
    else
      (inr user_mapping,
       World (files w) (parents_made w)
         (stdout w ++ [ReadingYaml yaml_path] ++ coverage_warning (values user_mapping)
            ++ [MappingLoaded (length user_mapping)])
         (stderr w)).
Proof.
  intros Hfile Hdata Hclean.
  unfold load_user_mapping, safe_load, open_file, print, print_all, raise,
    mbind, M_bind, mret, M_ret; simpl.
  rewrite Hfile.
  destruct data as [|item data]; [done|].
  rewrite scan_eq, Hclean.
  generalize (dict_of (omap entry_pair (item :: data))). intros user_mapping. simpl.
  destruct (bool_decide (find_duplicates (values user_mapping) ≠ [])); simpl.
  - unfold duplicate_lines. rewrite <- ?app_assoc. reflexivity.
  - unfold coverage_warning.
    destruct (bool_decide (missing_ids (values user_mapping) ≠ ∅));
      simpl; rewrite <- ?app_assoc; reflexivity.
Qed.

(** C2: the duplicate check runs only when the per-entry pass found no
    defect: a run that ends in the duplicate error had a clean pass.
    When the pass is clean and some user id is assigned to two or more
    trimmed keys of [user_mapping], [load_user_mapping] raises the
    duplicate [ValueError] after printing one line per colliding user
    id; the line names the user id and all the keys that share it. *)
Theorem load_user_mapping_duplicates w yaml_path data :
  files w !! yaml_path = Some (YamlFile (Some data)) →
  let user_mapping := (scan data).1 in
  (∀ n, (load_user_mapping yaml_path w).1 = inl (ValueError (DuplicateCount n)) →
        omap entry_error data = [])
  ∧ (omap entry_error data = [] →
     (∃ uid k1 k2, k1 ≠ k2 ∧ dict_get k1 user_mapping = Some uid
                   ∧ dict_get k2 user_mapping = Some uid) →
     ∃ duplicates,
       load_user_mapping yaml_path w
       = (inl (ValueError (DuplicateCount (length duplicates))),
          World (files w) (parents_made w)
            (stdout w ++ [ReadingYaml yaml_path; DuplicatesFound]
               ++ ((λ uid, DuplicateUserId uid (students_of uid user_mapping)) <$> duplicates))
            (stderr w))
       ∧ NoDup duplicates
       ∧ (∀ uid, uid ∈ duplicates ↔
            ∃ k1 k2, k1 ≠ k2 ∧ dict_get k1 user_mapping = Some uid
                     ∧ dict_get k2 user_mapping = Some uid)
       ∧ (∀ uid k, k ∈ students_of uid user_mapping ↔ dict_get k user_mapping = Some uid)).
Proof.
  intros Hfile user_mapping. subst user_mapping. rewrite scan_eq. cbn [fst].
  assert (NoDup (keys (dict_of (omap entry_pair data)))) as Hkeys
    by apply NoDup_keys_dict_of.
  split.
  - intros n Hrun.
    destruct (decide (omap entry_error data = [])) as [|Herr]; [assumption|].
    rewrite (load_user_mapping_errors _ _ _ Hfile Herr) in Hrun. discriminate.
  - intros Hclean (uid & k1 & k2 & Hne & H1 & H2).
    assert (data ≠ []) as Hdata by (intros ->; discriminate).
    rewrite (load_user_mapping_clean _ _ _ Hfile Hdata Hclean). cbv zeta.
    assert (uid ∈ find_duplicates (values (dict_of (omap entry_pair data)))) as Hdup.
    { apply elem_of_find_duplicates, count_two_keys; eauto 10. }
    rewrite bool_decide_true by (intros Hnil; rewrite Hnil in Hdup; inversion Hdup).
    exists (find_duplicates (values (dict_of (omap entry_pair data)))).
    split; [reflexivity|]. split; [apply NoDup_find_duplicates|]. split.
    + intros uid'. rewrite elem_of_find_duplicates. apply count_two_keys, Hkeys.
    + intros uid' k. apply elem_of_students_of, Hkeys.
Qed.

Lemma two_sevens_reported :
  (∃ duplicates,
     load_user_mapping "user_mapping.yaml" (yaml_world two_sevens)
     = (inl (ValueError (DuplicateCount (length duplicates))),
        World (files (yaml_world two_sevens)) []
          ([] ++ [ReadingYaml "user_mapping.yaml"; DuplicatesFound]
             ++ ((λ uid, DuplicateUserId uid (students_of uid (scan two_sevens).1))
                   <$> duplicates)) [])
     ∧ NoDup duplicates
     ∧ (∀ uid, uid ∈ duplicates ↔
          ∃ k1 k2, k1 ≠ k2 ∧ dict_get k1 (scan two_sevens).1 = Some uid
                   ∧ dict_get k2 (scan two_sevens).1 = Some uid)
     ∧ (∀ uid k, k ∈ students_of uid (scan two_sevens).1
                 ↔ dict_get k (scan two_sevens).1 = Some uid))
  ∧ load_user_mapping "user_mapping.yaml" (yaml_world two_sevens)
    = (inl (ValueError (DuplicateCount 1)),
       World (files (yaml_world two_sevens)) []
         [ ReadingYaml "user_mapping.yaml"; DuplicatesFound;
           DuplicateUserId 7 [py "S001"; py "S003"] ] []).
Proof.
  split.
  - destruct (load_user_mapping_duplicates (yaml_world two_sevens)
                "user_mapping.yaml" two_sevens eq_refl) as [_ Hdup].
    apply Hdup; [reflexivity|].
    exists 7, (py "S001"), (py "S003").
    split; [discriminate|]. split; reflexivity.
  - vm_compute. reflexivity.
Defined.

(** ** A clean pass with unique identifiers *)

Lemma check_info_range info n : check_info info = inr n → 1 ≤ n ≤ 18.
Proof.
  destruct info as [| | | | | |d]; simpl; try discriminate.
  destruct (default PNone (dict_get (py "user_id") d)) as [|b|z| | | |]; simpl;
    try discriminate.
  - destruct ((Z.b2z b <? 1) || (Z.b2z b >? 18)) eqn:Hr; [discriminate|].
    intros [= <-]. apply orb_false_elim in Hr as [H1 H2]. lia.
  - destruct ((z <? 1) || (z >? 18)) eqn:Hr; [discriminate|].
    intros [= <-]. apply orb_false_elim in Hr as [H1 H2]. lia.
Qed.

Lemma NoDup_fmap_eq {A B} (f : A → B) (l : list A) x y :
  NoDup (f <$> l) → x ∈ l → y ∈ l → f x = f y → x = y.
Proof.
  induction l as [|a l IH]; intros Hnd Hx Hy Hf; [inversion Hx|].
  rewrite fmap_cons in Hnd. apply NoDup_cons in Hnd as [Ha Hnd].
  apply elem_of_cons in Hx as [->|Hx]; apply elem_of_cons in Hy as [->|Hy].
  - reflexivity.
  - destruct Ha. rewrite Hf. apply list_elem_of_fmap. eauto.
  - destruct Ha. rewrite <- Hf. apply list_elem_of_fmap. eauto.
  - apply IH; assumption.
Qed.

(** Distinct values stay distinct in the dictionary built from them. *)
Lemma NoDup_values_dict_of (l : list (pystr * Z)) :
  NoDup (values l) → NoDup (values (dict_of l)).
Proof.
  intros Hnd. unfold values. apply NoDup_fmap_2_strong.
  - intros [ka va] [kb vb] Ha Hb Hv. simpl in Hv. subst vb.
    apply elem_of_dict_of in Ha, Hb.
    apply (NoDup_fmap_eq snd l _ _ Hnd Ha Hb). reflexivity.
  - apply (NoDup_fmap_1 fst), NoDup_keys_dict_of.
Qed.

Lemma clean_pass_keys data :
  omap entry_error data = [] →
  keys (omap entry_pair data) = (λ item, strip item.1) <$> data.
Proof.
  intros Hclean. apply clean_pass in Hclean. unfold keys.
  induction Hclean as [|item p data pairs [Hk _] _ IH]; [reflexivity|].
  rewrite !fmap_cons, IH, Hk. reflexivity.
Qed.

Lemma coverage_warning_spec user_ids :
  Forall (λ n, 1 ≤ n ≤ 18) user_ids →
  (coverage_warning user_ids = [] ∨
   ∃ missing, coverage_warning user_ids = [UnusedUserIds missing; UseAllRecommended]
     ∧ missing ≠ [] ∧ StronglySorted Z.le missing
     ∧ ∀ n, n ∈ missing ↔ 1 ≤ n ≤ 18 ∧ n ∉ user_ids)
  ∧ (coverage_warning user_ids = [] ↔ ∀ n, n ∈ user_ids ↔ 1 ≤ n ≤ 18).
Proof.
  intros Hrange. unfold coverage_warning.
  assert (∀ n, n ∈ sorted (elements (missing_ids user_ids)) ↔ 1 ≤ n ≤ 18 ∧ n ∉ user_ids)
    as Hin.
  { intros n. rewrite elem_of_sorted, elem_of_elements. apply elem_of_missing_ids. }
  destruct (bool_decide (missing_ids user_ids ≠ ∅)) eqn:Hm.
  - apply bool_decide_eq_true in Hm.
    assert (∃ n, n ∈ missing_ids user_ids) as [n Hn].
    { apply set_choose_L, Hm. }
    split.
    + right. eexists. split; [reflexivity|]. split; [|split; [apply sorted_ascending | exact Hin]].
      intros Hnil. apply elem_of_elements, elem_of_sorted in Hn.
      rewrite Hnil in Hn. inversion Hn.
    + split; [discriminate|]. intros Hall.
      apply elem_of_missing_ids in Hn as [Hn Hnot]. destruct Hnot. apply Hall, Hn.
  - apply bool_decide_eq_false in Hm.
    assert (missing_ids user_ids = ∅) as Hempty
      by (destruct (decide (missing_ids user_ids = ∅)); [assumption | done]).
    split; [left; reflexivity|]. split; [|reflexivity]. intros _ n. split.
    + intros Hn. rewrite Forall_forall in Hrange. apply Hrange, Hn.
    + intros Hn. destruct (decide (n ∈ user_ids)) as [|Hnot]; [assumption|].
      assert (n ∈ missing_ids user_ids) as Hmiss by (apply elem_of_missing_ids; done).
      rewrite Hempty in Hmiss. set_solver.
Qed.

(** C4, as the code has it: for a mapping that is not empty, whose
    per-entry pass is clean, whose trimmed keys are pairwise different
    and whose user ids are pairwise different, [load_user_mapping]
    returns the dictionary from trimmed key to user id, with as many
    entries as the file.  Unused user ids of 1..18 only give a warning
    that lists them; there is no warning exactly when the user ids in
    use are 1..18. *)
Theorem load_user_mapping_succeeds w yaml_path data :
  files w !! yaml_path = Some (YamlFile (Some data)) →
  data ≠ [] →
  omap entry_error data = [] →
  NoDup ((λ item, strip item.1) <$> data) →
  NoDup (values (omap entry_pair data)) →
  ∃ user_mapping warning,
    load_user_mapping yaml_path w
    = (inr user_mapping,
       World (files w) (parents_made w)
         (stdout w ++ [ReadingYaml yaml_path] ++ warning
            ++ [MappingLoaded (length user_mapping)])
         (stderr w))
    ∧ Forall2 (λ item p, p.1 = strip item.1 ∧ check_info item.2 = inr p.2)
        data user_mapping
    ∧ length user_mapping = length data
    ∧ (warning = [] ∨
       ∃ missing, warning = [UnusedUserIds missing; UseAllRecommended]
         ∧ missing ≠ [] ∧ StronglySorted Z.le missing
         ∧ ∀ n, n ∈ missing ↔ 1 ≤ n ≤ 18 ∧ n ∉ values user_mapping)
    ∧ (warning = [] ↔ ∀ n, n ∈ values user_mapping ↔ 1 ≤ n ≤ 18).
Proof.
  intros Hfile Hdata Hclean Hkeys Hids.
  pose proof (clean_pass data Hclean) as Hpairs.
  rewrite <- (clean_pass_keys data Hclean) in Hkeys.
  rewrite (load_user_mapping_clean _ _ _ Hfile Hdata Hclean). cbv zeta.
  rewrite (dict_of_distinct _ Hkeys).
  rewrite (find_duplicates_NoDup _ Hids).
  rewrite bool_decide_false by (intros H; apply H; reflexivity).
  exists (omap entry_pair data), (coverage_warning (values (omap entry_pair data))).
  split; [reflexivity|]. split; [exact Hpairs|].
  split; [symmetry; eapply Forall2_length, Hpairs|].
  apply coverage_warning_spec.
  unfold values. apply Forall_fmap.
  eapply Forall2_Forall_r; [exact Hpairs|].
  apply Forall_forall. intros item _ p [_ Hc]. simpl. eapply check_info_range, Hc.
Qed.

Lemma two_students_loaded :
  (∃ user_mapping warning,
    load_user_mapping "user_mapping.yaml" (yaml_world two_students)
    = (inr user_mapping,
       World (files (yaml_world two_students)) []
         ([] ++ [ReadingYaml "user_mapping.yaml"] ++ warning
            ++ [MappingLoaded (length user_mapping)]) [])
    ∧ Forall2 (λ item p, p.1 = strip item.1 ∧ check_info item.2 = inr p.2)
        two_students user_mapping
    ∧ length user_mapping = length two_students
    ∧ (warning = [] ∨
       ∃ missing, warning = [UnusedUserIds missing; UseAllRecommended]
         ∧ missing ≠ [] ∧ StronglySorted Z.le missing
         ∧ ∀ n, n ∈ missing ↔ 1 ≤ n ≤ 18 ∧ n ∉ values user_mapping)
    ∧ (warning = [] ↔ ∀ n, n ∈ values user_mapping ↔ 1 ≤ n ≤ 18))
  ∧ load_user_mapping "user_mapping.yaml" (yaml_world two_students)
    = (inr [(py "S001", 2); (py "S002", 1)],
       World (files (yaml_world two_students)) []
         [ ReadingYaml "user_mapping.yaml";
           UnusedUserIds [3; 4; 5; 6; 7; 8; 9; 10; 11; 12; 13; 14; 15; 16; 17; 18];
           UseAllRecommended; MappingLoaded 2 ] []).
Proof.
  split.
  - apply (load_user_mapping_succeeds (yaml_world two_students)
             "user_mapping.yaml" two_students).
    + reflexivity.
    + discriminate.
    + reflexivity.
    + compute_done.
    + compute_done.
  - vm_compute. reflexivity.
Defined.

(** C4 as stated fails twice: two valid entries with different user ids
    whose keys are equal once trimmed load into a dictionary with one
    entry, and the empty mapping, whose pass is clean for lack of
    entries, is refused. *)
Lemma load_user_mapping_cardinality_counterexample :
  (omap entry_error colliding_keys = []
   ∧ values (omap entry_pair colliding_keys) = [1; 2]
   ∧ length colliding_keys = 2%nat
   ∧ (load_user_mapping "user_mapping.yaml" (yaml_world colliding_keys)).1
     = inr [(py "S001", 2)])
  ∧ (omap entry_error [] = []
     ∧ (load_user_mapping "user_mapping.yaml" (yaml_world [])).1
       = inl (ValueError EmptyYaml)).
Proof. repeat split; vm_compute; reflexivity. Qed.

(** ** Keys that collide once trimmed *)

Lemma clean_pass_lookup data i k info :
  omap entry_error data = [] → data !! i = Some (k, info) →
  ∃ n, check_info info = inr n ∧ omap entry_pair data !! i = Some (strip k, n).
Proof.
  intros Hclean Hi. apply clean_pass in Hclean.
  destruct (Forall2_lookup_l _ _ _ _ _ Hclean Hi) as ([k' n] & Hp & Hk & Hc).
  simpl in *. subst k'. eauto.
Qed.

Lemma length_omap_clean data :
  omap entry_error data = [] → length (omap entry_pair data) = length data.
Proof. intros Hclean. symmetry. eapply Forall2_length, clean_pass, Hclean. Qed.

(** An assignment that is followed by another one to the same key is
    lost: with pairwise different values, its value is not in the
    dictionary. *)
Lemma dict_of_overwritten (l : list (pystr * Z)) i j k n1 n2 :
  NoDup (values l) → (i < j)%nat →
  l !! i = Some (k, n1) → l !! j = Some (k, n2) →
  n1 ∉ values (dict_of l).
Proof.
  intros Hnd Hij Hi Hj Hin.
  apply list_elem_of_fmap in Hin as ([k' v] & Hv & Hin). simpl in Hv. subst v.
  pose proof (elem_of_dict_of _ _ _ Hin) as Hin'.
  assert (k' = k) as ->.
  { assert ((k', n1) = (k, n1)) as [=]; [|done].
    apply (NoDup_fmap_eq snd l _ _ Hnd Hin'); [|reflexivity].
    apply list_elem_of_lookup. eauto. }
  apply elem_dict_get in Hin; [|apply NoDup_keys_dict_of].
  rewrite dict_get_dict_of in Hin.
  rewrite <- (take_drop_middle l i (k, n1) Hi) in Hin, Hnd.
  rewrite reverse_app, reverse_cons, <- app_assoc, dict_get_app in Hin.
  assert ((k, n2) ∈ drop (S i) l) as Hlater.
  { apply list_elem_of_lookup. exists (j - S i)%nat. rewrite lookup_drop.
    replace (S i + (j - S i))%nat with j by lia. exact Hj. }
  destruct (dict_get k (reverse (drop (S i) l))) as [v|] eqn:Hget.
  - injection Hin as ->. apply dict_get_Some_elem in Hget. rewrite elem_of_reverse in Hget.
    unfold values in Hnd. rewrite fmap_app, fmap_cons in Hnd.
    apply NoDup_app in Hnd as (_ & _ & Hnd). apply NoDup_cons in Hnd as [Hn1 _].
    apply Hn1. apply list_elem_of_fmap. exists (k, n1). split; [reflexivity | exact Hget].
  - apply dict_get_None in Hget. apply Hget. unfold keys.
    apply list_elem_of_fmap. exists (k, n2). split; [reflexivity|].
    apply elem_of_reverse. exact Hlater.
Qed.

(** The last assignment to a key is the one the dictionary keeps. *)
Lemma dict_of_last (l : list (pystr * Z)) j k n :
  l !! j = Some (k, n) →
  (∀ j' p, (j < j')%nat → l !! j' = Some p → p.1 ≠ k) →
  dict_get k (dict_of l) = Some n.
Proof.
  intros Hj Hlast. rewrite dict_get_dict_of.
  rewrite <- (take_drop_middle l j (k, n) Hj).
  rewrite reverse_app, reverse_cons, <- app_assoc, dict_get_app.
  destruct (dict_get k (reverse (drop (S j) l))) as [v|] eqn:Hget.
  - apply dict_get_Some_elem in Hget. rewrite elem_of_reverse in Hget.
    apply list_elem_of_lookup in Hget as [j' Hj'].
    rewrite lookup_drop in Hj'. destruct (Hlast (S j + j')%nat (k, v)); [lia | exact Hj' | reflexivity].
  - simpl. rewrite decide_True by reflexivity. reflexivity.
Qed.

(** C10: two entries that are valid one by one and whose keys are equal
    once trimmed.  No defect is reported for them: the run ends in the
    dictionary or in the duplicate error, and prints no entry error.
    The dictionary has fewer entries than the file, and the key holds
    the user id of the last entry with that trimmed key.  When the user
    ids of the file are pairwise different the run succeeds, the user id
    of the earlier entry is in no entry of the dictionary, and it is
    listed by the coverage warning. *)
Theorem trimmed_key_collision_overwrites w yaml_path data i j k1 info1 k2 info2 :
  files w !! yaml_path = Some (YamlFile (Some data)) →
  omap entry_error data = [] →
  (i < j)%nat →
  data !! i = Some (k1, info1) →
  data !! j = Some (k2, info2) →
  strip k1 = strip k2 →
  let user_mapping := (scan data).1 in
  let run := load_user_mapping yaml_path w in
  (run.1 = inr user_mapping ∨ ∃ n, run.1 = inl (ValueError (DuplicateCount n)))
  ∧ (∀ student r, EntryError student r ∈ stdout run.2 → EntryError student r ∈ stdout w)
  ∧ (length user_mapping < length data)%nat
  ∧ (∀ n2, check_info info2 = inr n2 →
       (∀ j' item, (j < j')%nat → data !! j' = Some item → strip item.1 ≠ strip k2) →
       dict_get (strip k1) user_mapping = Some n2)
  ∧ (NoDup (values (omap entry_pair data)) →
     ∀ n1, check_info info1 = inr n1 →
       (n1 ∉ values user_mapping)
       ∧ ∃ missing, n1 ∈ missing
           ∧ run = (inr user_mapping,
                    World (files w) (parents_made w)
                      (stdout w ++ [ ReadingYaml yaml_path; UnusedUserIds missing;
                                     UseAllRecommended;
                                     MappingLoaded (length user_mapping) ])
                      (stderr w))).
Proof.
  intros Hfile Hclean Hij Hi Hj Hstrip user_mapping run.
  subst user_mapping run. rewrite scan_eq. cbn [fst].
  assert (data ≠ []) as Hdata by (intros ->; discriminate).
  destruct (clean_pass_lookup _ _ _ _ Hclean Hi) as (n1 & Hc1 & Hp1).
  destruct (clean_pass_lookup _ _ _ _ Hclean Hj) as (n2 & Hc2 & Hp2).
  rewrite <- Hstrip in Hp2.
  rewrite (load_user_mapping_clean _ _ _ Hfile Hdata Hclean). cbv zeta.
  set (pairs := omap entry_pair data) in *.
  split; [|split; [|split; [|split]]].
  - destruct (bool_decide (find_duplicates (values (dict_of pairs)) ≠ [])); simpl; eauto.
  - intros student r.
    destruct (bool_decide (find_duplicates (values (dict_of pairs)) ≠ [])); simpl;
      rewrite elem_of_app; (intros [Hin|Hin]; [exact Hin|]); exfalso.
    + apply elem_of_cons in Hin as [[=]|Hin]. apply elem_of_cons in Hin as [[=]|Hin].
      unfold duplicate_lines in Hin.
      apply list_elem_of_fmap in Hin as (uid & [=] & _).
    + apply elem_of_cons in Hin as [[=]|Hin]. apply elem_of_app in Hin as [Hin|Hin].
      * unfold coverage_warning in Hin.
        destruct (bool_decide (missing_ids (values (dict_of pairs)) ≠ ∅)); [|inversion Hin].
        apply elem_of_cons in Hin as [[=]|Hin]. apply list_elem_of_singleton in Hin. done.
      * apply list_elem_of_singleton in Hin. done.
  - rewrite <- (length_omap_clean data) by exact Hclean.
    apply (length_dict_of_collision pairs i j (strip k1) Hij); unfold keys;
      rewrite list_lookup_fmap; [rewrite Hp1 | rewrite Hp2]; reflexivity.
  - intros n2' Hc2' Hlast. rewrite Hc2 in Hc2'. injection Hc2' as <-.
    apply (dict_of_last pairs j); [exact Hp2|].
    intros j' [k' n'] Hj' Hp' Hk'. simpl in Hk'. subst k'.
    apply clean_pass in Hclean.
    destruct (Forall2_lookup_r _ _ _ _ _ Hclean Hp') as (item & Hitem & Hk & _).
    simpl in Hk. apply (Hlast j' item Hj' Hitem). rewrite <- Hstrip, Hk. reflexivity.
  - intros Hids n1' Hc1'. rewrite Hc1 in Hc1'. injection Hc1' as <-.
    pose proof (dict_of_overwritten pairs i j (strip k1) n1 n2 Hids Hij Hp1 Hp2) as Hlost.
    split; [exact Hlost|].
    rewrite (find_duplicates_NoDup _ (NoDup_values_dict_of _ Hids)).
    rewrite bool_decide_false by (intros H; apply H; reflexivity).
    assert (n1 ∈ missing_ids (values (dict_of pairs))) as Hmiss.
    { apply elem_of_missing_ids. split; [eapply check_info_range, Hc1 | exact Hlost]. }
    unfold coverage_warning.
    rewrite bool_decide_true by (intros Hempty; rewrite Hempty in Hmiss; set_solver).
    eexists. split; [|reflexivity].
    apply elem_of_sorted, elem_of_elements, Hmiss.
Qed.

Lemma colliding_keys_overwritten :
  (length (scan colliding_keys).1 < length colliding_keys)%nat
  ∧ dict_get (py "S001") (scan colliding_keys).1 = Some 2
  ∧ (1 ∉ values (scan colliding_keys).1)
  ∧ load_user_mapping "user_mapping.yaml" (yaml_world colliding_keys)
    = (inr [(py "S001", 2)],
       World (files (yaml_world colliding_keys)) []
         [ ReadingYaml "user_mapping.yaml";
           UnusedUserIds [1; 3; 4; 5; 6; 7; 8; 9; 10; 11; 12; 13; 14; 15; 16; 17; 18];
           UseAllRecommended; MappingLoaded 1 ] []).
Proof.
  destruct (trimmed_key_collision_overwrites (yaml_world colliding_keys)
              "user_mapping.yaml" colliding_keys 0 1
              (py "S001") (PDict [(py "user_id", PInt 1)])
              (py " S001 ") (PDict [(py "user_id", PInt 2)]))
    as (_ & _ & Hlen & Hlast & Hlost);
    [reflexivity | reflexivity | lia | reflexivity | reflexivity | reflexivity |].
  split; [exact Hlen|]. split.
  { apply (Hlast 2); [reflexivity|]. intros j' item Hj' Hitem.
    destruct j' as [|[|j']]; [lia | lia | discriminate]. }
  destruct (Hlost ltac:(compute_done) 1 eq_refl) as [Hnot _].
  split; [exact Hnot|]. vm_compute. reflexivity.
Defined.

(** ** Sorting *)

Section insertion_sort.
Context {A : Type} (le : A → A → bool).

Lemma insert_sorted_perm x l : insert_sorted le x l ≡ₚ x :: l.
Proof.
  induction l as [|y l IH]; simpl; [reflexivity|].
  destruct (le x y); [reflexivity|]. rewrite IH. apply Permutation_swap.
Qed.

Lemma insertion_sort_perm l : insertion_sort le l ≡ₚ l.
Proof.
  induction l as [|x l IH]; simpl; [reflexivity|].
  rewrite insert_sorted_perm, IH. reflexivity.
Qed.

Hypothesis le_total : ∀ x y, le x y = true ∨ le y x = true.
Hypothesis le_trans : ∀ x y z, le x y = true → le y z = true → le x z = true.

Lemma insert_sorted_sorted x l :
  StronglySorted (λ a b, le a b = true) l →
  StronglySorted (λ a b, le a b = true) (insert_sorted le x l).
Proof.
  induction 1 as [|y l Hs IH Hy]; simpl; [repeat constructor|].
  destruct (le x y) eqn:Hxy.
  - constructor; [constructor; assumption|].
    constructor; [exact Hxy|].
    eapply Forall_impl; [exact Hy|]. intros z Hz. eapply le_trans; eassumption.
  - constructor; [exact IH|].
    rewrite insert_sorted_perm. constructor; [|exact Hy].
    destruct (le_total x y) as [H|H]; [congruence | exact H].
Qed.

Lemma insertion_sort_sorted l :
  StronglySorted (λ a b, le a b = true) (insertion_sort le l).
Proof.
  induction l as [|x l IH]; simpl; [constructor|]. apply insert_sorted_sorted, IH.
Qed.

End insertion_sort.

(** Insertion sort keeps rows with equal keys in their order: any class
    [P] of rows in which every row is below every other is left as it
    was. *)
Lemma insert_sorted_filter {A} (le : A → A → bool) (P : A → Prop)
    `{∀ x, Decision (P x)} x l :
  (∀ y, P x → P y → le x y = true) →
  filter P (insert_sorted le x l) = filter P (x :: l).
Proof.
  intros Hle. induction l as [|y l IH]; simpl; [reflexivity|].
  destruct (le x y) eqn:Hxy; [reflexivity|].
  rewrite (filter_cons P y), IH, !filter_cons.
  destruct (decide (P x)) as [Hx|Hx]; [|reflexivity].
  destruct (decide (P y)) as [Hy|Hy]; [|reflexivity].
  rewrite (Hle y Hx Hy) in Hxy. discriminate.
Qed.

Lemma insertion_sort_stable {A} (le : A → A → bool) (P : A → Prop)
    `{∀ x, Decision (P x)} l :
  (∀ x y, P x → P y → le x y = true) →
  filter P (insertion_sort le l) = filter P l.
Proof.
  intros Hle. induction l as [|x l IH]; simpl; [reflexivity|].
  rewrite insert_sorted_filter by (intros y; apply Hle).
  rewrite !filter_cons, IH. reflexivity.
Qed.

(** The stable routine. *)
Definition stable_sort : SortValues :=
  {| sort_values := @insertion_sort;
     sort_values_perm := @insertion_sort_perm;
     sort_values_sorted := λ A le l Htotal Htrans,
       insertion_sort_sorted le Htotal Htrans l |}.

Lemma take_all {A} (pre l : list A) :
  omap (λ i, (pre ++ l) !! i) (seq (length pre) (length l)) = l.
Proof.
  revert pre. induction l as [|x l IH]; intros pre; [reflexivity|].
  cbn [length seq omap list_omap].
  rewrite list_lookup_middle by reflexivity.
  f_equal. specialize (IH (pre ++ [x])).
  rewrite <- app_assoc, length_app, Nat.add_1_r in IH. exact IH.
Qed.

Lemma ascending_sorted {A} (le : A → A → bool) l :
  (∀ x y z, le x y = true → le y z = true → le x z = true) →
  ascending le l = true → StronglySorted (λ x y, le x y = true) l.
Proof.
  intros Htrans Hasc. apply Sorted_StronglySorted; [exact Htrans|].
  induction l as [|x l IH]; [constructor|].
  cbn [ascending] in Hasc. apply andb_true_iff in Hasc as [Hx Hl].
  constructor; [apply IH, Hl|]. destruct l as [|y l]; constructor. exact Hx.
Qed.

Lemma argsort_take_perm A (le : A → A → bool) (l : list A) : argsort_take le l ≡ₚ l.
Proof.
  unfold argsort_take.
  destruct (bool_decide _ && ascending le _) eqn:Hcheck;
    [|apply insertion_sort_perm].
  apply andb_true_iff in Hcheck as [Hperm _]. apply bool_decide_eq_true in Hperm.
  rewrite <- (take_all [] l) at 2. cbn [length app]. rewrite <- Hperm.
  apply omap_Permutation. symmetry. apply merge_sort_Permutation.
Qed.

Lemma argsort_take_sorted A (le : A → A → bool) (l : list A) :
  (∀ x y, le x y = true ∨ le y x = true) →
  (∀ x y z, le x y = true → le y z = true → le x z = true) →
  StronglySorted (λ x y, le x y = true) (argsort_take le l).
Proof.
  intros Htotal Htrans. unfold argsort_take.
  destruct (bool_decide _ && ascending le _) eqn:Hcheck;
    [|apply insertion_sort_sorted; assumption].
  apply andb_true_iff in Hcheck as [_ Hasc]. apply ascending_sorted; assumption.
Qed.

(** numpy's quicksort, the default kind. *)
Definition numpy_quicksort : SortValues :=
  {| sort_values := @argsort_take;
     sort_values_perm := argsort_take_perm;
     sort_values_sorted := argsort_take_sorted |}.

(** ** The join *)

Lemma filter_fmap_list {A B} (f : A → B) (P : B → Prop) `{∀ y, Decision (P y)}
    (l : list A) :
  filter P (f <$> l) = f <$> filter (λ x, P (f x)) l.
Proof.
  induction l as [|x l IH]; [reflexivity|].
  rewrite fmap_cons, !filter_cons, IH. destruct (decide (P (f x))); reflexivity.
Qed.

Section join.
Context {sorter : SortValues}.

(** What [add_user_id_and_sort] does on a table it can read. *)
Lemma add_user_id_and_sort_run w csv_path user_mapping output_path rows :
  files w !! csv_path = Some (CsvFile rows) →
  add_user_id_and_sort csv_path user_mapping output_path w
  = let unmapped := unmapped_rows user_mapping rows in
    if bool_decide (unmapped ≠ []) then
      (inl (ValueError (UnmappedCount (length unmapped))),
       World (files w) (parents_made w)
         (stdout w ++ [ReadingCsv csv_path; AddingUserNo; UnmappedFound]
            ++ ((λ r, UnmappedRow (strip (student_no r)) (name r)) <$> unmapped))
         (stderr w))
    else
      let df := sort_values le_user_no (join_row user_mapping <$> rows) in
      (inr (),
       World (<[output_path := JoinedCsvFile df]> (files w))
         (parents_made w ++ [output_path])
         (stdout w ++ [ ReadingCsv csv_path; AddingUserNo; Sorting;
                        SavingOutput output_path; Completed; StatisticsHeader;
                        TotalRows (length df);
                        UserNoRange (minimum (user_no <$> df)) (maximum (user_no <$> df));
                        OutputColumns ])
         (stderr w)).
Proof.
  intros Hfile.
  unfold add_user_id_and_sort, read_csv, open_file, print, print_all, raise,
    mkdir_parent, write_file, mbind, M_bind, mret, M_ret; simpl.
  rewrite Hfile. simpl.
  rewrite <- list_fmap_compose.
  rewrite (filter_fmap_list _ (λ p : row * option Z, p.2 = None)).
  change (filter _ rows) with (unmapped_rows user_mapping rows).
  rewrite length_fmap, <- !list_fmap_compose.
  change (astype_int ∘ _) with (join_row user_mapping).
  generalize (sort_values le_user_no (join_row user_mapping <$> rows)). intros df.
  destruct (unmapped_rows user_mapping rows) as [|r unmapped] eqn:Hun.
  - rewrite bool_decide_false by (simpl; lia).
    rewrite bool_decide_false by (intros Hne; apply Hne; reflexivity).
    simpl. rewrite <- ?app_assoc. reflexivity.
  - rewrite bool_decide_true by (simpl; lia).
    rewrite bool_decide_true by discriminate.
    simpl. rewrite <- ?app_assoc. reflexivity.
Qed.

Lemma unmapped_rows_nil user_mapping rows :
  unmapped_rows user_mapping rows = [] ↔
  ∀ r, r ∈ rows → is_Some (dict_get (strip (student_no r)) user_mapping).
Proof.
  unfold unmapped_rows. split.
  - intros Hnil r Hr.
    destruct (dict_get (strip (student_no r)) user_mapping) eqn:Hget; [eauto|].
    destruct (filter_nil_not_elem_of _ _ r Hnil Hget Hr).
  - intros Hall. induction rows as [|r rows IH]; [reflexivity|].
    rewrite filter_cons.
    destruct (Hall r) as [n Hn]; [left|]. rewrite decide_False by congruence.
    apply IH. intros r' Hr'. apply Hall. right. exact Hr'.
Qed.

(** C3: when the trimmed student number of some row is not a key of the
    mapping, [add_user_id_and_sort] raises the unmapped [ValueError]
    after printing one line, with student number and name, for every
    such row in table order.  The files are as they were before the
    call: nothing is written at the output path, and its directory is
    not made. *)
Theorem add_user_id_and_sort_unmapped w csv_path user_mapping output_path rows :
  files w !! csv_path = Some (CsvFile rows) →
  (∃ r, r ∈ rows ∧ dict_get (strip (student_no r)) user_mapping = None) →
  let run := add_user_id_and_sort csv_path user_mapping output_path w in
  run = (inl (ValueError (UnmappedCount (length (unmapped_rows user_mapping rows)))),
         World (files w) (parents_made w)
           (stdout w ++ [ReadingCsv csv_path; AddingUserNo; UnmappedFound]
              ++ ((λ r, UnmappedRow (strip (student_no r)) (name r))
                    <$> unmapped_rows user_mapping rows))
           (stderr w))
  ∧ (∀ r, r ∈ unmapped_rows user_mapping rows ↔
          r ∈ rows ∧ dict_get (strip (student_no r)) user_mapping = None)
  ∧ files run.2 !! output_path = files w !! output_path
  ∧ parents_made run.2 = parents_made w.
Proof.
  intros Hfile (r & Hr & Hget) run. subst run.
  rewrite (add_user_id_and_sort_run _ _ _ _ _ Hfile). cbv zeta.
  assert (r ∈ unmapped_rows user_mapping rows) as Hin.
  { apply list_elem_of_filter. split; assumption. }
  rewrite bool_decide_true by (intros Hnil; rewrite Hnil in Hin; inversion Hin).
  split; [reflexivity|]. split; [|split; reflexivity].
  intros r'. unfold unmapped_rows. rewrite list_elem_of_filter. tauto.
Qed.

End join.

Lemma three_rows_unmapped :
  let run := add_user_id_and_sort (sorter := stable_sort) "answers.csv" [(py "S001", 1)]
               "out/joined.csv" (csv_world three_rows) in
  run = (inl (ValueError (UnmappedCount 2)),
         World (files (csv_world three_rows)) []
           [ ReadingCsv "answers.csv"; AddingUserNo; UnmappedFound;
             UnmappedRow (py "S009") (Some (py "I")); UnmappedRow (py "S010") None ] [])
  ∧ files run.2 !! "out/joined.csv"%string = None.
Proof.
  destruct (add_user_id_and_sort_unmapped (sorter := stable_sort) (csv_world three_rows)
              "answers.csv" [(py "S001", 1)] "out/joined.csv" three_rows)
    as (Hrun & _ & Hfiles & _).
  - reflexivity.
  - exists (Row (py "S010") None None (Some (py "slow")) None []).
    split; [unfold three_rows; set_solver | reflexivity].
  - cbv zeta. split; [rewrite Hrun; vm_compute; reflexivity|].
    rewrite Hfiles. reflexivity.
Defined.

(** ** From the validated mapping to the join *)

(** A run of [load_user_mapping] that returns a dictionary read a
    mapping whose per-entry pass was clean, and left the files alone. *)
Lemma load_user_mapping_inv w yaml_path user_mapping w' :
  load_user_mapping yaml_path w = (inr user_mapping, w') →
  ∃ data, files w !! yaml_path = Some (YamlFile (Some data))
    ∧ omap entry_error data = []
    ∧ user_mapping = (scan data).1
    ∧ NoDup (values user_mapping)
    ∧ files w' = files w ∧ parents_made w' = parents_made w.
Proof.
  intros Hrun.
  destruct (files w !! yaml_path) as [[[data|]| | | |]|] eqn:Hfile;
    try (unfold load_user_mapping, safe_load, open_file, print, print_all, raise,
           mbind, M_bind, mret, M_ret in Hrun; simpl in Hrun;
         rewrite Hfile in Hrun; simpl in Hrun; discriminate).
  destruct data as [|item data].
  { unfold load_user_mapping, safe_load, open_file, print, print_all, raise,
      mbind, M_bind, mret, M_ret in Hrun; simpl in Hrun.
    rewrite Hfile in Hrun. simpl in Hrun. discriminate. }
  exists (item :: data). split; [reflexivity|].
  destruct (decide (omap entry_error (item :: data) = [])) as [Hclean|Herr].
  - rewrite (load_user_mapping_clean _ _ _ Hfile ltac:(discriminate) Hclean) in Hrun.
    cbv zeta in Hrun. rewrite scan_eq. cbn [fst].
    destruct (bool_decide (find_duplicates
                (values (dict_of (omap entry_pair (item :: data)))) ≠ [])) eqn:Hdup;
      [discriminate|].
    injection Hrun as <- <-. split; [exact Hclean|]. split; [reflexivity|].
    split; [|split; reflexivity].
    apply bool_decide_eq_false in Hdup.
    apply NoDup_count_le. intros uid.
    destruct (decide (1 < count uid (values (dict_of (omap entry_pair (item :: data))))))%nat
      as [Hgt|Hle]; [|apply Nat.nlt_ge; exact Hle].
    apply elem_of_find_duplicates in Hgt. destruct Hdup. intros Hnil.
    rewrite Hnil in Hgt. inversion Hgt.
  - rewrite (load_user_mapping_errors _ _ _ Hfile Herr) in Hrun. discriminate.
Qed.

Lemma StronglySorted_weaken {A} (R1 R2 : A → A → Prop) (l : list A) :
  (∀ x y, R1 x y → R2 x y) → StronglySorted R1 l → StronglySorted R2 l.
Proof.
  intros HR. induction 1 as [|x l Hs IH Hx]; constructor; [exact IH|].
  eapply Forall_impl; [exact Hx|]. intros y. apply HR.
Qed.

Lemma join_row_eq user_mapping r :
  join_row user_mapping r
  = JRow (default 0 (dict_get (strip (student_no r)) user_mapping)) (strip_student_no r).
Proof. reflexivity. Qed.

Lemma le_user_no_total a b : le_user_no a b = true ∨ le_user_no b a = true.
Proof. unfold le_user_no. rewrite !Z.leb_le. lia. Qed.

Lemma le_user_no_trans a b c :
  le_user_no a b = true → le_user_no b c = true → le_user_no a c = true.
Proof. unfold le_user_no. rewrite !Z.leb_le. lia. Qed.

Section pipeline.
Context {sorter : SortValues}.

(** What a join without unmapped rows leaves at the output path. *)
Lemma add_user_id_and_sort_ok w csv_path user_mapping output_path rows :
  files w !! csv_path = Some (CsvFile rows) →
  (∀ r, r ∈ rows → is_Some (dict_get (strip (student_no r)) user_mapping)) →
  ∃ w',
    add_user_id_and_sort csv_path user_mapping output_path w = (inr (), w')
    ∧ files w' = <[output_path :=
                     JoinedCsvFile (sort_values le_user_no (join_row user_mapping <$> rows))]>
                   (files w)
    ∧ stderr w' = stderr w.
Proof.
  intros Hfile Hall.
  rewrite (add_user_id_and_sort_run _ _ _ _ _ Hfile). cbv zeta.
  apply unmapped_rows_nil in Hall. rewrite Hall.
  rewrite bool_decide_false by (intros Hne; apply Hne; reflexivity).
  eexists. split; [reflexivity|]. split; reflexivity.
Qed.

(** C7: the keys of the mapping are trimmed when it is loaded, the
    student numbers of the table are trimmed before they are looked up.
    So when every row's trimmed student number is the trimmed key of
    some entry of the mapping file, the join succeeds, and every row is
    in the output with the user id of its trimmed student number. *)
Theorem join_trims_both_sides w yaml_path csv_path output_path data rows user_mapping w1 :
  files w !! yaml_path = Some (YamlFile (Some data)) →
  files w !! csv_path = Some (CsvFile rows) →
  load_user_mapping yaml_path w = (inr user_mapping, w1) →
  (∀ r, r ∈ rows → ∃ item, item ∈ data ∧ strip (student_no r) = strip item.1) →
  ∃ joined w2,
    add_user_id_and_sort csv_path user_mapping output_path w1 = (inr (), w2)
    ∧ files w2 !! output_path = Some (JoinedCsvFile joined)
    ∧ (∀ k, k ∈ keys user_mapping ↔ ∃ item, item ∈ data ∧ k = strip item.1)
    ∧ (∀ r, r ∈ rows →
         ∃ n, dict_get (strip (student_no r)) user_mapping = Some n
              ∧ JRow n (strip_student_no r) ∈ joined).
Proof.
  intros Hyaml Hcsv Hload Hrows.
  destruct (load_user_mapping_inv _ _ _ _ Hload)
    as (data' & Hyaml' & Hclean & -> & _ & Hfiles & _).
  rewrite Hyaml in Hyaml'. injection Hyaml' as <-.
  rewrite scan_eq in *. cbn [fst] in *.
  assert (∀ k, k ∈ keys (dict_of (omap entry_pair data))
               ↔ ∃ item, item ∈ data ∧ k = strip item.1) as Hkeys.
  { intros k. rewrite elem_of_keys_dict_of, (clean_pass_keys data Hclean), list_elem_of_fmap.
    split; intros (item & H1 & H2); exists item; split; assumption. }
  assert (∀ r, r ∈ rows →
            is_Some (dict_get (strip (student_no r)) (dict_of (omap entry_pair data))))
    as Hall.
  { intros r Hr. destruct (Hrows r Hr) as (item & Hitem & Hk).
    destruct (dict_get (strip (student_no r)) (dict_of (omap entry_pair data))) eqn:Hget;
      [eauto|].
    apply dict_get_None in Hget. destruct Hget. apply Hkeys. eauto. }
  rewrite <- Hfiles in Hcsv.
  destruct (add_user_id_and_sort_ok w1 csv_path _ output_path rows Hcsv Hall)
    as (w2 & Hrun & Hout & _).
  eexists _, w2. split; [exact Hrun|].
  split; [rewrite Hout; apply lookup_insert_eq|]. split; [exact Hkeys|].
  intros r Hr. destruct (Hall r Hr) as [n Hn]. exists n. split; [exact Hn|].
  rewrite sort_values_perm. apply list_elem_of_fmap. exists r. split; [|exact Hr].
  rewrite join_row_eq, Hn. reflexivity.
Qed.

(** C6, as the code has it: when no row is unmapped, the rows written at
    the output path are the rows of the table, each with its student
    number trimmed and its user id attached, rearranged in ascending
    order of user id.  [sort_values] is called with its default kind,
    so the order of rows with one user id is the routine's: it is the
    order of the table when the routine is the stable one. *)
Theorem add_user_id_and_sort_sorted w csv_path user_mapping output_path rows :
  files w !! csv_path = Some (CsvFile rows) →
  (∀ r, r ∈ rows → is_Some (dict_get (strip (student_no r)) user_mapping)) →
  ∃ joined w',
    add_user_id_and_sort csv_path user_mapping output_path w = (inr (), w')
    ∧ files w' !! output_path = Some (JoinedCsvFile joined)
    ∧ joined ≡ₚ join_row user_mapping <$> rows
    ∧ Forall2 (λ r jr, base jr = strip_student_no r
                       ∧ dict_get (strip (student_no r)) user_mapping = Some (user_no jr))
        rows (join_row user_mapping <$> rows)
    ∧ StronglySorted (λ a b, user_no a ≤ user_no b) joined
    ∧ ((∀ l, sort_values le_user_no l = insertion_sort le_user_no l) →
       ∀ n, filter (λ jr, user_no jr = n) joined
            = filter (λ jr, user_no jr = n) (join_row user_mapping <$> rows)).
Proof.
  intros Hcsv Hall.
  destruct (add_user_id_and_sort_ok w csv_path _ output_path rows Hcsv Hall)
    as (w' & Hrun & Hout & _).
  eexists _, w'. split; [exact Hrun|].
  split; [rewrite Hout; apply lookup_insert_eq|].
  split; [apply sort_values_perm|]. split; [|split].
  - clear Hcsv Hrun Hout. induction rows as [|r rows IH]; [constructor|].
    rewrite fmap_cons. constructor.
    + destruct (Hall r) as [n Hn]; [left|]. rewrite join_row_eq, Hn. split; reflexivity.
    + apply IH. intros r' Hr'. apply Hall. right. exact Hr'.
  - eapply StronglySorted_weaken;
      [|apply sort_values_sorted; [apply le_user_no_total | apply le_user_no_trans]].
    intros a b. unfold le_user_no. apply Z.leb_le.
  - intros Hstable n. rewrite Hstable. apply insertion_sort_stable.
    intros a b Ha Hb. unfold le_user_no. apply Z.leb_le. lia.
Qed.

End pipeline.

Lemma padded_rows_joined :
  let w := pipeline_world padded_data padded_rows in
  let user_mapping := [(py "S001", 2); (py "S002", 1)] in
  let loaded := load_user_mapping "user_mapping.yaml" w in
  let run := add_user_id_and_sort (sorter := stable_sort) "answers.csv" user_mapping
               "out/joined.csv" loaded.2 in
  loaded.1 = inr user_mapping
  ∧ run.1 = inr ()
  ∧ files run.2 !! "out/joined.csv"%string
    = Some (JoinedCsvFile
        [ JRow 1 (Row (py "S002") (Some (py "B")) None (Some (py "slow")) None []);
          JRow 2 (Row (py "S001") (Some (py "A")) (Some (py "good")) None None []) ]).
Proof.
  destruct (join_trims_both_sides (sorter := stable_sort)
              (pipeline_world padded_data padded_rows)
              "user_mapping.yaml" "answers.csv" "out/joined.csv"
              padded_data padded_rows [(py "S001", 2); (py "S002", 1)]
              (load_user_mapping "user_mapping.yaml"
                 (pipeline_world padded_data padded_rows)).2)
    as (joined & w2 & Hrun & Hout & _).
  - reflexivity.
  - reflexivity.
  - vm_compute. reflexivity.
  - intros r Hr. unfold padded_rows in Hr.
    apply elem_of_cons in Hr as [->|Hr];
      [exists (py "S001", PDict [(py "user_id", PInt 2)])
      |apply list_elem_of_singleton in Hr as ->;
       exists (py " S002 ", PDict [(py "user_id", PInt 1)])];
      (split; [unfold padded_data; set_solver | reflexivity]).
  - cbv zeta. split; [vm_compute; reflexivity|].
    split; [rewrite Hrun; reflexivity | vm_compute; reflexivity].
Defined.

Lemma repeated_rows_sorted :
  let run := add_user_id_and_sort (sorter := stable_sort) "answers.csv"
               [(py "S001", 1); (py "S002", 2)] "out/joined.csv"
               (csv_world repeated_rows) in
  run.1 = inr ()
  ∧ files run.2 !! "out/joined.csv"%string
    = Some (JoinedCsvFile
        [ JRow 1 (Row (py "S001") (Some (py "A")) (Some (py "first")) None None []);
          JRow 1 (Row (py "S001") (Some (py "A")) (Some (py "second")) None None []);
          JRow 2 (Row (py "S002") (Some (py "B")) (Some (py "first")) None None []);
          JRow 2 (Row (py "S002") (Some (py "B")) (Some (py "second")) None None []) ]).
Proof.
  destruct (add_user_id_and_sort_sorted (sorter := stable_sort) (csv_world repeated_rows)
              "answers.csv" [(py "S001", 1); (py "S002", 2)] "out/joined.csv"
              repeated_rows)
    as (joined & w' & Hrun & Hout & _).
  - reflexivity.
  - intros r Hr. unfold repeated_rows in Hr.
    repeat (apply elem_of_cons in Hr as [->|Hr]; [vm_compute; eauto|]).
    inversion Hr.
  - cbv zeta. split; [rewrite Hrun; reflexivity | vm_compute; reflexivity].
Defined.

(** C6 as stated fails: [sort_values] with its default kind returns
    rows with one user id in another order than the table's.  The join
    of the twelve hundred rows of two students, sorted by numpy's
    quicksort, succeeds and writes twelve hundred rows, user id 1
    before user id 2; but it is not so that the answers of user id 1
    and those of user id 2 are written in the order they have in the
    table. *)
Lemma join_not_stable_counterexample :
  let user_mapping := [(py "S001", 1); (py "S002", 2)] in
  let run := add_user_id_and_sort (sorter := numpy_quicksort) "answers.csv"
               user_mapping "out/joined.csv" (csv_world alternating_rows) in
  let written := match files run.2 !! "out/joined.csv"%string with
                 | Some (JoinedCsvFile joined) => joined
                 | _ => []
                 end in
  let answers n (joined : list jrow) :=
    (λ jr, e1 (base jr)) <$> filter (λ jr, user_no jr = n) joined in
  run.1 = inr ()
  ∧ user_no <$> written = replicate 600 1 ++ replicate 600 2
  ∧ bool_decide (answers 1 written
                 = answers 1 (join_row user_mapping <$> alternating_rows)
                 ∧ answers 2 written
                   = answers 2 (join_row user_mapping <$> alternating_rows)) = false.
Proof. vm_compute. repeat split; reflexivity. Qed.

(** ** The lookup *)

Section drop_duplicates.
Context {A : Type} `{EqDecision A}.

Lemma elem_of_drop_duplicates (x : A) l : x ∈ drop_duplicates l ↔ x ∈ l.
Proof.
  induction l as [|y l IH]; simpl; [reflexivity|].
  rewrite !elem_of_cons, list_elem_of_filter, IH.
  destruct (decide (x = y)); tauto.
Qed.

Lemma NoDup_drop_duplicates (l : list A) : NoDup (drop_duplicates l).
Proof.
  induction l as [|y l IH]; simpl; [constructor|].
  apply NoDup_cons. split; [|apply NoDup_filter, IH].
  rewrite list_elem_of_filter. intros [Hne _]. apply Hne. reflexivity.
Qed.

Lemma drop_duplicates_NoDup (l : list A) : NoDup l → drop_duplicates l = l.
Proof.
  induction 1 as [|x l Hx Hnd IH]; simpl; [reflexivity|].
  rewrite IH. f_equal. clear IH Hnd.
  induction l as [|y l IH]; [reflexivity|].
  apply not_elem_of_cons in Hx as [Hne Hx].
  rewrite filter_cons, decide_True by congruence. f_equal. apply IH, Hx.
Qed.

End drop_duplicates.

Lemma StronglySorted_lt l :
  StronglySorted Z.le l → NoDup l → StronglySorted Z.lt l.
Proof.
  induction 1 as [|x l Hs IH Hx]; intros Hnd; constructor;
    apply NoDup_cons in Hnd as [Hin Hnd]; [apply IH, Hnd|].
  rewrite Forall_forall in *. intros y Hy. specialize (Hx y Hy).
  assert (x ≠ y) by (intros ->; done). lia.
Qed.

(** What [get_user_responses] does on a joined table it can read. *)
Lemma get_user_responses_run w csv_path user_id df :
  files w !! csv_path = Some (JoinedCsvFile df) →
  get_user_responses csv_path user_id w
  = match filter (λ r, user_no r = user_id) df with
    | [] =>
        (inr false,
         World (files w) (parents_made w)
           (stdout w ++ [ ReadingCsv csv_path; UserNotFound user_id;
                          ValidUserNos (sorted (drop_duplicates (user_no <$> df))) ])
           (stderr w))
    | r :: _ =>
        (inr true,
         World (files w) (parents_made w)
           (stdout w ++ ReadingCsv csv_path :: show_row user_id (base r))
           (stderr w))
    end.
Proof.
  intros Hfile.
  unfold get_user_responses, try_except, read_joined_csv, open_file, show_answer, need,
    print, print_all, mbind, M_bind, mret, M_ret.
  cbn [files parents_made stdout stderr]. rewrite Hfile.
  rewrite !bool_decide_false by apply not_elem_of_nil.
  destruct (filter (λ r, user_no r = user_id) df) as [|r rest];
    cbn [files parents_made stdout stderr]; rewrite <- ?app_assoc; reflexivity.
Qed.

(** C8: when no row of the joined table has the queried user number,
    [get_user_responses] fails (it returns [False]) after printing that
    the user number was not found and the list of valid user numbers:
    exactly the user numbers of the rows of the table, each once, in
    ascending order. *)
Theorem get_user_responses_not_found w csv_path user_id df :
  files w !! csv_path = Some (JoinedCsvFile df) →
  (∀ r, r ∈ df → user_no r ≠ user_id) →
  ∃ valid,
    get_user_responses csv_path user_id w
    = (inr false,
       World (files w) (parents_made w)
         (stdout w ++ [ReadingCsv csv_path; UserNotFound user_id; ValidUserNos valid])
         (stderr w))
    ∧ StronglySorted Z.lt valid
    ∧ ∀ n, n ∈ valid ↔ ∃ r, r ∈ df ∧ user_no r = n.
Proof.
  intros Hfile Hnone.
  rewrite (get_user_responses_run _ _ _ _ Hfile).
  destruct (filter (λ r, user_no r = user_id) df) as [|r rest] eqn:Hf.
  - eexists. split; [reflexivity|]. split.
    + apply StronglySorted_lt; [apply sorted_ascending|].
      unfold sorted. rewrite merge_sort_Permutation. apply NoDup_drop_duplicates.
    + intros n. rewrite elem_of_sorted, elem_of_drop_duplicates, list_elem_of_fmap.
      split; intros (r & H1 & H2); exists r; split; congruence.
  - assert (r ∈ filter (λ r, user_no r = user_id) df) as Hr by (rewrite Hf; left).
    apply list_elem_of_filter in Hr as [Hid Hr]. destruct (Hnone r Hr Hid).
Qed.

Lemma joined_rows_not_found :
  get_user_responses "out/joined.csv" 3 (joined_world joined_rows)
  = (inr false,
     World (files (joined_world joined_rows)) []
       [ReadingCsv "out/joined.csv"; UserNotFound 3; ValidUserNos [2; 5; 9]] []).
Proof.
  destruct (get_user_responses_not_found (joined_world joined_rows)
              "out/joined.csv" 3 joined_rows) as (valid & Hrun & _).
  - reflexivity.
  - intros r Hr. unfold joined_rows in Hr.
    repeat (apply elem_of_cons in Hr as [->|Hr]; [discriminate|]). inversion Hr.
  - clear Hrun. vm_compute. reflexivity.
Defined.

(** ** Join, then lookup *)


(** A file that is read back as it was written leaves the world as it
    was. *)
Lemma files_reopened reread path w :
  (∀ g, files w !! path = Some g → reread g = g) →
  files (reopened reread path w) = files w.
Proof. intros Hread. unfold reopened. cbn [files]. apply alter_id, Hread. Qed.

Section roundtrip.
Context {sorter : SortValues} (reread : file → file).


End roundtrip.



(** ** The template *)

Section template.
Context {sorter : SortValues}.

(** What [generate_template] does on a table it can read. *)
Lemma generate_template_run w csv_path output_path rows :
  files w !! csv_path = Some (CsvFile rows) →
  generate_template csv_path output_path w
  = (inr true,
     World (<[output_path := YamlFile (Some (build_template (extract_students rows)))]>
              (files w))
       (parents_made w ++ [output_path])
       (stdout w ++ [ ReadingCsv csv_path;
                      StudentsExtracted (length (extract_students rows));
                      WritingTemplate output_path; TemplateDone; NextStepsHeader;
                      NextStepEdit output_path; NextStepRun ])
       (stderr w)).
Proof.
  intros Hfile.
  unfold generate_template, try_except, read_csv, open_file, print, print_all,
    mkdir_parent, write_file, mbind, M_bind, mret, M_ret; simpl.
  rewrite Hfile. simpl. rewrite <- ?app_assoc. reflexivity.
Qed.

End template.

Lemma le_student_no_total a b : le_student_no a b = true ∨ le_student_no b a = true.
Proof.
  unfold le_student_no. generalize a.1 b.1. clear a b.
  induction l as [|x a IH]; intros [|y b]; simpl; auto.
  destruct (x <? y)%N eqn:Hxy; [auto|].
  destruct (y <? x)%N eqn:Hyx; [auto|]. apply IH.
Qed.

Lemma le_student_no_trans a b c :
  le_student_no a b = true → le_student_no b c = true → le_student_no a c = true.
Proof.
  unfold le_student_no. generalize a.1 b.1 c.1. clear a b c.
  induction l as [|x a IH]; intros [|y b] [|z c]; simpl; try done.
  destruct (x <? y)%N eqn:Hxy, (y <? x)%N eqn:Hyx,
           (y <? z)%N eqn:Hyz, (z <? y)%N eqn:Hzy,
           (x <? z)%N eqn:Hxz, (z <? x)%N eqn:Hzx;
    try done; try (apply IH); exfalso;
    rewrite ?N.ltb_lt, ?N.ltb_ge in *; lia.
Qed.

(** The students of [two_spellings], sorted by any routine: S001 twice,
    in one order or the other, then S002. *)
Lemma extract_two_spellings {sorter : SortValues} :
  extract_students two_spellings
  = [(py "S001", Some (py "Taro")); (py "S001", Some (py "taro")); (py "S002", Some (py "Jiro"))]
  ∨ extract_students two_spellings
  = [(py "S001", Some (py "taro")); (py "S001", Some (py "Taro")); (py "S002", Some (py "Jiro"))].
Proof.
  unfold extract_students.
  set (students := drop_duplicates _).
  pose proof (sort_values_perm _ le_student_no students) as Hperm.
  pose proof (sort_values_sorted _ le_student_no students
                le_student_no_total le_student_no_trans) as Hsorted.
  revert Hperm Hsorted. generalize (sort_values le_student_no students). intros l Hperm Hsorted.
  symmetry in Hperm. apply permutations_Permutation in Hperm.
  vm_compute in Hperm.
  repeat (apply elem_of_cons in Hperm as [->|Hperm]); try (inversion Hperm; fail);
    try (left; reflexivity); try (right; reflexivity); exfalso;
    repeat match goal with
           | Hs : StronglySorted _ (_ :: _) |- _ =>
               apply StronglySorted_inv in Hs as [Hs ?]
           | Hf : Forall _ (_ :: _) |- _ => apply Forall_cons in Hf as [? Hf]
           end;
    repeat match goal with
           | Hle : le_student_no _ _ = true |- _ => vm_compute in Hle; try discriminate Hle; clear Hle
           end.
Qed.

(** C9 at [two_spellings]: the two spellings of S001 both survive
    [drop_duplicates], so three "student numbers" are counted and the
    template, which holds S001 once, gives it user id 2 and S002 user id
    3: no entry has user id 1. *)
Theorem generate_template_two_spellings {sorter : SortValues} :
  let run := generate_template "answers.csv" "config/user_mapping.yaml"
               (csv_world two_spellings) in
  run.1 = inr true
  ∧ stdout run.2
    = [ ReadingCsv "answers.csv"; StudentsExtracted 3;
        WritingTemplate "config/user_mapping.yaml"; TemplateDone; NextStepsHeader;
        NextStepEdit "config/user_mapping.yaml"; NextStepRun ]
  ∧ ∃ who, (who = py "Taro" ∨ who = py "taro")
      ∧ files run.2 !! "config/user_mapping.yaml"%string
        = Some (YamlFile (Some
            [ (py "S001", PDict [(py "user_id", PInt 2); (py "name", PStr who)]);
              (py "S002", PDict [(py "user_id", PInt 3); (py "name", PStr (py "Jiro"))]) ])).
Proof.
  cbv zeta.
  rewrite (generate_template_run (csv_world two_spellings) "answers.csv"
             "config/user_mapping.yaml" two_spellings eq_refl).
  cbn [fst snd files stdout].
  destruct extract_two_spellings as [-> | ->].
  - split; [reflexivity|]. split; [reflexivity|].
    exists (py "taro"). split; [right; reflexivity|].
    rewrite lookup_insert_eq. reflexivity.
  - split; [reflexivity|]. split; [reflexivity|].
    exists (py "Taro"). split; [left; reflexivity|].
    rewrite lookup_insert_eq. reflexivity.
Qed.

(** ** The template of a table in which every student has one name *)

Lemma template_entry_eq user_mapping idx p :
  template_entry user_mapping (idx, p)
  = dict_set (template_row idx p).1 (template_row idx p).2 user_mapping.
Proof. destruct p as [student_id who]. reflexivity. Qed.

Lemma keys_imap_template_row (f : nat → nat) students :
  keys (imap (λ i, template_row (f i)) students) = keys students.
Proof.
  unfold keys. revert f. induction students as [|p l IH]; intros f; [reflexivity|].
  rewrite imap_cons, !fmap_cons. f_equal. apply (IH (f ∘ S)).
Qed.

Lemma foldl_template_entry user_mapping k students :
  NoDup (keys user_mapping ++ keys students) →
  foldl template_entry user_mapping (zip (seq k (length students)) students)
  = user_mapping ++ imap (λ i, template_row (k + i)) students.
Proof.
  revert user_mapping k.
  induction students as [|p l IH]; intros user_mapping k Hnd;
    cbn [length seq zip_with foldl].
  - rewrite app_nil_r. reflexivity.
  - rewrite template_entry_eq.
    assert (p.1 ∉ keys user_mapping) as Hk.
    { apply NoDup_app in Hnd as (_ & Hd & _). intros Hin. apply (Hd _ Hin). left. }
    rewrite dict_set_new by exact Hk. rewrite IH.
    + rewrite <- app_assoc. simpl. rewrite Nat.add_0_r. do 2 f_equal.
      apply imap_ext. intros i x _. simpl. f_equal. lia.
    + unfold keys in *. rewrite fmap_app, <- app_assoc. exact Hnd.
Qed.

Lemma build_template_distinct students :
  NoDup (keys students) → build_template students = imap template_row students.
Proof.
  intros Hnd. unfold build_template. rewrite foldl_template_entry by exact Hnd. reflexivity.
Qed.

Lemma StronglySorted_strict {A} (R : A → A → Prop) (l : list A) :
  StronglySorted R l → NoDup l → StronglySorted (λ a b, R a b ∧ a ≠ b) l.
Proof.
  induction 1 as [|x l Hs IH Hx]; intros Hnd; constructor;
    apply NoDup_cons in Hnd as [Hin Hnd]; [apply IH, Hnd|].
  rewrite Forall_forall in *. intros y Hy. split; [apply Hx, Hy|]. intros ->. done.
Qed.

Section template_one_name.
Context {sorter : SortValues}.

(** When no two rows give one trimmed student number two names, the
    template holds every trimmed student number of the table once, in
    ascending order, and numbers them 1, 2, 3, ... in that order; each
    entry carries the name of its student. *)
Theorem generate_template_one_name w csv_path output_path rows :
  files w !! csv_path = Some (CsvFile rows) →
  (∀ r1 r2, r1 ∈ rows → r2 ∈ rows →
            strip (student_no r1) = strip (student_no r2) → name r1 = name r2) →
  ∃ students,
    generate_template csv_path output_path w
    = (inr true,
       World (<[output_path := YamlFile (Some (imap template_row students))]> (files w))
         (parents_made w ++ [output_path])
         (stdout w ++ [ ReadingCsv csv_path; StudentsExtracted (length students);
                        WritingTemplate output_path; TemplateDone; NextStepsHeader;
                        NextStepEdit output_path; NextStepRun ])
         (stderr w))
    ∧ StronglySorted (λ a b, str_le a b = true ∧ a ≠ b) (keys students)
    ∧ (∀ k who, (k, who) ∈ students ↔
                ∃ r, r ∈ rows ∧ k = strip (student_no r) ∧ who = name r).
Proof.
  intros Hfile Hone.
  rewrite (generate_template_run _ _ _ _ Hfile).
  exists (extract_students rows).
  assert (∀ k who, (k, who) ∈ extract_students rows ↔
                   ∃ r, r ∈ rows ∧ k = strip (student_no r) ∧ who = name r) as Hin.
  { intros k who. unfold extract_students.
    rewrite sort_values_perm, elem_of_drop_duplicates, <- list_fmap_compose,
      list_elem_of_fmap.
    split; intros (r & Hr & Hr').
    - exists r. simpl in Hr. injection Hr as -> ->. done.
    - destruct Hr' as [-> ->]. exists r. done. }
  assert (NoDup (keys (extract_students rows))) as Hnd.
  { unfold keys. apply NoDup_fmap_2_strong.
    - intros [k1 n1] [k2 n2] H1 H2 Hk. simpl in Hk. subst k2.
      apply Hin in H1 as (r1 & Hr1 & -> & ->). apply Hin in H2 as (r2 & Hr2 & Hk & ->).
      rewrite (Hone r1 r2 Hr1 Hr2 Hk). reflexivity.
    - unfold extract_students. rewrite sort_values_perm. apply NoDup_drop_duplicates. }
  split; [rewrite (build_template_distinct _ Hnd); reflexivity|].
  split; [|exact Hin].
  apply StronglySorted_strict; [|exact Hnd].
  unfold keys. eapply StronglySorted_fmap;
    [|apply (sort_values_sorted _ le_student_no);
      [apply le_student_no_total | apply le_student_no_trans]].
  intros a b Hab. exact Hab.
Qed.

End template_one_name.

Lemma one_spelling_template :
  let run := generate_template (sorter := stable_sort) "answers.csv" "config/user_mapping.yaml"
               (csv_world one_spelling) in
  run.1 = inr true
  ∧ files run.2 !! "config/user_mapping.yaml"%string
    = Some (YamlFile (Some
        [ (py "S001", PDict [(py "user_id", PInt 1); (py "name", PStr (py "Taro"))]);
          (py "S002", PDict [(py "user_id", PInt 2); (py "name", PStr (py "Jiro"))]) ])).
Proof.
  destruct (generate_template_one_name (sorter := stable_sort) (csv_world one_spelling)
              "answers.csv" "config/user_mapping.yaml" one_spelling)
    as (students & Hrun & _).
  - reflexivity.
  - intros r1 r2 H1 H2. unfold one_spelling in H1, H2.
    repeat (apply elem_of_cons in H1 as [->|H1]);
      repeat (apply elem_of_cons in H2 as [->|H2]);
      try (inversion H1; fail); try (inversion H2; fail);
      vm_compute; intros [=]; reflexivity.
  - cbv zeta. split; [rewrite Hrun; reflexivity|]. clear Hrun. vm_compute. reflexivity.
Defined.

(** ** More about the lookup and the join *)

(** When several rows of the joined table have the queried user number,
    [get_user_responses] shows the first of them in table order. *)
Theorem get_user_responses_first_match w csv_path user_id before r after :
  files w !! csv_path = Some (JoinedCsvFile (before ++ r :: after)) →
  user_no r = user_id →
  (∀ r', r' ∈ before → user_no r' ≠ user_id) →
  get_user_responses csv_path user_id w
  = (inr true,
     World (files w) (parents_made w)
       (stdout w ++ ReadingCsv csv_path :: show_row user_id (base r))
       (stderr w)).
Proof.
  intros Hfile Hr Hbefore.
  rewrite (get_user_responses_run _ _ _ _ Hfile).
  rewrite filter_app, filter_cons, decide_True by exact Hr.
  replace (filter (λ r0, user_no r0 = user_id) before) with (@nil jrow); [reflexivity|].
  symmetry. clear Hfile. induction before as [|x l IH]; [reflexivity|].
  rewrite filter_cons, decide_False by (apply Hbefore; left).
  apply IH. intros r' Hr'. apply Hbefore. right. exact Hr'.
Qed.

Lemma joined_rows_first_match :
  get_user_responses "out/joined.csv" 5 (joined_world joined_rows)
  = (inr true,
     World (files (joined_world joined_rows)) []
       ([] ++ ReadingCsv "out/joined.csv"
           :: show_row 5 (Row (py "S005") (Some (py "E")) None None None []))
       []).
Proof.
  apply (get_user_responses_first_match (joined_world joined_rows) "out/joined.csv" 5 []
           (JRow 5 (Row (py "S005") (Some (py "E")) None None None []))
           [ JRow 2 (Row (py "S002") (Some (py "B")) None None None []);
             JRow 5 (Row (py "S005") (Some (py "E")) (Some (py "again")) None None []);
             JRow 9 (Row (py "S009") None None None None []) ]).
  - reflexivity.
  - reflexivity.
  - intros r' Hr'. inversion Hr'.
Defined.

Section idempotence.
Context {sorter : SortValues}.

(** Running the join a second time on the same table and mapping leaves
    the files as the first run left them. *)
Theorem add_user_id_and_sort_twice w csv_path user_mapping output_path rows w1 :
  files w !! csv_path = Some (CsvFile rows) →
  csv_path ≠ output_path →
  add_user_id_and_sort csv_path user_mapping output_path w = (inr (), w1) →
  ∃ w2,
    add_user_id_and_sort csv_path user_mapping output_path w1 = (inr (), w2)
    ∧ files w2 = files w1.
Proof.
  intros Hfile Hne Hrun.
  rewrite (add_user_id_and_sort_run _ _ _ _ _ Hfile) in Hrun. cbv zeta in Hrun.
  destruct (bool_decide (unmapped_rows user_mapping rows ≠ [])) eqn:Hun; [discriminate|].
  injection Hrun as <-.
  eexists. split.
  - rewrite (add_user_id_and_sort_run _ csv_path _ _ rows);
      [|simpl; rewrite lookup_insert_ne by congruence; exact Hfile].
    cbv zeta. rewrite Hun. reflexivity.
  - simpl. apply insert_insert_eq.
Qed.

End idempotence.

Lemma padded_rows_joined_twice :
  let w := csv_world padded_rows in
  let user_mapping := [(py "S001", 2); (py "S002", 1)] in
  let first := add_user_id_and_sort (sorter := stable_sort) "answers.csv" user_mapping
                 "out/joined.csv" w in
  ∃ w2,
    add_user_id_and_sort (sorter := stable_sort) "answers.csv" user_mapping
      "out/joined.csv" first.2 = (inr (), w2)
    ∧ files w2 = files first.2.
Proof.
  apply (add_user_id_and_sort_twice (sorter := stable_sort) (csv_world padded_rows) "answers.csv"
           [(py "S001", 2); (py "S002", 1)] "out/joined.csv" padded_rows).
  - reflexivity.
  - discriminate.
  - vm_compute. reflexivity.
Defined.

(** * More of the code *)

(** ** Trimming *)

Lemma lstrip_nonspace c s : isspace c = false → lstrip (c :: s) = c :: s.
Proof. intros Hc. simpl. rewrite Hc. reflexivity. Qed.

Lemma lstrip_cases s :
  (lstrip s = [] ∧ Forall (λ c, isspace c = true) s)
  ∨ ∃ c t, lstrip s = c :: t ∧ isspace c = false.
Proof.
  induction s as [|c s IH]; simpl; [left; split; [reflexivity | constructor]|].
  destruct (isspace c) eqn:Hc; [|right; eauto].
  destruct IH as [[Hnil Hall]|Hcons]; [left | right; exact Hcons].
  split; [exact Hnil | constructor; assumption].
Qed.

Lemma lstrip_idem s : lstrip (lstrip s) = lstrip s.
Proof.
  destruct (lstrip_cases s) as [[-> _]|(c & t & -> & Hc)]; [reflexivity|].
  apply lstrip_nonspace, Hc.
Qed.

Lemma lstrip_snoc s c : isspace c = false → lstrip (s ++ [c]) = lstrip s ++ [c].
Proof.
  intros Hc. induction s as [|x s IH]; simpl; [rewrite Hc; reflexivity|].
  destruct (isspace x); [exact IH | reflexivity].
Qed.

Lemma lstrip_nil_iff s : lstrip s = [] ↔ Forall (λ c, isspace c = true) s.
Proof.
  induction s as [|c s IH]; simpl; [split; [constructor | reflexivity]|].
  rewrite Forall_cons. destruct (isspace c) eqn:Hc.
  - rewrite IH. tauto.
  - split; [discriminate | intros [? _]; discriminate].
Qed.

(** What [strip] returns is the empty text, or a text that begins and
    ends with a character that is not whitespace. *)
Lemma strip_cases s :
  (strip s = [] ∧ Forall (λ c, isspace c = true) s)
  ∨ ∃ c t, lstrip s = c :: t ∧ isspace c = false
           ∧ strip s = c :: reverse (lstrip (reverse t)).
Proof.
  unfold strip, rstrip.
  destruct (lstrip_cases s) as [[-> Hall]|(c & t & -> & Hc)].
  - left. split; [reflexivity | exact Hall].
  - right. exists c, t. split; [reflexivity|]. split; [exact Hc|].
    rewrite reverse_cons, (lstrip_snoc _ _ Hc), reverse_app. reflexivity.
Qed.

(** Trimming a trimmed text changes nothing. *)
Lemma strip_idem s : strip (strip s) = strip s.
Proof.
  destruct (strip_cases s) as [[-> _]|(c & t & _ & Hc & ->)]; [reflexivity|].
  unfold strip, rstrip. rewrite (lstrip_nonspace _ _ Hc).
  rewrite reverse_cons, reverse_involutive, (lstrip_snoc _ _ Hc), lstrip_idem.
  rewrite reverse_app. reflexivity.
Qed.

(** A text trims to nothing exactly when it is whitespace throughout. *)
Lemma strip_nil_iff s : strip s = [] ↔ Forall (λ c, isspace c = true) s.
Proof.
  split.
  - intros Hnil. destruct (strip_cases s) as [[_ Hall]|(c & t & _ & _ & Hs)];
      [exact Hall | congruence].
  - intros Hall. apply lstrip_nil_iff in Hall. unfold strip. rewrite Hall. reflexivity.
Qed.

(** ** What the lookup shows for an answer *)

(** An answer is shown exactly when it holds a character that is not
    whitespace, and then it is shown whole, blanks around it included;
    an absent answer and an answer of whitespace are shown as no
    response. *)
Theorem respond_shows_answer c :
  (∀ s, respond c = Answer s ↔ c = Some s ∧ ∃ ch, ch ∈ s ∧ isspace ch = false)
  ∧ (respond c = NoResponse ↔
     c = None ∨ ∃ s, c = Some s ∧ Forall (λ ch, isspace ch = true) s).
Proof.
  assert (∀ s, strip s ≠ [] ↔ ∃ ch, ch ∈ s ∧ isspace ch = false) as Hne.
  { intros s. rewrite strip_nil_iff. split.
    - intros Hnot. apply not_Forall_Exists in Hnot; [|intros ch; apply _].
      apply Exists_exists in Hnot as (ch & Hin & Hch). exists ch. split; [exact Hin|].
      destruct (isspace ch) eqn:Hsp; [contradiction | reflexivity].
    - intros (ch & Hin & Hch) Hall. rewrite Forall_forall in Hall.
      rewrite (Hall ch Hin) in Hch. discriminate. }
  destruct c as [s|]; simpl.
  - destruct (decide (strip s = [])) as [Hs|Hs].
    + rewrite bool_decide_true by exact Hs. split.
      * intros s'. split; [discriminate|]. intros [[= <-] Hch].
        apply Hne in Hch. done.
      * split; [|reflexivity]. intros _. right. exists s. split; [reflexivity|].
        apply strip_nil_iff, Hs.
    + rewrite bool_decide_false by exact Hs. split.
      * intros s'. split; [intros [= <-] | intros [[= <-] _]; reflexivity].
        split; [reflexivity | apply Hne, Hs].
      * split; [discriminate|]. intros [[=]|(s' & [= <-] & Hall)].
        apply strip_nil_iff in Hall. done.
  - split.
    + intros s. split; [discriminate | intros [[=] _]].
    + split; [left; reflexivity | reflexivity].
Qed.

(** ** [load_user_mapping]: every outcome *)

(** The runs that end before the loop: no file, a file that is no YAML
    mapping, an empty document. *)
Lemma load_user_mapping_early w yaml_path :
  match files w !! yaml_path with
  | Some (YamlFile (Some (_ :: _))) => True
  | other =>
      load_user_mapping yaml_path w
      = (inl match other with
             | None => FileNotFoundError yaml_path
             | Some (YamlFile _) => ValueError EmptyYaml
             | Some _ => ParserError yaml_path
             end,
         World (files w) (parents_made w) (stdout w ++ [ReadingYaml yaml_path]) (stderr w))
  end.
Proof.
  unfold load_user_mapping, safe_load, open_file, print, print_all, raise,
    mbind, M_bind, mret, M_ret; simpl.
  destruct (files w !! yaml_path) as [[[[|item data]|]| | | |]|]; simpl; done.
Qed.

Lemma clean_iff data :
  omap entry_error data = [] ↔ ∀ item r, item ∈ data → ¬ defect item.2 r.
Proof.
  split.
  - intros Hclean item r Hin Hdef. apply check_info_defect in Hdef.
    assert (EntryError (strip item.1) r ∈ omap entry_error data) as Hl.
    { apply list_elem_of_omap. exists item. split; [exact Hin|].
      apply entry_error_Some. eauto. }
    rewrite Hclean in Hl. inversion Hl.
  - intros Hnone. destruct (omap entry_error data) as [|l errors] eqn:Herr; [reflexivity|].
    assert (l ∈ omap entry_error data) as Hl by (rewrite Herr; left).
    apply list_elem_of_omap in Hl as (item & Hin & Hl).
    apply entry_error_Some in Hl as (r & Hc & _).
    apply check_info_defect in Hc. destruct (Hnone item r Hin Hc).
Qed.

Lemma load_user_mapping_inv_data w yaml_path user_mapping w' :
  load_user_mapping yaml_path w = (inr user_mapping, w') →
  ∃ data, files w !! yaml_path = Some (YamlFile (Some data))
    ∧ data ≠ []
    ∧ omap entry_error data = []
    ∧ user_mapping = dict_of (omap entry_pair data)
    ∧ NoDup (values user_mapping)
    ∧ w' = World (files w) (parents_made w)
             (stdout w ++ [ReadingYaml yaml_path] ++ coverage_warning (values user_mapping)
                ++ [MappingLoaded (length user_mapping)])
             (stderr w).
Proof.
  intros Hrun.
  destruct (load_user_mapping_inv _ _ _ _ Hrun) as (data & Hfile & Hclean & Hum & Hnd & _).
  exists data. rewrite scan_eq in Hum. cbn [fst] in Hum.
  assert (data ≠ []) as Hdata.
  { intros ->. pose proof (load_user_mapping_early w yaml_path) as Hearly.
    rewrite Hfile, Hrun in Hearly. discriminate. }
  repeat (split; [assumption|]).
  rewrite (load_user_mapping_clean _ _ _ Hfile Hdata Hclean) in Hrun. cbv zeta in Hrun.
  rewrite <- Hum in Hrun.
  rewrite (find_duplicates_NoDup _ Hnd) in Hrun.
  rewrite bool_decide_false in Hrun by (intros H; apply H; reflexivity).
  injection Hrun as <-. reflexivity.
Qed.

(** [load_user_mapping] returns a dictionary exactly when the file holds
    a mapping that is not empty, none of whose entries has a defect, and
    that leaves pairwise different user ids in the dictionary. *)
Theorem load_user_mapping_returns_iff w yaml_path :
  (∃ user_mapping w', load_user_mapping yaml_path w = (inr user_mapping, w'))
  ↔ ∃ data, files w !! yaml_path = Some (YamlFile (Some data))
      ∧ data ≠ []
      ∧ (∀ item r, item ∈ data → ¬ defect item.2 r)
      ∧ NoDup (values (scan data).1).
Proof.
  split.
  - intros (user_mapping & w' & Hrun).
    destruct (load_user_mapping_inv_data _ _ _ _ Hrun)
      as (data & Hfile & Hdata & Hclean & -> & Hnd & _).
    exists data. rewrite scan_eq. cbn [fst]. rewrite <- clean_iff. done.
  - intros (data & Hfile & Hdata & Hclean & Hnd).
    apply clean_iff in Hclean. rewrite scan_eq in Hnd. cbn [fst] in Hnd.
    rewrite (load_user_mapping_clean _ _ _ Hfile Hdata Hclean). cbv zeta.
    rewrite (find_duplicates_NoDup _ Hnd).
    rewrite bool_decide_false by (intros H; apply H; reflexivity). eauto.
Qed.

(** The dictionary [load_user_mapping] returns: its keys are pairwise
    different and trimmed, its user ids are pairwise different and
    within 1..18, and it has from 1 to 18 entries. *)
Theorem load_user_mapping_returns_valid w yaml_path user_mapping w' :
  load_user_mapping yaml_path w = (inr user_mapping, w') →
  NoDup (keys user_mapping)
  ∧ Forall (λ k, strip k = k) (keys user_mapping)
  ∧ NoDup (values user_mapping)
  ∧ Forall (λ n, 1 ≤ n ≤ 18) (values user_mapping)
  ∧ (1 ≤ length user_mapping ≤ 18)%nat.
Proof.
  intros Hrun.
  destruct (load_user_mapping_inv_data _ _ _ _ Hrun)
    as (data & Hfile & Hdata & Hclean & -> & Hnd & _).
  pose proof (clean_pass data Hclean) as Hpairs.
  assert (Forall (λ n, 1 ≤ n ≤ 18) (values (dict_of (omap entry_pair data)))) as Hrange.
  { apply Forall_forall. intros n Hn.
    apply list_elem_of_fmap in Hn as ([k v] & -> & Hin).
    apply elem_of_dict_of, list_elem_of_lookup in Hin as [i Hi].
    destruct (Forall2_lookup_r _ _ _ _ _ Hpairs Hi) as (item & _ & _ & Hc).
    eapply check_info_range, Hc. }
  split; [apply NoDup_keys_dict_of|]. split; [|split; [exact Hnd|split; [exact Hrange|]]].
  - apply Forall_forall. intros k Hk.
    rewrite elem_of_keys_dict_of, (clean_pass_keys data Hclean) in Hk.
    apply list_elem_of_fmap in Hk as (item & -> & _). apply strip_idem.
  - split.
    + destruct data as [|item data]; [done|].
      assert (strip item.1 ∈ keys (dict_of (omap entry_pair (item :: data)))) as Hk.
      { apply elem_of_keys_dict_of. rewrite (clean_pass_keys _ Hclean). left. }
      unfold keys in Hk. destruct (dict_of (omap entry_pair (item :: data)));
        [inversion Hk | simpl; lia].
    + rewrite <- (length_fmap snd).
      assert (values (dict_of (omap entry_pair data)) ⊆+ seqZ 1 18) as Hsub.
      { apply NoDup_submseteq; [exact Hnd|]. intros n Hn.
        rewrite Forall_forall in Hrange. apply elem_of_seqZ. specialize (Hrange n Hn). lia. }
      apply submseteq_length in Hsub. rewrite length_seqZ in Hsub.
      unfold values in Hsub. lia.
Qed.

Lemma two_students_valid :
  let user_mapping := [(py "S001", 2); (py "S002", 1)] in
  (load_user_mapping "user_mapping.yaml" (yaml_world two_students)).1 = inr user_mapping
  ∧ NoDup (keys user_mapping)
  ∧ Forall (λ k, strip k = k) (keys user_mapping)
  ∧ NoDup (values user_mapping)
  ∧ Forall (λ n, 1 ≤ n ≤ 18) (values user_mapping)
  ∧ (1 ≤ length user_mapping ≤ 18)%nat.
Proof.
  cbv zeta. split; [vm_compute; reflexivity|].
  apply (load_user_mapping_returns_valid (yaml_world two_students) "user_mapping.yaml"
           [(py "S001", 2); (py "S002", 1)]
           (load_user_mapping "user_mapping.yaml" (yaml_world two_students)).2).
  vm_compute. reflexivity.
Defined.

(** All a run of [load_user_mapping] does to the world is print. *)
Lemma load_user_mapping_frame w yaml_path :
  ∃ printed,
    (load_user_mapping yaml_path w).2
    = World (files w) (parents_made w) (stdout w ++ printed) (stderr w).
Proof.
  pose proof (load_user_mapping_early w yaml_path) as Hearly.
  destruct (files w !! yaml_path) as [[[[|item data]|]| | | |]|] eqn:Hfile;
    try (rewrite Hearly; eexists; reflexivity).
  clear Hearly.
  destruct (decide (omap entry_error (item :: data) = [])) as [Hclean|Herr].
  - rewrite (load_user_mapping_clean _ _ _ Hfile ltac:(discriminate) Hclean). cbv zeta.
    destruct (bool_decide _); eexists; reflexivity.
  - rewrite (load_user_mapping_errors _ _ _ Hfile Herr). eexists. reflexivity.
Qed.

(** Whatever it finds, [load_user_mapping] writes no file and makes no
    directory; it prints to standard output only, after what was
    there. *)
Theorem load_user_mapping_writes_nothing w yaml_path :
  let run := load_user_mapping yaml_path w in
  files run.2 = files w
  ∧ parents_made run.2 = parents_made w
  ∧ stderr run.2 = stderr w
  ∧ stdout w `prefix_of` stdout run.2.
Proof.
  cbv zeta. destruct (load_user_mapping_frame w yaml_path) as [printed Hrun].
  rewrite Hrun. cbn [files parents_made stdout stderr].
  split; [reflexivity|]. split; [reflexivity|]. split; [reflexivity|].
  exists printed. reflexivity.
Qed.

(** ** [add_user_id_and_sort]: every outcome *)

Lemma need_present absent c w : c ∉ absent → need absent c w = (inr (), w).
Proof. intros Hc. unfold need. rewrite bool_decide_false by exact Hc. reflexivity. Qed.

Lemma need_absent absent c w :
  c ∈ absent → need absent c w = (inl (KeyError (column_name c)), w).
Proof. intros Hc. unfold need. rewrite bool_decide_true by exact Hc. reflexivity. Qed.

(** What [read_csv] hands over. *)
Lemma read_csv_run path w :
  read_csv path w
  = match files w !! path with
    | None => (inl (FileNotFoundError path), w)
    | Some (YamlFile _) => (inl (ParserError path), w)
    | Some (CsvFile rows) => (inr ([], rows), w)
    | Some (JoinedCsvFile rows) => (inr ([], base <$> rows), w)
    | Some (CsvLacking absent rows) => (inr (absent, rows), w)
    | Some (JoinedCsvLacking absent rows) => (inr (absent, base <$> rows), w)
    end.
Proof.
  unfold read_csv, open_file, raise, mbind, M_bind, mret, M_ret.
  destruct (files w !! path) as [[doc|rows|jrows|absent rows|absent jrows]|]; reflexivity.
Qed.

Section join_outcomes.
Context {sorter : SortValues}.

(** The join on the rows and the list of absent columns that [read_csv]
    has handed over. *)
Lemma add_user_id_and_sort_read w csv_path user_mapping output_path absent rows :
  read_csv csv_path (World (files w) (parents_made w) (stdout w ++ [ReadingCsv csv_path])
                       (stderr w))
  = (inr (absent, rows),
     World (files w) (parents_made w) (stdout w ++ [ReadingCsv csv_path]) (stderr w)) →
  add_user_id_and_sort csv_path user_mapping output_path w
  = if bool_decide (StudentNo ∈ absent) then
      (inl (KeyError (column_name StudentNo)),
       World (files w) (parents_made w) (stdout w ++ [ReadingCsv csv_path]) (stderr w))
    else
      let unmapped := unmapped_rows user_mapping rows in
      if bool_decide (unmapped ≠ []) then
        if bool_decide (Name ∈ absent) then
          (inl (KeyError (column_name Name)),
           World (files w) (parents_made w)
             (stdout w ++ [ReadingCsv csv_path; AddingUserNo; UnmappedFound])
             (stderr w))
        else
          (inl (ValueError (UnmappedCount (length unmapped))),
           World (files w) (parents_made w)
             (stdout w ++ [ReadingCsv csv_path; AddingUserNo; UnmappedFound]
                ++ ((λ r, UnmappedRow (strip (student_no r)) (name r)) <$> unmapped))
             (stderr w))
      else
        let df := sort_values le_user_no (join_row user_mapping <$> rows) in
        (inr (),
         World (<[output_path := joined_file absent df]> (files w))
           (parents_made w ++ [output_path])
           (stdout w ++ [ ReadingCsv csv_path; AddingUserNo; Sorting;
                          SavingOutput output_path; Completed; StatisticsHeader;
                          TotalRows (length df);
                          UserNoRange (minimum (user_no <$> df))
                            (maximum (user_no <$> df));
                          OutputColumns ])
           (stderr w)).
Proof.
  intros Hread.
  unfold add_user_id_and_sort.
  unfold mbind at 1, M_bind at 1. unfold print at 1, print_all at 1.
  unfold mbind at 1, M_bind at 1. rewrite Hread.
  unfold mbind at 1, M_bind at 1.
  destruct (decide (StudentNo ∈ absent)) as [Hno|Hno].
  { rewrite need_absent by exact Hno.
    rewrite (bool_decide_true (StudentNo ∈ absent)) by exact Hno. reflexivity. }
  rewrite need_present by exact Hno.
  rewrite (bool_decide_false (StudentNo ∈ absent)) by exact Hno.
  rewrite <- list_fmap_compose.
  rewrite (filter_fmap_list _ (λ p : row * option Z, p.2 = None)).
  change (filter _ rows) with (unmapped_rows user_mapping rows).
  rewrite length_fmap, <- !list_fmap_compose.
  change (astype_int ∘ _) with (join_row user_mapping).
  cbv zeta.
  generalize (sort_values le_user_no (join_row user_mapping <$> rows)). intros df.
  unfold print, print_all, raise, mkdir_parent, write_file, mbind, M_bind, mret, M_ret.
  cbn [files parents_made stdout stderr].
  destruct (unmapped_rows user_mapping rows) as [|r unmapped] eqn:Hun.
  - rewrite bool_decide_false by (simpl; lia).
    rewrite bool_decide_false by (intros Hne; apply Hne; reflexivity).
    cbn [files parents_made stdout stderr]. rewrite <- ?app_assoc. reflexivity.
  - rewrite bool_decide_true by (simpl; lia).
    rewrite bool_decide_true by discriminate.
    cbn [files parents_made stdout stderr].
    destruct (decide (Name ∈ absent)) as [Hname|Hname].
    + rewrite need_absent by exact Hname.
      rewrite (bool_decide_true (Name ∈ absent)) by exact Hname.
      rewrite <- ?app_assoc. reflexivity.
    + rewrite need_present by exact Hname.
      rewrite (bool_decide_false (Name ∈ absent)) by exact Hname.
      cbn [files parents_made stdout stderr]. rewrite <- ?app_assoc. reflexivity.
Qed.

End join_outcomes.

Section join_outcomes_table.
Context {sorter : SortValues}.

Lemma add_user_id_and_sort_unread w csv_path user_mapping output_path e :
  read_csv csv_path (World (files w) (parents_made w) (stdout w ++ [ReadingCsv csv_path])
                       (stderr w))
  = (inl e,
     World (files w) (parents_made w) (stdout w ++ [ReadingCsv csv_path]) (stderr w)) →
  add_user_id_and_sort csv_path user_mapping output_path w
  = (inl e,
     World (files w) (parents_made w) (stdout w ++ [ReadingCsv csv_path]) (stderr w)).
Proof.
  intros Hread.
  unfold add_user_id_and_sort.
  unfold mbind at 1, M_bind at 1. unfold print at 1, print_all at 1.
  unfold mbind at 1, M_bind at 1. rewrite Hread. reflexivity.
Qed.

Lemma add_user_id_and_sort_run_table w csv_path user_mapping output_path :
  add_user_id_and_sort csv_path user_mapping output_path w
  = match files w !! csv_path with
    | None =>
        (inl (FileNotFoundError csv_path),
         World (files w) (parents_made w) (stdout w ++ [ReadingCsv csv_path]) (stderr w))
    | Some f =>
        match table_of f with
        | None =>
            (inl match f with
                 | YamlFile _ => ParserError csv_path
                 | _ => KeyError (column_name StudentNo)
                 end,
             World (files w) (parents_made w) (stdout w ++ [ReadingCsv csv_path]) (stderr w))
        | Some rows =>
            let unmapped := unmapped_rows user_mapping rows in
            if bool_decide (unmapped ≠ []) then
              if bool_decide (Name ∈ lacking f) then
                (inl (KeyError (column_name Name)),
                 World (files w) (parents_made w)
                   (stdout w ++ [ReadingCsv csv_path; AddingUserNo; UnmappedFound])
                   (stderr w))
              else
                (inl (ValueError (UnmappedCount (length unmapped))),
                 World (files w) (parents_made w)
                   (stdout w ++ [ReadingCsv csv_path; AddingUserNo; UnmappedFound]
                      ++ ((λ r, UnmappedRow (strip (student_no r)) (name r)) <$> unmapped))
                   (stderr w))
            else
              let df := sort_values le_user_no (join_row user_mapping <$> rows) in
              (inr (),
               World (<[output_path := joined_file (lacking f) df]> (files w))
                 (parents_made w ++ [output_path])
                 (stdout w ++ [ ReadingCsv csv_path; AddingUserNo; Sorting;
                                SavingOutput output_path; Completed; StatisticsHeader;
                                TotalRows (length df);
                                UserNoRange (minimum (user_no <$> df))
                                  (maximum (user_no <$> df));
                                OutputColumns ])
                 (stderr w))
        end
    end.
Proof.
  pose proof (read_csv_run csv_path
                (World (files w) (parents_made w) (stdout w ++ [ReadingCsv csv_path])
                   (stderr w))) as Hread.
  cbn [files] in Hread.
  destruct (files w !! csv_path) as [[doc|rows|jrows|absent rows|absent jrows]|];
    cbn [table_of lacking];
    try (apply add_user_id_and_sort_unread, Hread);
    rewrite (add_user_id_and_sort_read _ _ _ _ _ _ Hread);
    try (rewrite (bool_decide_false (StudentNo ∈ [])) by apply not_elem_of_nil;
         rewrite (bool_decide_false (Name ∈ [])) by apply not_elem_of_nil;
         cbv zeta; destruct (bool_decide _); reflexivity);
    destruct (bool_decide (StudentNo ∈ absent)); reflexivity.
Qed.

End join_outcomes_table.

Section join_outcomes.
Context {sorter : SortValues}.

(** [add_user_id_and_sort] returns exactly when the input path holds a
    table and the trimmed student number of every row is a key of the
    mapping. *)
Theorem add_user_id_and_sort_returns_iff w csv_path user_mapping output_path :
  (∃ w', add_user_id_and_sort csv_path user_mapping output_path w = (inr (), w'))
  ↔ ∃ f rows, files w !! csv_path = Some f ∧ table_of f = Some rows
      ∧ ∀ r, r ∈ rows → is_Some (dict_get (strip (student_no r)) user_mapping).
Proof.
  rewrite add_user_id_and_sort_run_table. split.
  - intros (w' & Hrun).
    destruct (files w !! csv_path) as [f|]; [|discriminate].
    destruct (table_of f) as [rows|] eqn:Htable; [|discriminate]. cbv zeta in Hrun.
    destruct (bool_decide (unmapped_rows user_mapping rows ≠ [])) eqn:Hun;
      [destruct (bool_decide (Name ∈ lacking f)); discriminate|].
    exists f, rows. split; [reflexivity|]. split; [exact Htable|].
    apply unmapped_rows_nil. apply bool_decide_eq_false in Hun.
    destruct (decide (unmapped_rows user_mapping rows = [])); [assumption | done].
  - intros (f & rows & -> & -> & Hall). cbv zeta.
    apply unmapped_rows_nil in Hall. rewrite Hall.
    rewrite bool_decide_false by (intros Hne; apply Hne; reflexivity). eauto.
Qed.

(** Whatever the outcome, [add_user_id_and_sort] leaves every file but
    the one at the output path as it was and prints to standard output
    only; when it raises, it has written no file and made no
    directory. *)
Theorem add_user_id_and_sort_writes_only_output w csv_path user_mapping output_path :
  let run := add_user_id_and_sort csv_path user_mapping output_path w in
  (∀ path, path ≠ output_path → files run.2 !! path = files w !! path)
  ∧ stderr run.2 = stderr w
  ∧ stdout w `prefix_of` stdout run.2
  ∧ (run.1 ≠ inr () → files run.2 = files w ∧ parents_made run.2 = parents_made w).
Proof.
  cbv zeta. rewrite add_user_id_and_sort_run_table.
  destruct (files w !! csv_path) as [f|];
    [destruct (table_of f) as [rows|];
       [cbv zeta; destruct (bool_decide _); [destruct (bool_decide _)|]|]|];
    cbn [fst snd files parents_made stdout stderr];
    (split; [intros path Hne; rewrite ?lookup_insert_ne by congruence; reflexivity|]);
    (split; [reflexivity|]); (split; [eexists; reflexivity|]);
    first [intros _; split; reflexivity | intros Hne; destruct Hne; reflexivity].
Qed.

End join_outcomes.

(** ** [get_user_responses]: every outcome *)

(** A file without the column ユーザー番号, or no file. *)
Lemma get_user_responses_run_other w csv_path user_id :
  match files w !! csv_path with
  | Some (JoinedCsvFile _) | Some (JoinedCsvLacking _ _) => True
  | other =>
      get_user_responses csv_path user_id w
      = (inr false,
         World (files w) (parents_made w) (stdout w ++ [ReadingCsv csv_path])
           (stderr w ++ match other with
                        | None => [ErrFileNotFound csv_path]
                        | Some (YamlFile None) =>
                            [ ErrOther (ParserError csv_path);
                              Traceback (ParserError csv_path) ]
                        | Some _ => [ErrMissingColumn (KeyError "ユーザー番号")]
                        end))
  end.
Proof.
  unfold get_user_responses, try_except, read_joined_csv, open_file, print, print_all,
    eprint, raise, mbind, M_bind, mret, M_ret.
  cbn [files parents_made stdout stderr].
  destruct (files w !! csv_path) as [[[doc|]|rows|jrows|absent rows|absent jrows]|];
    cbn [files parents_made stdout stderr]; rewrite <- ?app_assoc; done.
Qed.

Lemma first_absent_nil absent : first_absent absent = None ↔ absent = [].
Proof.
  unfold first_absent. split; [|intros ->; reflexivity].
  intros Hnone. destruct absent as [|c absent]; [reflexivity|]. exfalso.
  apply head_None in Hnone.
  assert (c ∈ filter (λ c', c' ∈ c :: absent) [Name; StudentNo; E1; E2; E3]) as Hc.
  { apply list_elem_of_filter. split; [left|]. destruct c; set_solver. }
  rewrite Hnone in Hc. inversion Hc.
Qed.

(** A table with the column ユーザー番号: the lookup stops at the first
    column it asks for that the table lacks. *)
Lemma get_user_responses_run_joined w csv_path user_id f df :
  files w !! csv_path = Some f →
  joined_table_of f = Some df →
  get_user_responses csv_path user_id w
  = match filter (λ r, user_no r = user_id) df with
    | [] =>
        (inr false,
         World (files w) (parents_made w)
           (stdout w ++ [ ReadingCsv csv_path; UserNotFound user_id;
                          ValidUserNos (sorted (drop_duplicates (user_no <$> df))) ])
           (stderr w))
    | r :: _ =>
        match first_absent (lacking f) with
        | None =>
            (inr true,
             World (files w) (parents_made w)
               (stdout w ++ ReadingCsv csv_path :: show_row user_id (base r))
               (stderr w))
        | Some c =>
            (inr false,
             World (files w) (parents_made w)
               (stdout w ++ ReadingCsv csv_path
                  :: take (shown_before c) (show_row user_id (base r)))
               (stderr w ++ [ErrMissingColumn (KeyError (column_name c))]))
        end
    end.
Proof.
  intros Hfile Htable.
  assert (read_joined_csv csv_path
            (World (files w) (parents_made w) (stdout w ++ [ReadingCsv csv_path]) (stderr w))
          = (inr (lacking f, df),
             World (files w) (parents_made w) (stdout w ++ [ReadingCsv csv_path])
               (stderr w))) as Hread.
  { unfold read_joined_csv, open_file, mbind, M_bind, mret, M_ret. cbn [files].
    rewrite Hfile. destruct f; try discriminate; injection Htable as <-; reflexivity. }
  unfold get_user_responses, try_except.
  unfold mbind at 1, M_bind at 1. unfold print at 1, print_all at 1.
  unfold mbind at 1, M_bind at 1. rewrite Hread.
  generalize (lacking f). intros absent.
  destruct (filter (λ r, user_no r = user_id) df) as [|r rest].
  { unfold print, print_all, mbind, M_bind, mret, M_ret.
    cbn [files parents_made stdout stderr]. rewrite <- ?app_assoc. reflexivity. }
  unfold first_absent, show_answer, print, print_all, eprint, mbind, M_bind, mret, M_ret.
  cbn [files parents_made stdout stderr].
  repeat match goal with
  | |- context [need absent ?c ?w'] =>
      destruct (decide (c ∈ absent));
        [ repeat first [ rewrite filter_cons_True by assumption
                       | rewrite filter_cons_False by assumption ];
          rewrite (need_absent absent c) by assumption;
          cbn [files parents_made stdout stderr head take shown_before show_row];
          rewrite <- ?app_assoc; reflexivity
        | rewrite (need_present absent c) by assumption;
          cbn [files parents_made stdout stderr] ]
  end.
  rewrite !filter_cons_False by assumption.
  cbn [filter list_filter head]. rewrite <- ?app_assoc. reflexivity.
Qed.

(** When [get_user_responses] returns [True]. *)
Lemma get_user_responses_true w csv_path user_id :
  (get_user_responses csv_path user_id w).1 = inr true
  ↔ ∃ f df r, files w !! csv_path = Some f ∧ joined_table_of f = Some df
      ∧ lacking f = [] ∧ r ∈ df ∧ user_no r = user_id.
Proof.
  pose proof (get_user_responses_run_other w csv_path user_id) as Hother.
  destruct (files w !! csv_path) as [f|] eqn:Hfile.
  2: { rewrite Hother. split; [discriminate | intros (? & ? & ? & [=] & _)]. }
  destruct (joined_table_of f) as [df|] eqn:Htable.
  2: { split; [|intros (? & ? & ? & [= <-] & ? & _); congruence].
       destruct f as [[doc|]| | | |]; try discriminate; rewrite Hother; discriminate. }
  clear Hother. rewrite (get_user_responses_run_joined _ _ _ _ _ Hfile Htable).
  destruct (filter (λ r, user_no r = user_id) df) as [|r rest] eqn:Hf.
  { split; [discriminate|].
    intros (f' & df' & r & [= <-] & Hdf & _ & Hr & Hid).
    assert (df' = df) as -> by congruence.
    destruct (filter_nil_not_elem_of _ _ r Hf Hid Hr). }
  assert (r ∈ filter (λ r, user_no r = user_id) df) as Hr by (rewrite Hf; left).
  apply list_elem_of_filter in Hr as [Hid Hr].
  destruct (first_absent (lacking f)) as [c|] eqn:Hfirst.
  - split; [discriminate|].
    intros (f' & df' & r' & [= <-] & _ & Hnil & _).
    apply first_absent_nil in Hnil. congruence.
  - apply first_absent_nil in Hfirst. split; [|reflexivity].
    intros _. exists f, df, r. done.
Qed.

(** [get_user_responses] never raises and changes no file.  It returns
    [True] exactly when the path holds a table with the column
    ユーザー番号 that lacks none of the other columns and has a row of the
    queried user number.  It prints to standard error exactly when it
    finds no such table, or finds a row and is stopped by a column the
    table lacks; the error then names the first such column, in the
    order 氏名, 学籍番号, E1, E2, E3. *)
Theorem get_user_responses_returns w csv_path user_id :
  let run := get_user_responses csv_path user_id w in
  (∃ found, run.1 = inr found)
  ∧ files run.2 = files w
  ∧ parents_made run.2 = parents_made w
  ∧ (run.1 = inr true ↔
     ∃ f df r, files w !! csv_path = Some f ∧ joined_table_of f = Some df
       ∧ lacking f = [] ∧ r ∈ df ∧ user_no r = user_id)
  ∧ (stderr run.2 = stderr w ↔
     ∃ f df, files w !! csv_path = Some f ∧ joined_table_of f = Some df
       ∧ (lacking f = [] ∨ ∀ r, r ∈ df → user_no r ≠ user_id))
  ∧ (∀ f df r c, files w !! csv_path = Some f → joined_table_of f = Some df →
       r ∈ df → user_no r = user_id → first_absent (lacking f) = Some c →
       stderr run.2 = stderr w ++ [ErrMissingColumn (KeyError (column_name c))]).
Proof.
  cbv zeta.
  assert (∀ (l : list line) x k, l ++ x :: k ≠ l) as Hgrow.
  { intros l x k Heq. apply (f_equal length) in Heq. rewrite length_app in Heq.
    simpl in Heq. lia. }
  destruct (files w !! csv_path) as [f|] eqn:Hfile.
  2: { pose proof (get_user_responses_run_other w csv_path user_id) as Hother.
       rewrite Hfile in Hother. rewrite Hother. cbn [fst snd files parents_made stderr].
       split; [eauto|]. split; [reflexivity|]. split; [reflexivity|].
       split; [split; [discriminate | intros (? & ? & ? & [=] & _)]|].
       split; [split; [intros Heq; apply Hgrow in Heq; done | intros (? & ? & [=] & _)]|].
       intros ? ? ? ? [=]. }
  destruct (joined_table_of f) as [df|] eqn:Htable.
  2: { pose proof (get_user_responses_run_other w csv_path user_id) as Hother.
       rewrite Hfile in Hother.
       assert (get_user_responses csv_path user_id w
               = (inr false,
                  World (files w) (parents_made w) (stdout w ++ [ReadingCsv csv_path])
                    (stderr w ++ match f with
                                 | YamlFile None =>
                                     [ ErrOther (ParserError csv_path);
                                       Traceback (ParserError csv_path) ]
                                 | _ => [ErrMissingColumn (KeyError "ユーザー番号")]
                                 end))) as ->
         by (destruct f as [[doc|]| | | |]; try discriminate; exact Hother).
       cbn [fst snd files parents_made stderr].
       split; [eauto|]. split; [reflexivity|]. split; [reflexivity|].
       split; [split; [discriminate | intros (? & ? & ? & [= <-] & ? & _); congruence]|].
       split; [split; [|intros (? & ? & [= <-] & ? & _); congruence]|].
       - intros Heq. destruct f as [[doc|]| | | |]; apply Hgrow in Heq; done.
       - intros ? ? ? ? [= <-] ?. congruence. }
  rewrite (get_user_responses_run_joined _ _ _ _ _ Hfile Htable).
  destruct (filter (λ r, user_no r = user_id) df) as [|r rest] eqn:Hf.
  { cbn [fst snd files parents_made stderr].
    assert (∀ r, r ∈ df → user_no r ≠ user_id) as Hnone.
    { intros r Hr Hid. destruct (filter_nil_not_elem_of _ _ r Hf Hid Hr). }
    split; [eauto|]. split; [reflexivity|]. split; [reflexivity|].
    split; [split; [discriminate|]|].
    { intros (f' & df' & r & [= <-] & Hdf & _ & Hr & Hid).
      assert (df' = df) as -> by congruence. destruct (Hnone r Hr Hid). }
    split; [split; [intros _; exists f, df; auto | reflexivity]|].
    intros f' df' r c [= <-] Hdf Hr Hid _.
    assert (df' = df) as -> by congruence. destruct (Hnone r Hr Hid). }
  assert (r ∈ df ∧ user_no r = user_id) as [Hr Hid].
  { assert (r ∈ filter (λ r, user_no r = user_id) df) as Hr by (rewrite Hf; left).
    apply list_elem_of_filter in Hr as [Hid Hr]. done. }
  destruct (first_absent (lacking f)) as [c|] eqn:Hfirst;
    cbn [fst snd files parents_made stderr].
  - assert (lacking f ≠ []) as Hlack.
    { intros Hnil. apply first_absent_nil in Hnil. congruence. }
    split; [eauto|]. split; [reflexivity|]. split; [reflexivity|].
    split; [split; [discriminate|]|].
    { intros (f' & df' & r' & [= <-] & _ & Hnil & _). done. }
    split; [split|].
    + intros Heq. apply Hgrow in Heq. done.
    + intros (f' & df' & [= <-] & Hdf & [Hnil|Hnone]); [done|].
      assert (df' = df) as -> by congruence. destruct (Hnone r Hr Hid).
    + intros f' df' r' c' [= <-] _ _ _ Hc. congruence.
  - apply first_absent_nil in Hfirst.
    split; [eauto|]. split; [reflexivity|]. split; [reflexivity|].
    split; [split; [intros _; exists f, df, r; done | reflexivity]|].
    split; [split; [intros _; exists f, df; auto | reflexivity]|].
    intros f' df' r' c' [= <-] _ _ _ Hc. rewrite Hfirst in Hc. discriminate.
Qed.

(** ** [generate_template]: every outcome *)

Section template_outcomes.
Context {sorter : SortValues}.

Lemma generate_template_run_table w csv_path output_path :
  generate_template csv_path output_path w
  = match files w !! csv_path with
    | None =>
        (inr false,
         World (files w) (parents_made w) (stdout w ++ [ReadingCsv csv_path])
           (stderr w ++ [ErrFileNotFound csv_path]))
    | Some f =>
        match table_of f with
        | None =>
            (inr false,
             World (files w) (parents_made w) (stdout w ++ [ReadingCsv csv_path])
               (stderr w ++ [ErrOther match f with
                                      | YamlFile _ => ParserError csv_path
                                      | _ => KeyError (column_name StudentNo)
                                      end]))
        | Some rows =>
            if bool_decide (Name ∈ lacking f) then
              (inr false,
               World (files w) (parents_made w) (stdout w ++ [ReadingCsv csv_path])
                 (stderr w ++ [ErrOther (KeyError (column_name Name))]))
            else
              (inr true,
               World (<[output_path :=
                          YamlFile (Some (build_template (extract_students rows)))]>
                        (files w))
                 (parents_made w ++ [output_path])
                 (stdout w ++ [ ReadingCsv csv_path;
                                StudentsExtracted (length (extract_students rows));
                                WritingTemplate output_path; TemplateDone; NextStepsHeader;
                                NextStepEdit output_path; NextStepRun ])
                 (stderr w))
        end
    end.
Proof.
  pose proof (read_csv_run csv_path
                (World (files w) (parents_made w) (stdout w ++ [ReadingCsv csv_path])
                   (stderr w))) as Hread.
  cbn [files] in Hread.
  unfold generate_template, try_except.
  unfold mbind at 1, M_bind at 1. unfold print at 1, print_all at 1.
  unfold mbind at 1, M_bind at 1. rewrite Hread. clear Hread.
  destruct (files w !! csv_path) as [[doc|rows|jrows|absent rows|absent jrows]|];
    cbn [table_of lacking];
    try (unfold eprint, mbind, M_bind, mret, M_ret;
         cbn [files parents_made stdout stderr]; reflexivity);
    unfold mbind at 1, M_bind at 1;
    try (rewrite (need_present [] StudentNo) by apply not_elem_of_nil;
         unfold mbind at 1, M_bind at 1;
         rewrite (need_present [] Name) by apply not_elem_of_nil;
         rewrite (bool_decide_false (Name ∈ [])) by apply not_elem_of_nil;
         unfold print, print_all, mkdir_parent, write_file, mbind, M_bind, mret, M_ret;
         cbn [files parents_made stdout stderr]; rewrite <- ?app_assoc; reflexivity);
    (destruct (decide (StudentNo ∈ absent)) as [Hno|Hno];
     [ rewrite (need_absent absent StudentNo) by exact Hno;
       rewrite (bool_decide_true (StudentNo ∈ absent)) by exact Hno;
       unfold eprint, mbind, M_bind, mret, M_ret;
       cbn [files parents_made stdout stderr]; reflexivity
     | rewrite (need_present absent StudentNo) by exact Hno;
       rewrite (bool_decide_false (StudentNo ∈ absent)) by exact Hno;
       unfold mbind at 1, M_bind at 1;
       destruct (decide (Name ∈ absent)) as [Hname|Hname];
       [ rewrite (need_absent absent Name) by exact Hname;
         rewrite (bool_decide_true (Name ∈ absent)) by exact Hname;
         unfold eprint, mbind, M_bind, mret, M_ret;
         cbn [files parents_made stdout stderr]; reflexivity
       | rewrite (need_present absent Name) by exact Hname;
         rewrite (bool_decide_false (Name ∈ absent)) by exact Hname;
         unfold print, print_all, mkdir_parent, write_file, mbind, M_bind, mret, M_ret;
         cbn [files parents_made stdout stderr]; rewrite <- ?app_assoc; reflexivity ] ]).
Qed.

(** [generate_template] never raises.  It returns [True] exactly when
    the input path holds a table with the columns 学籍番号 and 氏名;
    otherwise it has written no file and made no directory.  In every
    case the files at other paths than the output path are as they
    were. *)
Theorem generate_template_returns w csv_path output_path :
  let run := generate_template csv_path output_path w in
  (∃ written, run.1 = inr written)
  ∧ (run.1 = inr true ↔
     ∃ f rows, files w !! csv_path = Some f ∧ table_of f = Some rows ∧ Name ∉ lacking f)
  ∧ (∀ path, path ≠ output_path → files run.2 !! path = files w !! path)
  ∧ (run.1 ≠ inr true → files run.2 = files w ∧ parents_made run.2 = parents_made w).
Proof.
  cbv zeta. rewrite generate_template_run_table.
  destruct (files w !! csv_path) as [f|];
    [destruct (table_of f) as [rows|] eqn:Htable;
       [destruct (decide (Name ∈ lacking f)) as [Hname|Hname];
          [rewrite bool_decide_true by exact Hname
          |rewrite bool_decide_false by exact Hname]|]|];
    cbn [fst snd files parents_made].
  - split; [eauto|].
    split; [split; [discriminate | intros (? & ? & [= <-] & _ & ?); done]|].
    split; [reflexivity|]. intros _. split; reflexivity.
  - split; [eauto|]. split; [split; [intros _; exists f, rows; done | reflexivity]|].
    split; [intros path Hne; rewrite lookup_insert_ne by congruence; reflexivity|].
    intros Hne. destruct Hne. reflexivity.
  - split; [eauto|].
    split; [split; [discriminate | intros (? & ? & [= <-] & Ht & _); congruence]|].
    split; [reflexivity|]. intros _. split; reflexivity.
  - split; [eauto|]. split; [split; [discriminate | intros (? & ? & [=] & _)]|].
    split; [reflexivity|]. intros _. split; reflexivity.
Qed.

End template_outcomes.

(** ** From the template to the join *)

Lemma check_info_template_row idx p :
  check_info (template_row idx p).2
  = if (Z.of_nat idx + 1 <? 1) || (Z.of_nat idx + 1 >? 18)
    then inl (UserIdOutOfRange (PInt (Z.of_nat idx + 1)))
    else inr (Z.of_nat idx + 1).
Proof. reflexivity. Qed.

(** The entries of a template, read by the loop of [load_user_mapping]:
    the row at index [i] is accepted with user id [i + 1] when
    [i < 18] and is rejected for its range otherwise. *)
Lemma template_rows_scanned k students :
  Forall (λ p, strip p.1 = p.1) students →
  omap entry_pair (imap (λ i, template_row (k + i)) students)
  = imap (λ i p, (p.1, Z.of_nat (k + i) + 1)) (take (18 - k) students)
  ∧ length (omap entry_error (imap (λ i, template_row (k + i)) students))
    = (length students - (18 - k))%nat.
Proof.
  revert k. induction students as [|p l IH]; intros k Htrim.
  - rewrite take_nil. split; reflexivity.
  - apply Forall_cons in Htrim as [Hp Htrim].
    rewrite imap_cons. cbn [omap list_omap].
    assert (imap ((λ i, template_row (k + i)) ∘ S) l
            = imap (λ i, template_row (S k + i)) l) as ->.
    { apply imap_ext. intros i x _. simpl. f_equal. lia. }
    destruct (IH (S k) Htrim) as [IHp IHe].
    unfold entry_pair at 1, entry_error at 1. rewrite check_info_template_row.
    rewrite Nat.add_0_r.
    destruct (decide (k < 18)%nat) as [Hk|Hk].
    + replace ((Z.of_nat k + 1 <? 1) || (Z.of_nat k + 1 >? 18)) with false
        by (symmetry; apply orb_false_intro; lia).
      replace (18 - k)%nat with (S (18 - S k)) by lia.
      cbn [take]. rewrite imap_cons, IHp, IHe. cbn [template_row fst].
      rewrite Hp, Nat.add_0_r. split; [|simpl; lia].
      f_equal. apply imap_ext. intros i x _. simpl. do 2 f_equal. lia.
    + replace ((Z.of_nat k + 1 <? 1) || (Z.of_nat k + 1 >? 18)) with true
        by (symmetry; apply orb_true_intro; lia).
      replace (18 - k)%nat with 0%nat in * by lia.
      replace (18 - S k)%nat with 0%nat in * by lia.
      rewrite take_0 in *. cbn [length]. rewrite IHp, IHe. split; [reflexivity | lia].
Qed.

Lemma values_numbered_from k (students : list (pystr * cell)) :
  values (imap (λ i p, (p.1, Z.of_nat (k + i) + 1)) students)
  = (λ i, Z.of_nat i + 1) <$> seq k (length students).
Proof.
  unfold values. revert k. induction students as [|p l IH]; intros k; [reflexivity|].
  rewrite imap_cons, fmap_cons. cbn [length seq fmap list_fmap snd].
  rewrite Nat.add_0_r. f_equal. rewrite <- IH. f_equal.
  apply imap_ext. intros i x _. simpl. do 2 f_equal. lia.
Qed.

Lemma keys_numbered_from k (students : list (pystr * cell)) :
  keys (imap (λ i p, (p.1, Z.of_nat (k + i) + 1)) students) = keys students.
Proof.
  unfold keys. revert k. induction students as [|p l IH]; intros k; [reflexivity|].
  rewrite imap_cons, !fmap_cons. f_equal. rewrite <- (IH (S k)). f_equal.
  apply imap_ext. intros i x _. simpl. do 2 f_equal. lia.
Qed.

Lemma keys_numbered (students : list (pystr * cell)) :
  keys (numbered students) = keys students.
Proof. apply (keys_numbered_from 0). Qed.

Lemma values_numbered (students : list (pystr * cell)) :
  values (numbered students) = seqZ 1 (Z.of_nat (length students)).
Proof.
  etrans; [apply (values_numbered_from 0)|].
  unfold seqZ. rewrite Nat2Z.id. reflexivity.
Qed.

Lemma numbered_get (students : list (pystr * cell)) i k who :
  NoDup (keys students) →
  students !! i = Some (k, who) →
  dict_get k (numbered students) = Some (Z.of_nat i + 1).
Proof.
  intros Hnd Hi. apply elem_dict_get.
  - rewrite keys_numbered. exact Hnd.
  - apply list_elem_of_lookup. exists i. unfold numbered.
    rewrite list_lookup_imap, Hi. reflexivity.
Qed.

(** What [load_user_mapping] makes of the template written for up to 18
    students. *)
Lemma template_accepted w yaml_path students :
  files w !! yaml_path = Some (YamlFile (Some (build_template students))) →
  students ≠ [] →
  NoDup (keys students) →
  Forall (λ p, strip p.1 = p.1) students →
  (length students ≤ 18)%nat →
  ∃ w', load_user_mapping yaml_path w = (inr (numbered students), w')
    ∧ files w' = files w.
Proof.
  intros Hfile Hne Hnd Htrim Hlen.
  rewrite (build_template_distinct _ Hnd) in Hfile.
  destruct (template_rows_scanned 0 students Htrim) as [Hpairs Herrs].
  change (imap (λ i, template_row (0 + i)) students)
    with (imap template_row students) in Hpairs, Herrs.
  change (imap (λ i p, (p.1, Z.of_nat (0 + i) + 1)) (take (18 - 0) students))
    with (numbered (take (18 - 0) students)) in Hpairs.
  rewrite Nat.sub_0_r in Hpairs, Herrs.
  rewrite take_ge in Hpairs by lia.
  replace (length students - 18)%nat with 0%nat in Herrs by lia.
  apply nil_length_inv in Herrs.
  rewrite (load_user_mapping_clean _ _ _ Hfile);
    [|destruct students; [done | discriminate] | exact Herrs].
  cbv zeta. rewrite Hpairs.
  rewrite (dict_of_distinct (numbered students)) by (rewrite keys_numbered; exact Hnd).
  rewrite find_duplicates_NoDup by (rewrite values_numbered; apply NoDup_seqZ).
  rewrite bool_decide_false by (intros H; apply H; reflexivity).
  eexists. split; reflexivity.
Qed.

(** What it makes of the template written for more than 18. *)
Lemma template_refused w yaml_path students :
  files w !! yaml_path = Some (YamlFile (Some (build_template students))) →
  NoDup (keys students) →
  Forall (λ p, strip p.1 = p.1) students →
  (18 < length students)%nat →
  ∃ w', load_user_mapping yaml_path w
        = (inl (ValueError (ErrorCount (length students - 18))), w')
    ∧ files w' = files w.
Proof.
  intros Hfile Hnd Htrim Hlen.
  rewrite (build_template_distinct _ Hnd) in Hfile.
  destruct (template_rows_scanned 0 students Htrim) as [_ Herrs].
  change (imap (λ i, template_row (0 + i)) students)
    with (imap template_row students) in Herrs.
  rewrite Nat.sub_0_r in Herrs.
  rewrite (load_user_mapping_errors _ _ _ Hfile).
  - rewrite Herrs. eexists. split; reflexivity.
  - intros Hnil. rewrite Hnil in Herrs. simpl in Herrs. lia.
Qed.

Section students.
Context {sorter : SortValues} (reread : file → file).

(** The students [generate_template] extracts from a table in which
    every trimmed student number has one name. *)
Lemma extract_students_one_name rows :
  (∀ r1 r2, r1 ∈ rows → r2 ∈ rows →
            strip (student_no r1) = strip (student_no r2) → name r1 = name r2) →
  (∀ k who, (k, who) ∈ extract_students rows ↔
            ∃ r, r ∈ rows ∧ k = strip (student_no r) ∧ who = name r)
  ∧ NoDup (keys (extract_students rows))
  ∧ (∀ k, k ∈ keys (extract_students rows) ↔ k ∈ student_numbers rows)
  ∧ length (extract_students rows) = size (student_numbers rows)
  ∧ Forall (λ p, strip p.1 = p.1) (extract_students rows).
Proof.
  intros Hone.
  assert (∀ k who, (k, who) ∈ extract_students rows ↔
                   ∃ r, r ∈ rows ∧ k = strip (student_no r) ∧ who = name r) as Hin.
  { intros k who. unfold extract_students.
    rewrite sort_values_perm, elem_of_drop_duplicates, <- list_fmap_compose,
      list_elem_of_fmap.
    split; intros (r & Hr & Hr').
    - exists r. simpl in Hr. injection Hr as -> ->. done.
    - destruct Hr' as [-> ->]. exists r. done. }
  assert (NoDup (keys (extract_students rows))) as Hnd.
  { unfold keys. apply NoDup_fmap_2_strong.
    - intros [k1 n1] [k2 n2] H1 H2 Hk. simpl in Hk. subst k2.
      apply Hin in H1 as (r1 & Hr1 & -> & ->). apply Hin in H2 as (r2 & Hr2 & Hk & ->).
      rewrite (Hone r1 r2 Hr1 Hr2 Hk). reflexivity.
    - unfold extract_students. rewrite sort_values_perm. apply NoDup_drop_duplicates. }
  assert (∀ k, k ∈ keys (extract_students rows) ↔ k ∈ student_numbers rows) as Hkeys.
  { intros k. unfold keys, student_numbers.
    rewrite elem_of_list_to_set, !list_elem_of_fmap. split.
    - intros ([k' who] & -> & Hp). apply Hin in Hp as (r & Hr & -> & _). eauto.
    - intros (r & -> & Hr). exists (strip (student_no r), name r).
      split; [reflexivity|]. apply Hin. eauto. }
  split; [exact Hin|]. split; [exact Hnd|]. split; [exact Hkeys|]. split.
  - rewrite <- (length_fmap fst). apply Permutation_length.
    apply NoDup_Permutation; [exact Hnd | apply NoDup_elements|].
    intros k. rewrite elem_of_elements. apply Hkeys.
  - apply Forall_forall. intros [k who] Hp. apply Hin in Hp as (r & _ & -> & _).
    apply strip_idem.
Qed.

Lemma generate_template_written w csv_path output_path rows :
  files w !! csv_path = Some (CsvFile rows) →
  ∃ w', generate_template csv_path output_path w = (inr true, w')
    ∧ files w'
      = <[output_path := YamlFile (Some (build_template (extract_students rows)))]> (files w).
Proof.
  intros Hcsv. rewrite (generate_template_run _ _ _ _ Hcsv).
  eexists. split; reflexivity.
Qed.

Lemma extract_students_nonempty rows :
  rows ≠ [] → extract_students rows ≠ [].
Proof.
  intros Hrows Hnil. apply (f_equal length) in Hnil.
  unfold extract_students in Hnil. rewrite sort_values_perm in Hnil.
  destruct rows as [|r rows]; [done|]. discriminate.
Qed.

(** With the dictionary that numbers the extracted students no row of
    the table is unmapped. *)
Lemma numbered_students_cover rows :
  (∀ r1 r2, r1 ∈ rows → r2 ∈ rows →
            strip (student_no r1) = strip (student_no r2) → name r1 = name r2) →
  unmapped_rows (numbered (extract_students rows)) rows = [].
Proof.
  intros Hone. destruct (extract_students_one_name rows Hone) as (_ & _ & Hkeys & _).
  apply unmapped_rows_nil. intros r Hr.
  destruct (dict_get (strip (student_no r)) (numbered (extract_students rows))) eqn:Hget;
    [eauto|].
  apply dict_get_None in Hget. destruct Hget. rewrite keys_numbered. apply Hkeys.
  unfold student_numbers. rewrite elem_of_list_to_set. apply list_elem_of_fmap. eauto.
Qed.

(** The generator feeds the validator, the validator feeds the join.
    Take a table with all its columns that is not empty, in which every
    row has a student number, every trimmed student number has one name
    and at most 18 of them are different.  [generate_template] writes a
    template; if that template is read back as it was written,
    [load_user_mapping] accepts it as it is; the dictionary gives the
    student numbers, in ascending order, the user ids 1, 2, 3, ...; and
    with it [add_user_id_and_sort] joins the same table without an
    unmapped row. *)
Theorem generated_template_loads_and_joins w csv_path yaml_path output_path rows :
  files w !! csv_path = Some (CsvFile rows) →
  csv_path ≠ yaml_path →
  rows ≠ [] →
  (∀ r, r ∈ rows → has_student_no r) →
  (∀ r1 r2, r1 ∈ rows → r2 ∈ rows →
            strip (student_no r1) = strip (student_no r2) → name r1 = name r2) →
  (size (student_numbers rows) ≤ 18)%nat →
  ∃ students w1,
    generate_template csv_path yaml_path w = (inr true, w1)
    ∧ StronglySorted (λ a b, str_le a b = true ∧ a ≠ b) (keys students)
    ∧ (∀ k, k ∈ keys students ↔ k ∈ student_numbers rows)
    ∧ values (numbered students) = seqZ 1 (Z.of_nat (size (student_numbers rows)))
    ∧ ((∀ g, files w1 !! yaml_path = Some g → reread g = g) →
       ∃ w2 w3,
         load_user_mapping yaml_path (reopened reread yaml_path w1)
         = (inr (numbered students), w2)
         ∧ add_user_id_and_sort csv_path (numbered students) output_path w2
           = (inr (), w3)).
Proof.
  intros Hcsv Hne Hrows _ Hone Hsize.
  destruct (extract_students_one_name rows Hone) as (Hin & Hnd & Hkeys & Hlen & Htrim).
  destruct (generate_template_written w csv_path yaml_path rows Hcsv)
    as (w1 & Hgen & Hfiles1).
  exists (extract_students rows), w1.
  split; [exact Hgen|].
  split; [|split; [exact Hkeys |split; [rewrite values_numbered, Hlen; reflexivity|]]];
    cycle 1.
  { intros Hread. pose proof (files_reopened _ _ _ Hread) as Hfiles1'.
    destruct (template_accepted (reopened reread yaml_path w1) yaml_path
                (extract_students rows))
      as (w2 & Hload & Hfiles2);
      [ rewrite Hfiles1', Hfiles1; apply lookup_insert_eq
      | apply (extract_students_nonempty rows Hrows) | exact Hnd | exact Htrim
      | rewrite Hlen; exact Hsize |].
    exists w2. eexists. split; [exact Hload|].
    rewrite add_user_id_and_sort_run_table, Hfiles2, Hfiles1', Hfiles1.
    rewrite lookup_insert_ne by congruence. rewrite Hcsv. cbn [table_of]. cbv zeta.
    rewrite (numbered_students_cover rows Hone).
    rewrite bool_decide_false by (intros H; apply H; reflexivity). reflexivity. }
  apply StronglySorted_strict; [|exact Hnd].
  unfold keys, extract_students. eapply StronglySorted_fmap;
    [|apply (sort_values_sorted _ le_student_no);
      [apply le_student_no_total | apply le_student_no_trans]].
  intros a b Hab. exact Hab.
Qed.

(** The generator does not stop at 18.  For a table with more than 18
    different trimmed student numbers (one name each) it writes a
    template all the same, and [load_user_mapping] refuses that
    template: the students from the 19th on carry user ids beyond 18,
    and the error counts exactly them. *)
Theorem generated_template_over_18 w csv_path yaml_path rows :
  files w !! csv_path = Some (CsvFile rows) →
  (∀ r1 r2, r1 ∈ rows → r2 ∈ rows →
            strip (student_no r1) = strip (student_no r2) → name r1 = name r2) →
  (18 < size (student_numbers rows))%nat →
  ∃ w1 w2,
    generate_template csv_path yaml_path w = (inr true, w1)
    ∧ load_user_mapping yaml_path w1
      = (inl (ValueError (ErrorCount (size (student_numbers rows) - 18))), w2)
    ∧ files w2 = files w1.
Proof.
  intros Hcsv Hone Hsize.
  destruct (extract_students_one_name rows Hone) as (_ & Hnd & _ & Hlen & Htrim).
  destruct (generate_template_written w csv_path yaml_path rows Hcsv)
    as (w1 & Hgen & Hfiles1).
  destruct (template_refused w1 yaml_path (extract_students rows))
    as (w2 & Hload & Hfiles2);
    [ rewrite Hfiles1; apply lookup_insert_eq | exact Hnd | exact Htrim
    | rewrite Hlen; exact Hsize |].
  rewrite Hlen in Hload. exists w1, w2. done.
Qed.

End students.

Lemma one_spelling_template_joined :
  let w := csv_world one_spelling in
  let written := generate_template (sorter := stable_sort) "answers.csv" "config/user_mapping.yaml" w in
  let loaded := load_user_mapping "config/user_mapping.yaml"
                  (reopened (λ g, g) "config/user_mapping.yaml" written.2) in
  let joined := add_user_id_and_sort (sorter := stable_sort) "answers.csv"
                  [(py "S001", 1); (py "S002", 2)] "out/joined.csv" loaded.2 in
  written.1 = inr true
  ∧ loaded.1 = inr [(py "S001", 1); (py "S002", 2)]
  ∧ joined.1 = inr ()
  ∧ files joined.2 !! "out/joined.csv"%string
    = Some (JoinedCsvFile
        [ JRow 1 (Row (py "S001") (Some (py "Taro")) None None None []);
          JRow 2 (Row (py "S002") (Some (py "Jiro")) None None None []);
          JRow 2 (Row (py "S002") (Some (py "Jiro")) (Some (py "again")) None None []) ]).
Proof.
  destruct (generated_template_loads_and_joins (sorter := stable_sort) (λ g, g)
              (csv_world one_spelling) "answers.csv" "config/user_mapping.yaml"
              "out/joined.csv" one_spelling)
    as (students & w1 & _).
  - reflexivity.
  - discriminate.
  - discriminate.
  - intros r Hr. unfold one_spelling in Hr.
    repeat (apply elem_of_cons in Hr as [->|Hr]; [vm_compute; discriminate|]).
    inversion Hr.
  - intros r1 r2 H1 H2. unfold one_spelling in H1, H2.
    repeat (apply elem_of_cons in H1 as [->|H1]);
      repeat (apply elem_of_cons in H2 as [->|H2]);
      try (inversion H1; fail); try (inversion H2; fail);
      vm_compute; intros [=]; reflexivity.
  - vm_compute. lia.
  - cbv zeta. vm_compute. repeat split; reflexivity.
Defined.

Lemma nineteen_rows_refused :
  let w := csv_world nineteen_rows in
  let written := generate_template (sorter := stable_sort) "answers.csv" "config/user_mapping.yaml" w in
  let loaded := load_user_mapping "config/user_mapping.yaml" written.2 in
  written.1 = inr true ∧ loaded.1 = inl (ValueError (ErrorCount 1)).
Proof.
  destruct (generated_template_over_18 (sorter := stable_sort)
              (csv_world nineteen_rows) "answers.csv" "config/user_mapping.yaml"
              nineteen_rows)
    as (w1 & w2 & _).
  - reflexivity.
  - intros r1 r2 H1 H2 _. unfold nineteen_rows in H1, H2.
    apply list_elem_of_fmap in H1 as (i1 & -> & _).
    apply list_elem_of_fmap in H2 as (i2 & -> & _). reflexivity.
  - vm_compute. lia.
  - cbv zeta. vm_compute. split; reflexivity.
Defined.

(** ** The entry points *)

Lemma in_range n : (n <? 1) || (n >? 18) = false ↔ 1 ≤ n ≤ 18.
Proof. rewrite orb_false_iff, Z.ltb_ge, Z.gtb_ltb, Z.ltb_ge. lia. Qed.

Lemma app_cons_ne {A} (l : list A) x k : l ++ x :: k ≠ l.
Proof.
  intros Heq. apply (f_equal length) in Heq. rewrite length_app in Heq.
  simpl in Heq. lia.
Qed.

Lemma paths_distinct :
  mapping_yaml ≠ survey_csv ∧ survey_csv ≠ joined_csv ∧ mapping_yaml ≠ joined_csv.
Proof. repeat split; discriminate. Qed.

Lemma clean_values_range data :
  omap entry_error data = [] →
  Forall (λ n, 1 ≤ n ≤ 18) (values (dict_of (omap entry_pair data))).
Proof.
  intros Hclean. pose proof (clean_pass data Hclean) as Hpairs.
  apply Forall_forall. intros n Hn.
  apply list_elem_of_fmap in Hn as ([k v] & -> & Hin).
  apply elem_of_dict_of, list_elem_of_lookup in Hin as [i Hi].
  destruct (Forall2_lookup_r _ _ _ _ _ Hpairs Hi) as (item & _ & _ & Hc).
  eapply check_info_range, Hc.
Qed.

(** A lookup that finds its row ends the process with status 0. *)
Lemma query_responses_main_found int_of argv w arg user_id df r :
  argv !! 1%nat = Some arg →
  int_of arg = Some user_id →
  1 ≤ user_id ≤ 18 →
  files w !! joined_csv = Some (JoinedCsvFile df) →
  r ∈ df →
  user_no r = user_id →
  status (query_responses_main int_of argv w) = 0.
Proof.
  intros Harg Hint Hrange Hfile Hr Hid. unfold query_responses_main.
  rewrite Harg, Hint. apply in_range in Hrange. rewrite Hrange.
  rewrite (get_user_responses_run _ _ _ _ Hfile).
  destruct (filter (λ r, user_no r = user_id) df) as [|r' rest] eqn:Hf; [|reflexivity].
  destruct (filter_nil_not_elem_of _ _ r Hf Hid Hr).
Qed.

(** Every run of [get_user_responses] returns, leaves the files alone
    and prints at least the line that names the file. *)
Lemma get_user_responses_shape w csv_path user_id :
  ∃ found printed errors,
    get_user_responses csv_path user_id w
    = (inr found,
       World (files w) (parents_made w) (stdout w ++ ReadingCsv csv_path :: printed)
         (stderr w ++ errors)).
Proof.
  pose proof (get_user_responses_run_other w csv_path user_id) as Hother.
  destruct (files w !! csv_path) as [f|] eqn:Hfile.
  2: { rewrite Hother. exists false, []. eexists. reflexivity. }
  destruct (joined_table_of f) as [df|] eqn:Htable.
  2: { destruct f as [[doc|]| | | |]; try discriminate; rewrite Hother;
         exists false, []; eexists; reflexivity. }
  rewrite (get_user_responses_run_joined _ _ _ _ _ Hfile Htable).
  destruct (filter (λ r, user_no r = user_id) df) as [|r rest].
  - exists false. eexists. exists []. rewrite app_nil_r. reflexivity.
  - destruct (first_absent (lacking f)) as [c|].
    + exists false. eexists. eexists. reflexivity.
    + exists true. eexists. exists []. rewrite app_nil_r. reflexivity.
Qed.

Lemma get_user_responses_prints w csv_path user_id :
  stdout (get_user_responses csv_path user_id w).2 ≠ stdout w.
Proof.
  destruct (get_user_responses_shape w csv_path user_id)
    as (found & printed & errors & ->).
  apply app_cons_ne.
Qed.

(** [main] of query_responses.py exits with 0 or 1 and changes no
    file.  It exits with 0 exactly when there is an argument, [int]
    reads it as a number from 1 to 18, and the file at the built-in path
    is a table with the column ユーザー番号 that lacks none of the other
    columns and has a row of that user number. *)
Theorem query_responses_main_exit_status int_of argv w :
  let e := query_responses_main int_of argv w in
  (status e = 0 ∨ status e = 1)
  ∧ files (after e) = files w
  ∧ parents_made (after e) = parents_made w
  ∧ (status e = 0 ↔
     ∃ arg user_id f df r,
       argv !! 1%nat = Some arg ∧ int_of arg = Some user_id ∧ 1 ≤ user_id ≤ 18
       ∧ files w !! joined_csv = Some f ∧ joined_table_of f = Some df
       ∧ lacking f = [] ∧ r ∈ df ∧ user_no r = user_id).
Proof.
  cbv zeta. unfold query_responses_main.
  destruct (argv !! 1%nat) as [arg|] eqn:Harg.
  2: { simpl. split; [right; reflexivity|]. split; [reflexivity|]. split; [reflexivity|].
       split; [discriminate | intros (? & ? & ? & ? & ? & [=] & _)]. }
  destruct (int_of arg) as [user_id|] eqn:Hint.
  2: { simpl. split; [right; reflexivity|]. split; [reflexivity|]. split; [reflexivity|].
       split; [discriminate | intros (? & ? & ? & ? & ? & [= <-] & ? & _); congruence]. }
  destruct ((user_id <? 1) || (user_id >? 18)) eqn:Hrange.
  { simpl. split; [right; reflexivity|]. split; [reflexivity|]. split; [reflexivity|].
    split; [discriminate|].
    intros (? & n & ? & ? & ? & [= <-] & Hn & Hr & _).
    assert (n = user_id) as -> by congruence. apply in_range in Hr. congruence. }
  apply in_range in Hrange.
  pose proof (get_user_responses_true w joined_csv user_id) as Htrue.
  destruct (get_user_responses_shape w joined_csv user_id)
    as (found & printed & errors & Hrun).
  rewrite Hrun in Htrue |- *. cbn [fst] in Htrue.
  destruct found; cbn [status after files parents_made].
  - split; [left; reflexivity|]. split; [reflexivity|]. split; [reflexivity|].
    split; [intros _ | reflexivity].
    destruct Htrue as [Htrue _].
    destruct (Htrue eq_refl) as (f & df & r & Hfile & Htable & Hlack & Hr & Hid).
    exists arg, user_id, f, df, r. done.
  - split; [right; reflexivity|]. split; [reflexivity|]. split; [reflexivity|].
    split; [discriminate|].
    intros (? & n & f & df & r & [= <-] & Hn & _ & Hfile & Htable & Hlack & Hr & Hid).
    assert (n = user_id) as -> by congruence.
    destruct Htrue as [_ Htrue]. discriminate Htrue. eauto 10.
Qed.

(** [main] of query_responses.py checks its argument before it touches
    anything: it ends with the world exactly as it found it, nothing
    printed by [get_user_responses] and no file opened, exactly when
    the argument is missing, is no integer for [int], or is a number
    outside 1..18; it then exits with 1 and a line of its own. *)
Theorem query_responses_main_checks_argument int_of argv w :
  let e := query_responses_main int_of argv w in
  (after e = w ↔
   ¬ ∃ arg user_id,
       argv !! 1%nat = Some arg ∧ int_of arg = Some user_id ∧ 1 ≤ user_id ≤ 18)
  ∧ (after e = w ↔ notices e ≠ [])
  ∧ (after e = w → status e = 1).
Proof.
  cbv zeta. unfold query_responses_main.
  destruct (argv !! 1%nat) as [arg|] eqn:Harg.
  2: { simpl. split; [|split; [split; [discriminate | reflexivity] | reflexivity]].
       split; [intros _ (? & ? & [=] & _) | reflexivity]. }
  destruct (int_of arg) as [user_id|] eqn:Hint.
  2: { simpl. split; [|split; [split; [discriminate | reflexivity] | reflexivity]].
       split; [intros _ (? & ? & [= <-] & ? & _); congruence | reflexivity]. }
  destruct ((user_id <? 1) || (user_id >? 18)) eqn:Hrange.
  { simpl. split; [|split; [split; [discriminate | reflexivity] | reflexivity]].
    split; [|reflexivity].
    intros _ (? & n & [= <-] & Hn & Hr).
    assert (n = user_id) as -> by congruence. apply in_range in Hr. congruence. }
  apply in_range in Hrange.
  pose proof (get_user_responses_prints w joined_csv user_id) as Hprints.
  assert (∀ (r : exn + bool) w', stdout w' ≠ stdout w →
            after (match r with inr true => Ending 0 [] w' | _ => Ending 1 [] w' end) ≠ w)
    as Hafter.
  { intros [e|[]] w' Hne Heq; simpl in Heq; subst w'; done. }
  destruct (get_user_responses joined_csv user_id w) as [r w'].
  simpl in Hprints. specialize (Hafter r w' Hprints).
  split; [|split].
  - split; [intros Heq; destruct (Hafter Heq)|].
    intros Hno. destruct Hno. exists arg, user_id. done.
  - split; [intros Heq; destruct (Hafter Heq)|].
    intros Hne. destruct Hne. destruct r as [e|[]]; reflexivity.
  - intros Heq. destruct (Hafter Heq).
Qed.

Section entry_points.
Context {sorter : SortValues}.

Lemma add_user_id_main_run w :
  add_user_id_main w
  = match load_user_mapping mapping_yaml w with
    | (inl e, w1) => failed e w1
    | (inr user_mapping, w1) =>
        match add_user_id_and_sort survey_csv user_mapping joined_csv w1 with
        | (inl e, w2) => failed e w2
        | (inr _, w2) => Ending 0 [] w2
        end
    end.
Proof.
  unfold add_user_id_main, failed, mbind, M_bind.
  destruct (load_user_mapping mapping_yaml w) as [[e|user_mapping] w1].
  - destruct e; reflexivity.
  - destruct (add_user_id_and_sort _ _ _ w1) as [[e|[]] w2]; [destruct e|]; reflexivity.
Qed.

Lemma failed_notices e w : notices (failed e w) ≠ [].
Proof. destruct e; discriminate. Qed.

(** A run of [main] of add_user_id.py that ends with status 0. *)
Lemma add_user_id_main_zero w :
  status (add_user_id_main w) = 0 →
  ∃ data f rows,
    files w !! mapping_yaml = Some (YamlFile (Some data))
    ∧ data ≠ []
    ∧ omap entry_error data = []
    ∧ NoDup (values (dict_of (omap entry_pair data)))
    ∧ files w !! survey_csv = Some f
    ∧ table_of f = Some rows
    ∧ unmapped_rows (dict_of (omap entry_pair data)) rows = []
    ∧ notices (add_user_id_main w) = []
    ∧ files (after (add_user_id_main w))
      = <[joined_csv := joined_file (lacking f)
                          (sort_values le_user_no
                             (join_row (dict_of (omap entry_pair data)) <$> rows))]>
          (files w)
    ∧ parents_made (after (add_user_id_main w)) = parents_made w ++ [joined_csv]
    ∧ stderr (after (add_user_id_main w)) = stderr w.
Proof.
  rewrite add_user_id_main_run.
  destruct (load_user_mapping mapping_yaml w) as [[e|user_mapping] w1] eqn:Hload;
    [intros [=]|].
  destruct (load_user_mapping_inv_data _ _ _ _ Hload)
    as (data & Hfile & Hdata & Hclean & -> & Hnd & ->).
  rewrite add_user_id_and_sort_run_table. cbn [files].
  destruct (files w !! survey_csv) as [f|] eqn:Hcsv; [|intros [=]].
  destruct (table_of f) as [rows|] eqn:Htable; [|intros [=]].
  cbv zeta.
  destruct (unmapped_rows (dict_of (omap entry_pair data)) rows) as [|r unmapped] eqn:Hun.
  - rewrite bool_decide_false by (intros H; apply H; reflexivity). intros _.
    exists data, f, rows. done.
  - rewrite bool_decide_true by discriminate.
    destruct (bool_decide (Name ∈ lacking f)); intros [=].
Qed.

(** A run that does not. *)
Lemma add_user_id_main_nonzero w :
  status (add_user_id_main w) ≠ 0 →
  status (add_user_id_main w) = 1
  ∧ files (after (add_user_id_main w)) = files w
  ∧ parents_made (after (add_user_id_main w)) = parents_made w
  ∧ notices (add_user_id_main w) ≠ [].
Proof.
  rewrite add_user_id_main_run.
  destruct (load_user_mapping_frame w mapping_yaml) as [printed Hw1].
  assert (files (load_user_mapping mapping_yaml w).2 = files w
          ∧ parents_made (load_user_mapping mapping_yaml w).2 = parents_made w)
    as [Hfiles Hparents] by (rewrite Hw1; split; reflexivity).
  clear Hw1.
  destruct (load_user_mapping mapping_yaml w) as [[e|user_mapping] w1] eqn:Hload.
  { intros _. split; [reflexivity|]. split; [exact Hfiles|].
    split; [exact Hparents | apply failed_notices]. }
  simpl in Hfiles, Hparents.
  rewrite add_user_id_and_sort_run_table.
  destruct (files w1 !! survey_csv) as [f|];
    [destruct (table_of f) as [rows|];
       [cbv zeta; destruct (bool_decide _); [destruct (bool_decide _)|]
       |destruct f]|];
    cbn [failed status after notices files parents_made]; intros Hst; try done;
    (split; [reflexivity|]); (split; [exact Hfiles|]); (split; [exact Hparents|]);
    discriminate.
Qed.

(** [main] of add_user_id.py exits with 0 or 1.  It exits with 0
    exactly when the mapping file at the built-in path holds a mapping
    that is not empty, without a defective entry and with pairwise
    different user ids in the dictionary, the survey file holds a
    table, and the trimmed student number of every row is a key of the
    dictionary. *)
Theorem add_user_id_main_exit_status w :
  let e := add_user_id_main w in
  (status e = 0 ∨ status e = 1)
  ∧ (status e = 0 ↔
     ∃ data f rows,
       files w !! mapping_yaml = Some (YamlFile (Some data))
       ∧ data ≠ []
       ∧ (∀ item r, item ∈ data → ¬ defect item.2 r)
       ∧ NoDup (values (scan data).1)
       ∧ files w !! survey_csv = Some f
       ∧ table_of f = Some rows
       ∧ ∀ r, r ∈ rows → is_Some (dict_get (strip (student_no r)) (scan data).1)).
Proof.
  cbv zeta. split.
  { destruct (decide (status (add_user_id_main w) = 0)) as [Hst|Hst]; [left; exact Hst|].
    right. apply add_user_id_main_nonzero, Hst. }
  split.
  - intros Hst.
    destruct (add_user_id_main_zero w Hst)
      as (data & f & rows & Hfile & Hdata & Hclean & Hnd & Hcsv & Htable & Hun & _).
    exists data, f, rows. rewrite scan_eq. cbn [fst].
    rewrite <- clean_iff, <- unmapped_rows_nil. done.
  - intros (data & f & rows & Hfile & Hdata & Hclean & Hnd & Hcsv & Htable & Hall).
    rewrite scan_eq in Hnd, Hall. cbn [fst] in Hnd, Hall.
    apply clean_iff in Hclean. apply unmapped_rows_nil in Hall.
    rewrite add_user_id_main_run.
    rewrite (load_user_mapping_clean _ _ _ Hfile Hdata Hclean). cbv zeta.
    rewrite (find_duplicates_NoDup _ Hnd).
    rewrite bool_decide_false by (intros H; apply H; reflexivity).
    rewrite add_user_id_and_sort_run_table. cbn [files].
    rewrite Hcsv, Htable. cbv zeta. rewrite Hall.
    rewrite bool_decide_false by (intros H; apply H; reflexivity). reflexivity.
Qed.

(** [main] of add_user_id.py writes all or nothing.  When it exits
    with 0 it has printed no error of its own, and the one file it has
    changed is the joined table at the built-in output path, which has
    the columns of the survey table, as many rows as it, and user
    numbers that all are from 1 to 18.  When it does not, every file is
    as it was, no directory has been made, and it has printed an
    error. *)
Theorem add_user_id_main_all_or_nothing w :
  let e := add_user_id_main w in
  (status e = 0 →
   notices e = []
   ∧ stderr (after e) = stderr w
   ∧ (∀ path, path ≠ joined_csv → files (after e) !! path = files w !! path)
   ∧ ∃ f rows df,
       files w !! survey_csv = Some f ∧ table_of f = Some rows
       ∧ files (after e) !! joined_csv = Some (joined_file (lacking f) df)
       ∧ length df = length rows
       ∧ Forall (λ r, 1 ≤ user_no r ≤ 18) df)
  ∧ (status e ≠ 0 →
     files (after e) = files w
     ∧ parents_made (after e) = parents_made w
     ∧ notices e ≠ []).
Proof.
  cbv zeta. split.
  - intros Hst.
    destruct (add_user_id_main_zero w Hst)
      as (data & f & rows & Hfile & Hdata & Hclean & Hnd & Hcsv & Htable & Hun
          & Hnotices & Hfiles & _ & Herr).
    split; [exact Hnotices|]. split; [exact Herr|]. rewrite Hfiles.
    split; [intros path Hne; apply lookup_insert_ne; congruence|].
    exists f, rows. eexists. split; [exact Hcsv|]. split; [exact Htable|].
    split; [apply lookup_insert_eq|].
    split; [rewrite sort_values_perm; apply length_fmap|].
    rewrite sort_values_perm. apply Forall_forall. intros jr Hjr.
    apply list_elem_of_fmap in Hjr as (r & -> & Hr).
    rewrite unmapped_rows_nil in Hun. destruct (Hun r Hr) as [n Hn].
    rewrite join_row_eq. simpl. rewrite Hn. simpl.
    pose proof (clean_values_range data Hclean) as Hrange.
    rewrite Forall_forall in Hrange. apply Hrange.
    apply dict_get_Some_elem in Hn. apply list_elem_of_fmap. exists (strip (student_no r), n).
    split; [reflexivity | exact Hn].
  - intros Hst. apply add_user_id_main_nonzero in Hst. tauto.
Qed.

(** [main] of generate_template.py exits with 0 or 1.  It exits with 0
    exactly when the survey file at the built-in path holds a table
    with the columns 学籍番号 and 氏名, and then whatever the mapping file
    held has been replaced by the template.  Otherwise no file is
    changed. *)
Theorem generate_template_main_exit_status w :
  let e := generate_template_main w in
  (status e = 0 ∨ status e = 1)
  ∧ (status e = 0 ↔
     ∃ f rows, files w !! survey_csv = Some f ∧ table_of f = Some rows ∧ Name ∉ lacking f)
  ∧ (status e = 0 →
     ∃ f rows, files w !! survey_csv = Some f ∧ table_of f = Some rows
       ∧ files (after e)
         = <[mapping_yaml := YamlFile (Some (build_template (extract_students rows)))]>
             (files w))
  ∧ (status e ≠ 0 → files (after e) = files w ∧ parents_made (after e) = parents_made w).
Proof.
  cbv zeta. unfold generate_template_main. rewrite generate_template_run_table.
  destruct (files w !! survey_csv) as [f|];
    [destruct (table_of f) as [rows|] eqn:Htable;
       [destruct (decide (Name ∈ lacking f)) as [Hname|Hname];
          [rewrite bool_decide_true by exact Hname
          |rewrite bool_decide_false by exact Hname]|]|];
    cbn [status after files parents_made].
  - split; [right; reflexivity|].
    split; [split; [discriminate | intros (? & ? & [= <-] & _ & ?); done]|].
    split; [discriminate | done].
  - split; [left; reflexivity|].
    split; [split; [intros _; exists f, rows; done | reflexivity]|].
    split; [intros _; exists f, rows; done | intros Hne; destruct Hne; reflexivity].
  - split; [right; reflexivity|].
    split; [split; [discriminate | intros (? & ? & [= <-] & ? & _); congruence]|].
    split; [discriminate | done].
  - split; [right; reflexivity|].
    split; [split; [discriminate | intros (? & ? & [=] & _)]|].
    split; [discriminate | done].
Qed.

(** What add_user_id.py writes, query_responses.py finds, provided the
    survey table has all its columns and the joined file is read back
    as it was written.  After [main] of add_user_id.py has exited with
    0, every row of the survey table can be looked up: the mapping file
    gives the row's trimmed student number a user id, that user id
    passes the range check of [main] of query_responses.py, and called
    with an argument that [int] reads as that user id it exits with
    0. *)
Theorem joined_rows_can_be_queried reread int_of w data f rows r :
  status (add_user_id_main w) = 0 →
  files w !! mapping_yaml = Some (YamlFile (Some data)) →
  files w !! survey_csv = Some f →
  table_of f = Some rows →
  lacking f = [] →
  r ∈ rows →
  (∀ g, files (after (add_user_id_main w)) !! joined_csv = Some g → reread g = g) →
  ∃ user_id,
    dict_get (strip (student_no r)) (scan data).1 = Some user_id
    ∧ 1 ≤ user_id ≤ 18
    ∧ ∀ prog arg, int_of arg = Some user_id →
        status (query_responses_main int_of [prog; arg]
                  (reopened reread joined_csv (after (add_user_id_main w)))) = 0.
Proof.
  intros Hst Hfile Hcsv Htable Hlack Hr Hread.
  destruct (add_user_id_main_zero w Hst)
    as (data' & f' & rows' & Hfile' & _ & Hclean & _ & Hcsv' & Htable' & Hun
        & _ & Hfiles & _).
  assert (data' = data) as -> by congruence.
  assert (f' = f) as -> by congruence.
  assert (rows' = rows) as -> by congruence.
  rewrite Hlack in Hfiles. cbn [joined_file] in Hfiles.
  rewrite unmapped_rows_nil in Hun. destruct (Hun r Hr) as [n Hn].
  assert (1 ≤ n ≤ 18) as Hrange.
  { pose proof (clean_values_range data Hclean) as Hrange.
    rewrite Forall_forall in Hrange. apply Hrange.
    apply dict_get_Some_elem in Hn. apply list_elem_of_fmap.
    exists (strip (student_no r), n). split; [reflexivity | exact Hn]. }
  exists n. rewrite scan_eq. cbn [fst]. split; [exact Hn|]. split; [exact Hrange|].
  intros prog arg Hint.
  apply (query_responses_main_found int_of _ _ arg n
           (sort_values le_user_no (join_row (dict_of (omap entry_pair data)) <$> rows))
           (join_row (dict_of (omap entry_pair data)) r)).
  - reflexivity.
  - exact Hint.
  - exact Hrange.
  - rewrite (files_reopened _ _ _ Hread), Hfiles. apply lookup_insert_eq.
  - rewrite sort_values_perm. apply list_elem_of_fmap. eauto.
  - rewrite join_row_eq. simpl. rewrite Hn. reflexivity.
Qed.

(** The three scripts in a row, unattended.  Take a survey table with
    all its columns that is not empty, in which every row has a student
    number, every trimmed student number has one name, and at most 18
    of them are different; and let the template and the joined file be
    read back as they were written.  Then [main] of
    generate_template.py exits with 0; [main] of add_user_id.py, run
    next on the template as it is, exits with 0; and then [main] of
    query_responses.py exits with 0 for every user number from 1 to the
    number of students. *)
Theorem entry_points_in_a_row reread int_of w rows prog arg user_id :
  files w !! survey_csv = Some (CsvFile rows) →
  rows ≠ [] →
  (∀ r, r ∈ rows → has_student_no r) →
  (∀ r1 r2, r1 ∈ rows → r2 ∈ rows →
            strip (student_no r1) = strip (student_no r2) → name r1 = name r2) →
  (size (student_numbers rows) ≤ 18)%nat →
  int_of arg = Some user_id →
  1 ≤ user_id ≤ Z.of_nat (size (student_numbers rows)) →
  let e1 := generate_template_main w in
  (∀ g, files (after e1) !! mapping_yaml = Some g → reread g = g) →
  let e2 := add_user_id_main (reopened reread mapping_yaml (after e1)) in
  (∀ g, files (after e2) !! joined_csv = Some g → reread g = g) →
  let e3 := query_responses_main int_of [prog; arg]
              (reopened reread joined_csv (after e2)) in
  status e1 = 0 ∧ status e2 = 0 ∧ status e3 = 0.
Proof.
  intros Hcsv Hrows _ Hone Hsize Hint Hrange. cbv zeta.
  destruct paths_distinct as (Hp1 & Hp2 & Hp3).
  destruct (extract_students_one_name rows Hone) as (Hin & Hnd & Hkeys & Hlen & Htrim).
  destruct (generate_template_written w survey_csv mapping_yaml rows Hcsv)
    as (w1 & Hgen & Hfiles1).
  unfold generate_template_main. rewrite Hgen. cbn [status after].
  intros Hread1.
  pose proof (files_reopened _ _ _ Hread1) as Hfiles1'.
  destruct (template_accepted (reopened reread mapping_yaml w1) mapping_yaml
              (extract_students rows))
    as (w2 & Hload & Hfiles2);
    [ rewrite Hfiles1', Hfiles1; apply lookup_insert_eq
    | apply (extract_students_nonempty rows Hrows) | exact Hnd | exact Htrim
    | rewrite Hlen; exact Hsize |].
  rewrite add_user_id_main_run, Hload.
  rewrite add_user_id_and_sort_run_table, Hfiles2, Hfiles1', Hfiles1.
  rewrite lookup_insert_ne by congruence. rewrite Hcsv. cbn [table_of lacking]. cbv zeta.
  rewrite (numbered_students_cover rows Hone).
  rewrite bool_decide_false by (intros H; apply H; reflexivity).
  cbn [status after joined_file]. intros Hread2.
  split; [reflexivity|]. split; [reflexivity|].
  destruct (lookup_lt_is_Some_2 (extract_students rows) (Z.to_nat (user_id - 1)))
    as [[k who] Hi]; [lia|].
  pose proof (numbered_get _ _ _ _ Hnd Hi) as Hget.
  apply list_elem_of_lookup_2, Hin in Hi as (r & Hr & -> & _).
  apply (query_responses_main_found int_of _ _ arg user_id
           (sort_values le_user_no (join_row (numbered (extract_students rows)) <$> rows))
           (join_row (numbered (extract_students rows)) r)).
  - reflexivity.
  - exact Hint.
  - lia.
  - rewrite (files_reopened _ _ _ Hread2). cbn [files]. apply lookup_insert_eq.
  - rewrite sort_values_perm. apply list_elem_of_fmap. eauto.
  - rewrite join_row_eq. simpl. rewrite Hget. simpl. lia.
Qed.

End entry_points.

Lemma padded_rows_queried :
  let e := add_user_id_main (sorter := stable_sort) (app_world padded_data padded_rows) in
  status e = 0
  ∧ status (query_responses_main decimal [py "query_responses.py"; py "2"]
              (reopened (λ g, g) joined_csv (after e))) = 0.
Proof.
  cbv zeta. split; [vm_compute; reflexivity|].
  destruct (joined_rows_can_be_queried (sorter := stable_sort) (λ g, g) decimal
              (app_world padded_data padded_rows) padded_data
              (CsvFile padded_rows) padded_rows
              (Row (py " S001 ") (Some (py "A")) (Some (py "good")) None None []))
    as (user_id & Hget & _ & Hq).
  - vm_compute. reflexivity.
  - vm_compute. reflexivity.
  - vm_compute. reflexivity.
  - reflexivity.
  - reflexivity.
  - unfold padded_rows. left.
  - reflexivity.
  - apply Hq. vm_compute in Hget. injection Hget as Hid. subst user_id.
    vm_compute. reflexivity.
Defined.

Lemma one_spelling_in_a_row :
  let e1 := generate_template_main (sorter := stable_sort) (survey_world one_spelling) in
  let e2 := add_user_id_main (sorter := stable_sort)
              (reopened (λ g, g) mapping_yaml (after e1)) in
  let e3 := query_responses_main decimal [py "query_responses.py"; py "2"]
              (reopened (λ g, g) joined_csv (after e2)) in
  status e1 = 0 ∧ status e2 = 0 ∧ status e3 = 0.
Proof.
  apply (entry_points_in_a_row (sorter := stable_sort) (λ g, g) decimal
           (survey_world one_spelling) one_spelling (py "query_responses.py") (py "2") 2).
  - vm_compute. reflexivity.
  - discriminate.
  - intros r Hr. unfold one_spelling in Hr.
    repeat (apply elem_of_cons in Hr as [->|Hr]; [discriminate|]). inversion Hr.
  - intros r1 r2 H1 H2. unfold one_spelling in H1, H2.
    repeat (apply elem_of_cons in H1 as [->|H1]);
      repeat (apply elem_of_cons in H2 as [->|H2]);
      try (inversion H1; fail); try (inversion H2; fail);
      vm_compute; intros [=]; reflexivity.
  - vm_compute. lia.
  - vm_compute. reflexivity.
  - replace (size (student_numbers one_spelling)) with 2%nat by (vm_compute; reflexivity).
    lia.
  - reflexivity.
  - reflexivity.
Defined.

(** ** The statistics of the join *)

Lemma minimum_sorted l : StronglySorted Z.le l → minimum l = head l.
Proof.
  destruct l as [|x l]; [reflexivity|]. intros Hs.
  apply StronglySorted_inv in Hs as [_ Hx]. simpl. f_equal.
  induction Hx as [|y l Hy _ IH]; simpl; [reflexivity|]. rewrite IH. lia.
Qed.

Lemma foldr_max_le x y l : x ≤ y → Z.max y (foldr Z.max x l) = foldr Z.max y l.
Proof. intros Hxy. induction l as [|z l IH]; simpl; lia. Qed.

Lemma maximum_sorted l : StronglySorted Z.le l → maximum l = last l.
Proof.
  destruct l as [|x l]; [reflexivity|]. revert x.
  induction l as [|y l IH]; intros x Hs; [reflexivity|].
  apply StronglySorted_inv in Hs as [Hs Hx]. apply Forall_cons in Hx as [Hxy _].
  rewrite last_cons_cons, <- (IH y Hs). simpl. f_equal. apply foldr_max_le, Hxy.
Qed.

Section statistics.
Context {sorter : SortValues}.

(** The statistics [add_user_id_and_sort] prints last agree with the
    file it has written: the number of rows is that of the table it
    read, and the range of user numbers goes from the first row of the
    output to its last (there is none for a table without rows). *)
Theorem add_user_id_and_sort_statistics w csv_path user_mapping output_path w' :
  add_user_id_and_sort csv_path user_mapping output_path w = (inr (), w') →
  ∃ f rows df progress,
    files w !! csv_path = Some f
    ∧ table_of f = Some rows
    ∧ files w' !! output_path = Some (joined_file (lacking f) df)
    ∧ stdout w'
      = stdout w ++ progress
          ++ [ StatisticsHeader;
               TotalRows (length rows);
               UserNoRange (user_no <$> head df) (user_no <$> last df);
               OutputColumns ].
Proof.
  rewrite add_user_id_and_sort_run_table. intros Hrun.
  destruct (files w !! csv_path) as [f|]; [|discriminate].
  destruct (table_of f) as [rows|] eqn:Htable; [|discriminate]. cbv zeta in Hrun.
  destruct (bool_decide (unmapped_rows user_mapping rows ≠ []));
    [destruct (bool_decide (Name ∈ lacking f)); discriminate|].
  injection Hrun as <-.
  set (df := sort_values le_user_no (join_row user_mapping <$> rows)).
  assert (StronglySorted Z.le (user_no <$> df)) as Hsorted.
  { eapply StronglySorted_fmap;
      [|apply (sort_values_sorted _ le_user_no);
        [apply le_user_no_total | apply le_user_no_trans]].
    intros a b Hab. apply Z.leb_le, Hab. }
  exists f, rows, df,
    [ReadingCsv csv_path; AddingUserNo; Sorting; SavingOutput output_path; Completed].
  split; [reflexivity|]. split; [exact Htable|].
  split; [apply lookup_insert_eq|]. cbn [stdout].
  rewrite (minimum_sorted _ Hsorted), (maximum_sorted _ Hsorted), fmap_last.
  replace (length df) with (length rows)
    by (unfold df; rewrite sort_values_perm, length_fmap; reflexivity).
  replace (head (user_no <$> df)) with (user_no <$> head df) by (destruct df; reflexivity).
  reflexivity.
Qed.

End statistics.

Lemma repeated_rows_statistics :
  let run := add_user_id_and_sort (sorter := stable_sort) "answers.csv"
               [(py "S001", 2); (py "S002", 1)] "out/joined.csv" (csv_world repeated_rows) in
  run.1 = inr ()
  ∧ stdout run.2
    = [ ReadingCsv "answers.csv"; AddingUserNo; Sorting; SavingOutput "out/joined.csv";
        Completed; StatisticsHeader; TotalRows 4; UserNoRange (Some 1) (Some 2);
        OutputColumns ].
Proof.
  destruct (add_user_id_and_sort_statistics (sorter := stable_sort)
              (csv_world repeated_rows) "answers.csv" [(py "S001", 2); (py "S002", 1)]
              "out/joined.csv"
              (add_user_id_and_sort (sorter := stable_sort) "answers.csv"
                 [(py "S001", 2); (py "S002", 1)] "out/joined.csv"
                 (csv_world repeated_rows)).2)
    as (f & rows & df & progress & _).
  - vm_compute. reflexivity.
  - cbv zeta. split; vm_compute; reflexivity.
Defined.
